(* ===== verification/_CoqProject ===== *)
-Q . S2P
Prelude.v
Logging.v
Format.v
Platform.v
Agent.v
Evaluator.v
Health.v
Process.v
Counter.v
Loop.v
Phase.v
Scenarios.v
FillingMode.v
TradeStats.v
AccountStatus.v
Report.v
Probe.v
