(* ===== verification/Prelude.v ===== *)
(** * Monn: a verification development of the MT5 monitoring agent

    The repository (pbezant/Monn) holds three Python scripts around a
    MetaTrader5 trading account:
    - src/monitoring_agent.py, the program this development is about: a
      [MonitoringAgent] that polls, every [check_interval] seconds, the
      Windows process table (is the trading bot running?) and the MT5
      account (balance, equity, margin level), logs equity moves of
      more than 5%, drawdowns of more than 10% and margin levels below
      100%, counts failed checks in a decaying counter and logs a
      sustained-failure alert when the counter reaches 5;
    - src/get_account_status.py, a one-shot report of the account, its
      positions and its trade history;
    - src/test_filling_mode.py, a probe of the symbols' order filling
      modes.

    ** How the program is modelled

    The agent's state is [Agent.World]: the four fields of [self]
    ([MonitoringAgent]: last_balance, last_equity, error_count,
    alert_threshold), whether [import MetaTrader5] succeeded, whether a
    terminal connection is open, the log file (a list of records) and
    the state of the outside world.  Each method is a program of the
    Python monad of this file, [PyM]: a function from the state to an
    outcome (a value or a raised exception, [pyres]) and the final
    state, so that, as in Python, what a method changed before raising
    stays changed.  The outside world is reached only through the
    [Platform.Platform] typeclass (MT5 initialize / account_info,
    [subprocess.run] of tasklist, interruption of [time.sleep]); every
    theorem holds for every instance, and [Platform.Scripted] is a fake
    adapter replaying scripted answers, on which the witnesses and the
    scenarios run.  Python floats are exact rationals [Q] (see below);
    Python integers are [Z].

    Files, in dependency order:
    - Prelude (this file): Python exceptions, the monad [PyM] with its
      notation ([x <- m ;; k], [m ;;; k]) in [py_scope], division that
      raises ZeroDivisionError ([py_truediv]), float comparison
      ([py_lt]), Python's substring test [py_str_in] with its
      specification, and the reasoning tools every component uses:
      [preserves] (invariants of monadic programs), [raises_only]
      (which exceptions a program raises), [never_returns], the [monn]
      hint database and the [discharge] tactic of the witnesses.
    - Logging: [logging.basicConfig(level=INFO)] (lines 15-19) and one
      structured message per [logging.*] call site.
    - Format (Module Format): the text of the log: the line format of
      line 18 ([format_line]), the f-string of every [logging.*] call
      ([render_msg]), Python's [str(int)] ([py_str_int]) and
      [format(x, '.2f')] ([fmt_fixed], round half to even, sign kept on
      [-0.00]), with the reference parser [parse_decimal] of a printed
      amount.
    - Platform: the collaborators' interface and the scripted adapter.
    - Agent: the [World], [MonitoringAgent.__init__] (lines 22-26), one
      action per primitive effect, and frame lemmas ([keeps],
      [log_grows]) with their combinators in [monn].
    - Evaluator (Module Evaluator): lines 48-61, the comparison with the
      remembered values and the margin check, as pure functions to the
      records emitted or the exception raised; Module Evaluator.Spec is
      the spec's [evaluate] contract.
    - Health (Section Health): [check_account_health], lines 28-77.
    - Process (Section Process): [check_bot_process], lines 79-94.
    - Counter (Module Counter): the error-counter update of lines
      105-108 / 111-114, its composition per cycle and over runs, and
      the spec's counter on naturals (Counter.Spec).
    - Loop (Section Loop): one cycle [loop_body] (lines 103-121),
      [monitor_loop] (96-125) and [main] (127-129).
    - Phase: [monitor_loop] as a small-step machine over its program
      points (start record, process check and count, account check
      and count, escalation, sleep, the [except] clause, returned or
      crashed), with an executable step function [loop_step] and the
      rules [sstep], proved equal.
    - Scenarios: runs of [main] on every platform that answers the
      same way at every cycle ([steady_env]), and [const_platform], a
      platform giving one [tasklist] answer forever.
    - FillingMode (Module FillingMode): test_filling_mode.py lines
      14-43, the choice of the filling policy from a symbol's
      [filling_mode] bitmask ([fm & k] as [Z.land]) and the per-symbol
      report; Module FillingMode.Spec is the intended choice.
    - TradeStats (Module TradeStats): get_account_status.py lines
      54-126, the day's and the seven-day loops over the deals, the
      [by_symbol] dictionary (an insertion-ordered association list,
      as a Python dict) and the [sorted(..., reverse=True)] of line 123
      (a stable insertion sort).
    - AccountStatus (Module AccountStatus): the [main] of
      get_account_status.py (lines 9-128): its two [sys.exit(1)]
      paths, the positions section and the final [mt5.shutdown()], with
      the terminal's answers as inputs.
    - Report (Module Report): the text get_account_status.py prints,
      line by line: one list of lines per section (lines 21-31, 34-52,
      58-86, 92-126) and per exit path, amounts through
      [Format.fmt_fixed] ([:.2f], [:.1f]); [status_text] composes them
      over [AccountStatus.status_main].  The [repr] of a float, the
      local time of a timestamp and [mt5.last_error()] are inputs
      ([ReportText]).
    - Probe (Module Probe): the whole run of test_filling_mode.py
      (lines 6-80) as printed lines from the terminal's answers: the
      blocks of [FillingMode.filling_report], the constants, the order
      request on the EURUSD ask price, [order_check] and the final
      [mt5.shutdown()].

    ** What is proved

    - The loop (Loop): the invariant of every run of [main] (counter
      non-negative, remembered values paired, threshold 5, log starting
      with the start record); each cycle refines the abstract counter
      [Counter.cycle_count] of the two checks' results and logs the
      alert exactly when the new count reaches the threshold; the only
      exception that can crash [main] is ZeroDivisionError; how the loop
      exits (Stopped exactly when the loop raised KeyboardInterrupt,
      the stop record appended only then; any other exception
      re-raised with the loop's state); a negative interval makes the
      first cycle crash.
    - The machine (Phase): every reachable state, at any depth of the
      unbounded loop, satisfies the invariant (counter non-negative,
      memory paired, threshold 5, only KeyboardInterrupt or
      ZeroDivisionError in flight, crashes only by ZeroDivisionError,
      stop record last on return), by rule induction.  A lemma checks
      that the machine reaches exactly the state [monitor_loop]
      returns, so that this invariant is one of the code.
    - The counter (Counter): refinement of the spec's counter, bounds
      (at most 2 per cycle), decay to zero in ceil(c/2) good cycles,
      escalation after exactly ceil((t-c)/2) bad cycles, an isolated
      failure never exceeds 1, and a single check failing forever never
      makes the counter grow (a finding).
    - The account check (Health, Evaluator): the 5% / 10% / 100
      thresholds, first and later polls, the refinement of the spec's
      [evaluate], the ZeroDivisionError on a remembered zero balance or
      equity, the connection left open when it raises, the pairing of
      the remembered values, the state update.
    - The liveness check (Process): True exactly when the tasklist
      output contains [python.exe] (any python.exe, the agent included).
    - Scenarios: on every platform whose process check passes and
      whose terminal never comes up (the spec's scenario), the counter
      is 1 after every cycle and the alert is never logged (a finding);
      on every platform where both checks fail, the counter after [k]
      cycles is [2k] and the alerts are exactly those of the counts 6,
      8, ..., from the third cycle on.  The spec's examples of
      [evaluate] are evaluated in Evaluator.
    - The filling-mode probe (FillingMode): the choice equals the first
      advertised policy in the order FOK, IOC, RETURN (equivalence with
      the Spec), depends only on [fm & 7], and falls back to a policy
      the symbol does not advertise when no flag is set (a finding);
      the report has one line per symbol, in order.
    - The trade statistics (TradeStats): the loops' totals equal the
      reference sums and counts over the exit deals; "Total Trades"
      leaves out the break-even exits (a finding) while the per-symbol
      counts include them; the dictionary has one entry per traded
      symbol with its profit sum and count, and these add up to the
      total P&L; the printed order is a permutation, non-increasing in
      profit and stable on ties.
    - The printed report (Report): exactly one line carries the
      seven-day "Total P&L", and its amount reads back within half a
      cent of the sum of the week's exit-deal profits (composing the
      loop, the totals and [{x:.2f}]); every printed "Win Rate" reads
      back between 0 and 100.
    - The probe's run (Probe): the blocks printed per symbol say bits
      0-2 of the mask and the chosen policy; the run stops with an AttributeError before [mt5.shutdown()] when the
      terminal has no EURUSD tick (a finding).

    ** Bounds, fuel and representation choices

    [while True] is unbounded; [Loop.while_true] runs it for [fuel]
    cycles chosen by each statement, and [monitor_loop] reports
    [StillRunning] when they all complete.  The machine of Phase has
    no fuel: its invariant holds on every reachable state, so on every
    prefix of the infinite run, and [steps] (the executable iteration)
    is used only to exhibit runs.  Invariants are stated for
    every [fuel], so they hold for every prefix of the infinite run; the
    loop's other exits (KeyboardInterrupt, an uncaught exception) are
    reached at a finite cycle and are characterised exactly.  No
    statement assumes that the loop stops.  Floats are rationals:
    the theorems describe the decisions the code takes on the values it
    means to compute; IEEE rounding at the exact thresholds (e.g. a
    move of exactly 5% computed as 5.000000000000001) is not modelled.

    ** Not modelled

    In the log lines: the timestamp, [mt5.last_error()], [str(e)] of an
    exception and [json.dumps] of the status (Python's float [repr])
    are inputs of [Format.render_msg], not modelled; [{x:.2f}] is
    modelled on exact rationals, so a decimal tie such as 2.675, which
    Python sees as the binary double just below it, may print
    differently.  The three console [print]s of monitoring_agent.py
    (lines 99, 100, 125), a KeyboardInterrupt arriving elsewhere than in
    [subprocess.run] or [time.sleep], and the MT5 terminal and the
    Windows process table themselves (only their answers are modelled).
    In get_account_status.py the date windows ([datetime.now()],
    [timedelta(days=7)]) are not modelled: the deals the terminal
    returns for them are inputs, as are the [repr] of the floats it
    prints unformatted, the local time of a timestamp and
    [mt5.last_error()] ([Report.ReportText]).  In test_filling_mode.py
    the return
    values of [mt5.initialize()] and [mt5.login(...)] are ignored by the
    script and are not modelled.

    ** Plan of the next components

    1. Floats at IEEE double precision at the 5% / 10% / 100
       thresholds (the comparisons as the code rounds them), which
       needs a binary64 model the installed libraries do not provide.
    2. The [json.dumps] text of the status record (line 74): Python's
       float repr is itself an IEEE-dependent algorithm, so this waits
       on item 1.
    3. Python's float [repr] (shortest round-tripping digits) on the
       same binary64 model, which would turn the [float_repr] inputs
       of Report into definitions. *)

From Stdlib Require Import ZArith QArith Qabs String List Bool Lia Lqa.
Import ListNotations.

(** ** Python exceptions

    The exceptions the modelled code can raise or catch.  [is_Exception]
    says whether an exception derives from [Exception]: an
    [except Exception] clause (monitoring_agent.py, line 92) catches
    exactly those, and KeyboardInterrupt derives from BaseException
    only. *)

Inductive PyExc : Type :=
  | ZeroDivisionError
  | TypeError
  | ValueError
  | OSError
  | KeyboardInterrupt.

Definition PyExc_eq_dec (e1 e2 : PyExc) : {e1 = e2} + {e1 <> e2}.
Proof. decide equality. Defined.

Definition is_Exception (e : PyExc) : bool :=
  match e with
  | KeyboardInterrupt => false
  | _ => true
  end.

Definition is_KeyboardInterrupt (e : PyExc) : bool :=
  match e with
  | KeyboardInterrupt => true
  | _ => false
  end.

(** ** The Python state-and-exception monad

    A Python statement runs against a state and either completes with a
    value or raises.  In both cases the state it has changed so far
    survives: an exception does not roll back [self.x = ...] nor an
    emitted log line.  So the result is a pair of an outcome and the
    final state, not a sum around the state. *)

Inductive pyres (A : Type) : Type :=
  | Ret (a : A)
  | Exc (e : PyExc).
Arguments Ret {A} a.
Arguments Exc {A} e.

Definition PyM (S A : Type) : Type := S -> pyres A * S.

Section Monad.
Context {S : Type}.

Definition pret {A} (a : A) : PyM S A := fun s => (Ret a, s).

Definition pbind {A B} (m : PyM S A) (k : A -> PyM S B) : PyM S B :=
  fun s =>
    match m s with
    | (Ret a, s') => k a s'
    | (Exc e, s') => (Exc e, s')
    end.

Definition praise {A} (e : PyExc) : PyM S A := fun s => (Exc e, s).

(** Lift a pure computation that may raise (e.g. a division). *)
Definition plift {A} (r : pyres A) : PyM S A := fun s => (r, s).

Definition pget : PyM S S := fun s => (Ret s, s).
Definition pmodify (f : S -> S) : PyM S unit := fun s => (Ret tt, f s).

(** [try: m except <handles>: h]: an exception [e] with [handles e]
    runs the handler in the state the body left; others propagate. *)
Definition ptry {A} (m : PyM S A) (handles : PyExc -> bool)
           (h : PyExc -> PyM S A) : PyM S A :=
  fun s =>
    match m s with
    | (Exc e, s') => if handles e then h e s' else (Exc e, s')
    | r => r
    end.
End Monad.

Declare Scope py_scope.
Delimit Scope py_scope with py.
Notation "x <- m ;; k" := (pbind m (fun x => k))
  (at level 61, m at next level, right associativity) : py_scope.
Notation "m ;;; k" := (pbind m (fun _ => k))
  (at level 61, right associativity) : py_scope.
Open Scope py_scope.

Lemma pbind_ret {S A B} (a : A) (k : A -> PyM S B) (s : S) :
  pbind (pret a) k s = k a s.
Proof. reflexivity. Qed.

Lemma pbind_assoc {S A B C} (m : PyM S A) (k : A -> PyM S B)
      (k' : B -> PyM S C) (s : S) :
  pbind (pbind m k) k' s = pbind m (fun a => pbind (k a) k') s.
Proof. unfold pbind. destruct (m s) as [[a|e] s']; reflexivity. Qed.

(** ** Python floats

    Python floats are modelled by exact rationals [Q]: the thresholds
    of the code (5, -10, 100) are compared against differences and
    quotients of account amounts, and the development states what the
    code decides for the real-valued quantities it means to compute,
    not IEEE rounding (see the header).  Division by a zero float
    raises ZeroDivisionError, as in Python. *)

Definition py_truediv (a b : Q) : pyres Q :=
  if Qeq_bool b 0 then Exc ZeroDivisionError else Ret (a / b).

(** [a < b] on floats, as a boolean. *)
Definition py_lt (a b : Q) : bool := negb (Qle_bool b a).

Lemma py_lt_spec (a b : Q) : py_lt a b = true <-> a < b.
Proof.
  unfold py_lt. rewrite negb_true_iff. split; intro H.
  - apply Qnot_le_lt. intro Hle. apply Qle_bool_iff in Hle. congruence.
  - destruct (Qle_bool b a) eqn:E; [|reflexivity].
    apply Qle_bool_iff in E. exfalso. apply (Qlt_not_le a b); assumption.
Qed.

Lemma py_lt_false (a b : Q) : py_lt a b = false <-> b <= a.
Proof.
  unfold py_lt. rewrite negb_false_iff. apply Qle_bool_iff.
Qed.

Lemma py_truediv_ok (a b : Q) :
  ~ b == 0 -> py_truediv a b = Ret (a / b).
Proof.
  intro H. unfold py_truediv. destruct (Qeq_bool b 0) eqn:E; [|reflexivity].
  apply Qeq_bool_eq in E. contradiction.
Qed.

Lemma py_truediv_zero (a b : Q) :
  b == 0 -> py_truediv a b = Exc ZeroDivisionError.
Proof.
  intro H. unfold py_truediv. rewrite (Qeq_eq_bool _ _ H). reflexivity.
Qed.

(** [abs(x) > t] for a non-negative threshold. *)
Lemma Qabs_gt_iff (x t : Q) : 0 <= t -> (t < Qabs x <-> t < x \/ x < - t).
Proof.
  intro Ht. apply Qabs_case; intro Hx; split; intro H.
  - left; exact H.
  - destruct H; lra.
  - right; lra.
  - destruct H; lra.
Qed.

(** ** Python [needle in haystack] on strings: substring search *)

Fixpoint py_str_in (needle hay : string) : bool :=
  match hay with
  | EmptyString => String.eqb needle EmptyString
  | String _ rest => String.prefix needle hay || py_str_in needle rest
  end.

Lemma prefix_app (p s : string) :
  String.prefix p s = true <-> exists suf, s = (p ++ suf)%string.
Proof.
  revert s. induction p as [|a p IH]; intro s; simpl.
  - split; [intros _; exists s; reflexivity | intros _; destruct s; reflexivity].
  - destruct s as [|b s].
    + split; [discriminate | intros [suf H]; discriminate].
    + change (String.prefix (String a p) (String b s)) with
        (if Ascii.ascii_dec a b then String.prefix p s else false).
      destruct (Ascii.ascii_dec a b) as [->|Hne].
      * rewrite IH. split; intros [suf H]; exists suf.
        -- rewrite H. reflexivity.
        -- injection H as H. exact H.
      * split; [discriminate|]. intros [suf H]. injection H; congruence.
Qed.

Theorem py_str_in_spec (needle hay : string) :
  py_str_in needle hay = true <->
  exists pre suf, hay = (pre ++ needle ++ suf)%string.
Proof.
  induction hay as [|c hay IH]; cbn [py_str_in].
  - rewrite String.eqb_eq. split.
    + intros ->. exists EmptyString, EmptyString. reflexivity.
    + intros [pre [suf H]]. destruct pre, needle; simpl in H;
        congruence.
  - rewrite orb_true_iff, IH, prefix_app. split.
    + intros [[suf H] | [pre [suf H]]].
      * exists EmptyString, suf. exact H.
      * exists (String c pre), suf. rewrite H. reflexivity.
    + intros [[|c' pre] [suf H]]; simpl in H.
      * left. exists suf. exact H.
      * right. injection H as _ H. exists pre, suf. exact H.
Qed.

(** ** Shared automation *)

Create HintDb monn discriminated.
Create Rewrite HintDb monn_rw.

#[export] Hint Rewrite @pbind_ret @pbind_assoc : monn_rw.

(** Run a monadic program on a concrete or symbolic state: unfold the
    monad's combinators and reduce. *)
Ltac py_unfold :=
  unfold pbind, pret, praise, plift, pget, pmodify, ptry in *.

(** Case on a float comparison of the code, with its meaning in Q. *)
Ltac case_py_lt a b :=
  let E := fresh "Hlt" in
  destruct (py_lt a b) eqn:E;
  [apply py_lt_spec in E | apply py_lt_false in E].

(** ** Invariants of monadic programs

    [preserves P m]: every run of [m] from a state satisfying [P] ends,
    by returning or by raising, in a state satisfying [P].  The
    combinator lemmas below make the property compositional, and are
    hints of the [monn] database. *)

Definition preserves {S A} (P : S -> Prop) (m : PyM S A) : Prop :=
  forall s r s', P s -> m s = (r, s') -> P s'.

Section Preserves.
Context {S : Type} (P : S -> Prop).

Lemma preserves_ret {A} (a : A) : preserves P (pret a).
Proof. intros s r s' Hs [= _ <-]. exact Hs. Qed.

Lemma preserves_raise {A} (e : PyExc) : preserves P (@praise S A e).
Proof. intros s r s' Hs [= _ <-]. exact Hs. Qed.

Lemma preserves_lift {A} (x : pyres A) : preserves P (@plift S A x).
Proof. intros s r s' Hs [= _ <-]. exact Hs. Qed.

Lemma preserves_get : preserves P (@pget S).
Proof. intros s r s' Hs [= _ <-]. exact Hs. Qed.

Lemma preserves_modify (f : S -> S) :
  (forall s, P s -> P (f s)) -> preserves P (pmodify f).
Proof. intros Hf s r s' Hs [= _ <-]. apply Hf, Hs. Qed.

Lemma preserves_bind {A B} (m : PyM S A) (k : A -> PyM S B) :
  preserves P m -> (forall a, preserves P (k a)) -> preserves P (pbind m k).
Proof.
  intros Hm Hk s r s' Hs. unfold pbind.
  destruct (m s) as [[a|e] s1] eqn:E.
  - apply Hk. exact (Hm s _ s1 Hs E).
  - intros [= _ <-]. exact (Hm s _ s1 Hs E).
Qed.

Lemma preserves_try {A} (m : PyM S A) (hd : PyExc -> bool)
      (h : PyExc -> PyM S A) :
  preserves P m -> (forall e, preserves P (h e)) -> preserves P (ptry m hd h).
Proof.
  intros Hm Hh s r s' Hs. unfold ptry.
  destruct (m s) as [[a|e] s1] eqn:E.
  - intros [= _ <-]. exact (Hm s _ s1 Hs E).
  - destruct (hd e).
    + apply Hh. exact (Hm s _ s1 Hs E).
    + intros [= _ <-]. exact (Hm s _ s1 Hs E).
Qed.

Lemma preserves_if {A} (b : bool) (m1 m2 : PyM S A) :
  preserves P m1 -> preserves P m2 -> preserves P (if b then m1 else m2).
Proof. destruct b; auto. Qed.

Lemma preserves_match_option {A B} (o : option B) (m1 : B -> PyM S A)
      (m2 : PyM S A) :
  (forall b, preserves P (m1 b)) -> preserves P m2 ->
  preserves P (match o with Some b => m1 b | None => m2 end).
Proof. destruct o; auto. Qed.

End Preserves.

#[export] Hint Resolve preserves_ret preserves_raise preserves_lift
  preserves_get preserves_bind preserves_try preserves_if
  preserves_match_option : monn.

(** A run of a program that preserves [P] ends in [P]. *)
Lemma preserves_run {S A} (P : S -> Prop) (m : PyM S A) (s : S) :
  preserves P m -> P s -> P (snd (m s)).
Proof. intros Hm Hs. destruct (m s) as [r s'] eqn:E. exact (Hm s r s' Hs E). Qed.

(** ** Generic list facts *)

Lemma filter_none {A} (f : A -> bool) (l : list A) :
  (forall x, In x l -> f x = false) -> filter f l = [].
Proof.
  induction l as [|x l IH]; intro Hf; simpl; [reflexivity|].
  rewrite (Hf x (or_introl eq_refl)). apply IH. intros y Hy. apply Hf. right. exact Hy.
Qed.

(** ** Stepping through a bind *)

Lemma pbind_run {S A B} (m : PyM S A) (k : A -> PyM S B) (s s' : S) (a : A) :
  m s = (Ret a, s') -> pbind m k s = k a s'.
Proof. intro H. unfold pbind. rewrite H. reflexivity. Qed.

Lemma pbind_exc {S A B} (m : PyM S A) (k : A -> PyM S B) (s s' : S) (e : PyExc) :
  m s = (Exc e, s') -> pbind m k s = (Exc e, s').
Proof. intro H. unfold pbind. rewrite H. reflexivity. Qed.

(** ** Which exceptions a program can raise

    [raises_only P Pe m]: a run of [m] from a state satisfying [P] that
    raises, raises an exception satisfying [Pe]. *)

Definition raises_only {S A} (P : S -> Prop) (Pe : PyExc -> Prop) (m : PyM S A) : Prop :=
  forall s e s', P s -> m s = (Exc e, s') -> Pe e.

Section RaisesOnly.
Context {S : Type} (P : S -> Prop) (Pe : PyExc -> Prop).

Lemma raises_only_ret {A} (a : A) : raises_only P Pe (pret a).
Proof. intros s e s' _ [=]. Qed.

Lemma raises_only_get : raises_only P Pe (@pget S).
Proof. intros s e s' _ [=]. Qed.

Lemma raises_only_modify (f : S -> S) : raises_only P Pe (pmodify f).
Proof. intros s e s' _ [=]. Qed.

Lemma raises_only_raise {A} (e : PyExc) : Pe e -> raises_only P Pe (@praise S A e).
Proof. intros He s e' s' _ [= <- _]. exact He. Qed.

Lemma raises_only_bind {A B} (m : PyM S A) (k : A -> PyM S B) :
  preserves P m -> raises_only P Pe m -> (forall a, raises_only P Pe (k a)) ->
  raises_only P Pe (pbind m k).
Proof.
  intros Hp Hm Hk s e s' Hs. unfold pbind.
  destruct (m s) as [[a|e1] s1] eqn:E.
  - apply Hk. exact (Hp s _ s1 Hs E).
  - intros [= <- <-]. exact (Hm s e1 s1 Hs E).
Qed.

Lemma raises_only_try {A} (m : PyM S A) (hd : PyExc -> bool) (h : PyExc -> PyM S A) :
  preserves P m -> raises_only P (fun e => hd e = false -> Pe e) m ->
  (forall e, raises_only P Pe (h e)) -> raises_only P Pe (ptry m hd h).
Proof.
  intros Hp Hm Hh s e s' Hs. unfold ptry.
  destruct (m s) as [[a|e1] s1] eqn:E; [discriminate|].
  destruct (hd e1) eqn:Ehd.
  - apply Hh. exact (Hp s _ s1 Hs E).
  - intros [= <- <-]. exact (Hm s e1 s1 Hs E Ehd).
Qed.

Lemma raises_only_if {A} (b : bool) (m1 m2 : PyM S A) :
  raises_only P Pe m1 -> raises_only P Pe m2 -> raises_only P Pe (if b then m1 else m2).
Proof. destruct b; auto. Qed.

Lemma raises_only_weaken {A} (Pe' : PyExc -> Prop) (m : PyM S A) :
  (forall e, Pe' e -> Pe e) -> raises_only P Pe' m -> raises_only P Pe m.
Proof. intros Hw Hm s e s' Hs Hrun. apply Hw. exact (Hm s e s' Hs Hrun). Qed.

End RaisesOnly.

Lemma raises_only_strengthen {S A} (P P' : S -> Prop) (Pe : PyExc -> Prop) (m : PyM S A) :
  (forall s, P' s -> P s) -> raises_only P Pe m -> raises_only P' Pe m.
Proof. intros HP Hm s e s' Hs. apply Hm, HP, Hs. Qed.

#[export] Hint Resolve raises_only_ret raises_only_get raises_only_modify
  raises_only_bind raises_only_if : monn.

(** ** Programs that always raise *)

Definition never_returns {S A} (m : PyM S A) : Prop :=
  forall s, exists e s', m s = (Exc e, s').

Lemma never_returns_bind {S A B} (m : PyM S A) (k : A -> PyM S B) :
  (forall a, never_returns (k a)) -> never_returns (pbind m k).
Proof.
  intros Hk s. unfold pbind. destruct (m s) as [[a|e] s1]; [apply Hk | eauto].
Qed.

Lemma never_returns_raise {S A} (e : PyExc) : never_returns (@praise S A e).
Proof. intro s. exists e, s. reflexivity. Qed.

Lemma never_returns_bind_l {S A B} (m : PyM S A) (k : A -> PyM S B) :
  never_returns m -> never_returns (pbind m k).
Proof.
  intros Hm s. unfold pbind. destruct (Hm s) as [e [s' ->]]. eauto.
Qed.

(** Close a hypothesis of a theorem at a concrete input by evaluation. *)
Ltac discharge :=
  first [ reflexivity | apply Qeq_refl | lia
        | vm_compute; reflexivity | vm_compute; discriminate
        | vm_compute; intro; discriminate ].
