(* ===== verification/Logging.v ===== *)
(** * Logging: the log records of monitoring_agent.py

    The agent reports everything through Python's [logging] module,
    configured once at import time (monitoring_agent.py, lines 15-19)
    with [level=logging.INFO].  A record is kept as its level and a
    structured message: one constructor per [logging.*] call site of
    the source, carrying the values the f-string formats.  The text
    layout (timestamp, [%.2f] rendering) is not modelled.  The log is
    an append-only list, oldest record first. *)

From Stdlib Require Import ZArith QArith List String.
From S2P Require Import Prelude.
Import ListNotations.

Module Logging.

Inductive Level : Type :=
  | DEBUG
  | INFO
  | WARNING
  | ERROR
  | CRITICAL.

(** The numeric values of the [logging] levels. *)
Definition levelno (l : Level) : Z :=
  match l with
  | DEBUG => 10
  | INFO => 20
  | WARNING => 30
  | ERROR => 40
  | CRITICAL => 50
  end.

Definition Level_eq_dec (l1 l2 : Level) : {l1 = l2} + {l1 <> l2}.
Proof. decide equality. Defined.

(** One constructor per call site of [logging.*] in
    monitoring_agent.py; the line is given for each. *)
Inductive Msg : Type :=
  | MsgMt5Unavailable                     (* line 31 *)
  | MsgInitFailed                         (* line 34 *)
  | MsgAccountInfoFailed                  (* line 39 *)
  | MsgEquityChanged (pct : Q)            (* line 54 *)
  | MsgEquityDrawdown (pct : Q)           (* line 57 *)
  | MsgMarginLevel (level : Q)            (* line 61 *)
  | MsgStatus (balance equity profit margin_level : Q)  (* line 74 *)
  | MsgBotNotFound                        (* line 89 *)
  | MsgBotCheckError (e : PyExc)          (* line 93 *)
  | MsgAgentStarted                       (* line 98 *)
  | MsgConsecutiveErrors (count : Z)      (* line 118 *)
  | MsgAgentStopped.                      (* line 124 *)

Record LogRecord : Type := mkRecord {
  levelname : Level;
  message : Msg
}.

(** [logging.basicConfig(level=logging.INFO)], lines 15-19. *)
Definition root_level : Level := INFO.

Definition isEnabledFor (l : Level) : bool :=
  (levelno root_level <=? levelno l)%Z.

(** [logging.<level>(msg)]: the record is appended when its level
    passes the root logger's threshold. *)
Definition emit (l : Level) (m : Msg) (log : list LogRecord)
  : list LogRecord :=
  if isEnabledFor l then log ++ [mkRecord l m] else log.

(** Every level the agent uses passes the INFO threshold. *)
Lemma emit_enabled (l : Level) (m : Msg) (log : list LogRecord) :
  l <> DEBUG -> emit l m log = log ++ [mkRecord l m].
Proof. intro H. destruct l; [congruence| reflexivity ..]. Qed.

Lemma emit_extends (l : Level) (m : Msg) (log : list LogRecord) :
  exists suffix, emit l m log = log ++ suffix.
Proof.
  unfold emit. destruct (isEnabledFor l).
  - exists [mkRecord l m]. reflexivity.
  - exists []. symmetry. apply app_nil_r.
Qed.

(** Records at or above a level: what an operator filtering the log
    file for warnings or criticals sees. *)
Definition at_least (l : Level) (log : list LogRecord) : list LogRecord :=
  filter (fun r => (levelno l <=? levelno (levelname r))%Z) log.

(** The sustained-failure alerts a log contains (line 118). *)
Definition is_alert (r : LogRecord) : bool :=
  match message r with
  | MsgConsecutiveErrors _ => true
  | _ => false
  end.

Definition alerts (l : list LogRecord) : list LogRecord := filter is_alert l.

Lemma alerts_app (l1 l2 : list LogRecord) : alerts (l1 ++ l2) = alerts l1 ++ alerts l2.
Proof. apply filter_app. Qed.

End Logging.
