(* ===== verification/Format.v ===== *)
(** * Format: the text the agent writes

    The log line of the [format] of lines 15-19,
    [%(asctime)s - %(levelname)s - %(message)s], and the f-strings of
    the [logging.*] calls of monitoring_agent.py: [str] of an integer
    ([{self.error_count}], line 118) and the fixed-point format
    [{x:.2f}] of floats (lines 54, 57, 61).

    [py_str_int] is [str(int)], through the Standard Library's decimal
    conversion ([Z.to_int], no leading zeros); [fmt_fixed d x] is
    [format(x, '.<d>f')]: [x * 10^d] rounded to the nearest integer,
    ties to even, printed with a minus sign whenever [x] is negative
    (Python prints [-0.00] for [-0.001]), the integer part without
    leading zeros and exactly [d] decimals.  On rationals the rounding
    is exact; Python rounds the binary double nearest to the decimal
    the code computes, which can differ on a decimal tie such as
    [2.675].  [parse_decimal] reads a printed amount back, as a
    reader of the text (or [float(s)]) does; it is a reference
    definition, used by the theorems on the printed report. *)

From Stdlib Require Import ZArith QArith Qround Qabs Ascii String List Bool Lia Lqa.
From Stdlib Require Import DecimalString DecimalN DecimalZ.
From S2P Require Import Prelude Logging.
Import ListNotations.
Import Logging.

Module Format.

(** ** Integers *)

(** [str(n)] for a Python int. *)
Definition py_str_int (z : Z) : string := NilZero.string_of_int (Z.to_int z).

(** ** Fixed-point floats *)

Definition pow10 (d : nat) : Z := 10 ^ Z.of_nat d.

(** Round half to even. *)
Definition round_half_even (y : Q) : Z :=
  let f := Qfloor y in
  let r := y - inject_Z f in
  if Qlt_le_dec r (1 # 2) then f
  else if Qeq_bool r (1 # 2) then (if Z.even f then f else f + 1)
  else f + 1.

Definition digit_char (v : Z) : ascii := ascii_of_nat (48 + Z.to_nat v).

(** The [k] last decimal digits of [n], with leading zeros. *)
Fixpoint pad_digits (k : nat) (n : Z) : string :=
  match k with
  | O => EmptyString
  | S k' => pad_digits k' (n / 10) ++ String (digit_char (n mod 10)) EmptyString
  end.

(** [format(x, '.<d>f')]. *)
Definition fmt_fixed (d : nat) (x : Q) : string :=
  let n := round_half_even (x * inject_Z (pow10 d)) in
  let m := Z.abs n in
  (if py_lt x 0 then "-" else "")
  ++ NilZero.string_of_uint (N.to_uint (Z.to_N (m / pow10 d)))
  ++ match d with
     | O => EmptyString
     | S _ => String "." (pad_digits d (m mod pow10 d))
     end.

(** *** Reading decimals back *)

Definition digit_val (c : ascii) : option Z :=
  let n := nat_of_ascii c in
  if (48 <=? n)%nat && (n <=? 57)%nat then Some (Z.of_nat (n - 48)) else None.

Fixpoint parse10 (acc : Z) (s : string) : option Z :=
  match s with
  | EmptyString => Some acc
  | String c rest =>
      match digit_val c with
      | Some v => parse10 (10 * acc + v) rest
      | None => None
      end
  end.

Fixpoint has_dot (s : string) : bool :=
  match s with
  | EmptyString => false
  | String c rest => Ascii.eqb c "." || has_dot rest
  end.

(** The text before the first ['.'] and, if there is one, the text
    after it. *)
Fixpoint split_dot (s : string) : string * option string :=
  match s with
  | EmptyString => (EmptyString, None)
  | String c rest =>
      if Ascii.eqb c "." then (EmptyString, Some rest)
      else let (a, b) := split_dot rest in (String c a, b)
  end.

(** An optional minus sign, decimal digits, and optionally a point and
    decimal digits. *)
Definition parse_decimal (s : string) : option Q :=
  let (neg, s1) :=
    match s with
    | String c rest => if Ascii.eqb c "-" then (true, rest) else (false, s)
    | EmptyString => (false, s)
    end in
  let sign (v : Q) := if neg then - v else v in
  match split_dot s1 with
  | (ip, Some fp) =>
      match NilZero.uint_of_string ip, parse10 0 fp with
      | Some u, Some f =>
          Some (sign (inject_Z (Z.of_N (N.of_uint u))
                      + inject_Z f / inject_Z (pow10 (String.length fp))))
      | _, _ => None
      end
  | (ip, None) =>
      match NilZero.uint_of_string ip with
      | Some u => Some (sign (inject_Z (Z.of_N (N.of_uint u))))
      | None => None
      end
  end.

(** ** The log line *)

(** [%(levelname)s]. *)
Definition level_name (l : Level) : string :=
  match l with
  | DEBUG => "DEBUG"
  | INFO => "INFO"
  | WARNING => "WARNING"
  | ERROR => "ERROR"
  | CRITICAL => "CRITICAL"
  end.

(** The parts of the messages that come from outside the code:
    [mt5.last_error()] (lines 34, 39), [str(e)] of an exception (line
    93), and [json.dumps(status)] with its timestamp (line 74), whose
    float rendering is Python's [repr]. *)
Record ExternalText : Type := mkExternalText {
  last_error_text : string;
  exception_text : PyExc -> string;
  status_json : Q -> Q -> Q -> Q -> string
}.

(** The f-string of each [logging.*] call. *)
Definition render_msg (u : ExternalText) (m : Msg) : string :=
  match m with
  | MsgMt5Unavailable => "MT5 not available (not on Windows)"
  | MsgInitFailed => "MT5 initialize failed: " ++ last_error_text u
  | MsgAccountInfoFailed => "Failed to get account info: " ++ last_error_text u
  | MsgEquityChanged pct => "ALERT: Equity changed by " ++ fmt_fixed 2 pct ++ "%"
  | MsgEquityDrawdown pct => "CRITICAL: Equity drawdown of " ++ fmt_fixed 2 pct ++ "%!"
  | MsgMarginLevel l =>
      "CRITICAL: Margin level at " ++ fmt_fixed 2 l ++ "% - Risk of margin call!"
  | MsgStatus b e p ml => "Status: " ++ status_json u b e p ml
  | MsgBotNotFound => "CRITICAL: Trading bot process not found!"
  | MsgBotCheckError e => "Error checking bot process: " ++ exception_text u e
  | MsgAgentStarted => "Monitoring Agent Started"
  | MsgConsecutiveErrors c => "ALERT: " ++ py_str_int c ++ " consecutive errors detected!"
  | MsgAgentStopped => "Monitoring Agent Stopped"
  end%string.

(** [format='%(asctime)s - %(levelname)s - %(message)s'] (line 18); the
    timestamp is given. *)
Definition format_line (asctime : string) (u : ExternalText) (r : LogRecord) : string :=
  (asctime ++ " - " ++ level_name (levelname r) ++ " - " ++ render_msg u (message r))%string.

(** ** Rounding *)

Lemma round_half_even_bound (y : Q) : Qabs (y - inject_Z (round_half_even y)) <= 1 # 2.
Proof.
  unfold round_half_even. set (f := Qfloor y).
  assert (Hf : inject_Z f <= y) by apply Qfloor_le.
  assert (Hf1 : y < inject_Z (f + 1)) by apply Qlt_floor.
  rewrite inject_Z_plus in Hf1. change (inject_Z 1) with 1 in Hf1.
  apply Qabs_Qle_condition.
  destruct (Qlt_le_dec (y - inject_Z f) (1 # 2)) as [Hlt|Hge].
  - split; lra.
  - destruct (Qeq_bool (y - inject_Z f) (1 # 2)) eqn:Heq;
      [apply Qeq_bool_eq in Heq; destruct (Z.even f)|];
      rewrite ?inject_Z_plus; change (inject_Z 1) with 1; split; lra.
Qed.

Lemma round_sign (y : Q) :
  (y < 0 -> (round_half_even y <= 0)%Z) /\ (0 <= y -> (0 <= round_half_even y)%Z).
Proof.
  pose proof (round_half_even_bound y) as Hb. apply Qabs_Qle_condition in Hb.
  set (n := round_half_even y) in *.
  split; intro Hy.
  - assert (H : inject_Z n < inject_Z 1) by (change (inject_Z 1) with 1; lra).
    rewrite <- Zlt_Qlt in H. lia.
  - assert (H : inject_Z (-1) < inject_Z n) by (change (inject_Z (-1)) with (-1); lra).
    rewrite <- Zlt_Qlt in H. lia.
Qed.

(** ** Decimal text *)

Lemma digit_val_char (v : Z) : (0 <= v < 10)%Z -> digit_val (digit_char v) = Some v.
Proof.
  intro Hv.
  assert (v = 0 \/ v = 1 \/ v = 2 \/ v = 3 \/ v = 4 \/ v = 5 \/ v = 6 \/ v = 7 \/ v = 8 \/ v = 9)%Z
    as Hc by lia.
  repeat destruct Hc as [-> | Hc]; try reflexivity. subst v. reflexivity.
Qed.

Lemma parse10_app (acc : Z) (s1 s2 : string) :
  parse10 acc (s1 ++ s2) = match parse10 acc s1 with Some a => parse10 a s2 | None => None end.
Proof.
  revert acc. induction s1 as [|c s1 IH]; intro acc; simpl; [reflexivity|].
  destruct (digit_val c); [apply IH | reflexivity].
Qed.

Lemma parse10_digit (acc v : Z) :
  (0 <= v < 10)%Z -> parse10 acc (String (digit_char v) EmptyString) = Some (10 * acc + v)%Z.
Proof. intro Hv. cbn [parse10]. rewrite digit_val_char by exact Hv. reflexivity. Qed.

Lemma parse10_pad (k : nat) (acc n : Z) :
  (0 <= n < 10 ^ Z.of_nat k)%Z -> parse10 acc (pad_digits k n) = Some (acc * 10 ^ Z.of_nat k + n)%Z.
Proof.
  revert acc n. induction k as [|k IH]; intros acc n Hn.
  - cbn [pad_digits parse10]. change (10 ^ Z.of_nat 0)%Z with 1%Z in *. f_equal. lia.
  - rewrite Nat2Z.inj_succ, Z.pow_succ_r in * by lia.
    cbn [pad_digits]. rewrite parse10_app.
    rewrite IH by (split; [apply Z.div_pos | apply Z.div_lt_upper_bound]; lia).
    rewrite parse10_digit by (apply Z.mod_pos_bound; lia).
    f_equal. pose proof (Z.div_mod n 10 ltac:(lia)). lia.
Qed.

Lemma length_append (s1 s2 : string) : String.length (s1 ++ s2) = (String.length s1 + String.length s2)%nat.
Proof. induction s1 as [|c s1 IH]; simpl; [reflexivity | rewrite IH; reflexivity]. Qed.

Lemma length_pad (k : nat) (n : Z) : String.length (pad_digits k n) = k.
Proof.
  revert n. induction k as [|k IH]; intro n; simpl; [reflexivity|].
  rewrite length_append, IH. simpl. lia.
Qed.

(** The digits of an unsigned decimal: no point, first character a
    digit. *)
Lemma string_of_uint_shape (u : Decimal.uint) :
  has_dot (NilZero.string_of_uint u) = false
  /\ exists c r, NilZero.string_of_uint u = String c r /\ Ascii.eqb c "-" = false.
Proof.
  assert (Hd : forall u, has_dot (NilEmpty.string_of_uint u) = false)
    by (induction u0; simpl; auto).
  split.
  - destruct u; [reflexivity | apply Hd ..].
  - destruct u; simpl; eauto.
Qed.

Lemma split_dot_app (a b : string) :
  has_dot a = false -> split_dot (a ++ String "." b) = (a, Some b).
Proof.
  induction a as [|c a IH]; simpl; [reflexivity|].
  destruct (Ascii.eqb c "."); [discriminate|]. simpl. intro Ha. rewrite (IH Ha). reflexivity.
Qed.

Lemma to_uint_nonnil (q : N) : N.to_uint q <> Decimal.Nil.
Proof.
  intro H. pose proof (DecimalN.Unsigned.of_to q) as Hq. rewrite H in Hq.
  simpl in Hq. subst q. discriminate H.
Qed.

Lemma pow10_pos (d : nat) : (0 < pow10 d)%Z.
Proof. unfold pow10. apply Z.pow_pos_nonneg; lia. Qed.

(** What [parse_decimal] reads from [fmt_fixed]: the sign of [x], then
    the integer and the decimal part of [|n|], for the rounded [n]. *)
Lemma parse_fmt_fixed (k : nat) (x : Q) :
  let p := pow10 (S k) in
  let m := Z.abs (round_half_even (x * inject_Z p)) in
  let v := inject_Z (m / p)%Z + inject_Z ((m mod p)%Z) / inject_Z p in
  parse_decimal (fmt_fixed (S k) x) = Some (if py_lt x 0 then - v else v).
Proof.
  intros p m v. unfold fmt_fixed. fold p. fold m.
  set (I := NilZero.string_of_uint (N.to_uint (Z.to_N (m / p)%Z))).
  set (F := pad_digits (S k) ((m mod p)%Z)).
  assert (Hp := pow10_pos (S k)). fold p in Hp.
  assert (HuI : NilZero.uint_of_string I = Some (N.to_uint (Z.to_N (m / p)%Z)))
    by (apply NilZero.usu, to_uint_nonnil).
  assert (HF : parse10 0 F = Some ((m mod p)%Z)).
  { unfold F. rewrite parse10_pad by (apply Z.mod_pos_bound; exact Hp). reflexivity. }
  assert (HL : String.length F = S k) by apply length_pad.
  destruct (string_of_uint_shape (N.to_uint (Z.to_N (m / p)%Z))) as [Hdot [c [r [HI Hc]]]].
  fold I in Hdot, HI.
  assert (Hsplit : split_dot (I ++ String "." F) = (I, Some F)) by (apply split_dot_app, Hdot).
  assert (Hval : Z.of_N (N.of_uint (N.to_uint (Z.to_N (m / p)%Z))) = (m / p)%Z%Z).
  { rewrite DecimalN.Unsigned.of_to, Z2N.id; [reflexivity|].
    apply Z.div_pos; [apply Z.abs_nonneg | exact Hp]. }
  unfold parse_decimal. destruct (py_lt x 0).
  - cbn [append]. rewrite Ascii.eqb_refl. cbn iota beta. rewrite Hsplit, HuI, HF, HL, Hval. reflexivity.
  - cbn [append]. rewrite HI. cbn [append]. cbn iota beta. rewrite Hc. cbn iota beta.
    change (String c (r ++ String "." F))%string with (String c r ++ String "." F)%string. rewrite <- HI.
    rewrite Hsplit, HuI, HF, HL, Hval. reflexivity.
Qed.

(** ** The value printed by [fmt_fixed] *)

Lemma inject_pos (p : Z) : (0 < p)%Z -> 0 < inject_Z p.
Proof. intro Hp. change 0 with (inject_Z 0). rewrite <- Zlt_Qlt. exact Hp. Qed.

Lemma div_mod_Q (m p : Z) :
  (0 < p)%Z -> inject_Z (m / p) + inject_Z (m mod p) / inject_Z p == inject_Z m / inject_Z p.
Proof.
  intro Hp. pose proof (inject_pos p Hp) as Hq.
  assert (Hm : m = (p * (m / p) + m mod p)%Z) by (apply Z.div_mod; lia).
  rewrite Hm at 3. rewrite inject_Z_plus, inject_Z_mult. field. intro H. lra.
Qed.

(** Rounding [x * p] to an integer and dividing by [p] moves [x] by at
    most half a unit of the last printed digit. *)
Lemma round_fixed_bound (x : Q) (p : Z) :
  (0 < p)%Z ->
  Qabs (inject_Z (round_half_even (x * inject_Z p)) / inject_Z p - x) <= 1 / (2 * inject_Z p).
Proof.
  intro Hp. pose proof (inject_pos p Hp) as Hq.
  pose proof (round_half_even_bound (x * inject_Z p)) as Hb.
  set (n := inject_Z (round_half_even (x * inject_Z p))) in *.
  apply Qabs_Qle_condition in Hb as [Hb1 Hb2]. apply Qabs_Qle_condition.
  assert (Hinv : 0 <= / inject_Z p) by (apply Qinv_le_0_compat; lra).
  assert (E1 : n / inject_Z p - x == (n - x * inject_Z p) * / inject_Z p) by (field; intro; lra).
  assert (E2 : 1 / (2 * inject_Z p) == (1 # 2) * / inject_Z p) by (field; intro; lra).
  rewrite E1, E2. split.
  - setoid_replace (- ((1 # 2) * / inject_Z p)) with ((- (1 # 2)) * / inject_Z p) by ring.
    apply Qmult_le_compat_r; [lra | exact Hinv].
  - apply Qmult_le_compat_r; [lra | exact Hinv].
Qed.

(** The text [fmt_fixed (S k) x] reads back to [n / 10^(S k)], for the
    rounded [n] of [x * 10^(S k)], whatever the sign of [x]. *)
Lemma fmt_fixed_reads (k : nat) (x : Q) :
  exists r, parse_decimal (fmt_fixed (S k) x) = Some r
            /\ r == inject_Z (round_half_even (x * inject_Z (pow10 (S k))))
                    / inject_Z (pow10 (S k)).
Proof.
  pose proof (pow10_pos (S k)) as Hp. pose proof (inject_pos _ Hp) as Hq.
  set (p := pow10 (S k)) in *.
  eexists. split; [apply parse_fmt_fixed|]. fold p.
  set (n := round_half_even (x * inject_Z p)).
  destruct (py_lt x 0) eqn:Hx; rewrite div_mod_Q by exact Hp.
  - apply py_lt_spec in Hx.
    assert (Hn : (n <= 0)%Z) by (apply (proj1 (round_sign _)); nra).
    rewrite Z.abs_neq by exact Hn. rewrite inject_Z_opp. field. intro; lra.
  - apply py_lt_false in Hx.
    assert (Hn : (0 <= n)%Z) by (apply (proj2 (round_sign _)); nra).
    rewrite Z.abs_eq by exact Hn. reflexivity.
Qed.

End Format.
