(* ===== verification/Platform.v ===== *)
(** * Platform: the collaborators the agent calls

    The agent reads the world through three external services, none of
    which is code of this repository:
    - the MetaTrader5 terminal ([mt5.initialize], [mt5.account_info],
      [mt5.shutdown], monitoring_agent.py lines 33-46 and 76);
    - the Windows process table, read by running [tasklist] with
      [subprocess.run] (lines 83-87);
    - the clock, [time.sleep] (line 121), during which the user's
      Ctrl+C arrives as a KeyboardInterrupt.

    [Platform] is the interface the agent is written against: a type of
    environment states and one transition per call, returning what the
    call returns.  Every theorem about the agent holds for every
    instance.  [Scripted] is the fake adapter of the spec (section 9): it
    replays lists of answers, one per call, and is what the witnesses
    run on. *)

From Stdlib Require Import ZArith QArith List String.
From S2P Require Import Prelude.
Import ListNotations.

(** The fields of the [mt5.account_info()] record the scripts read
    (monitoring_agent.py lines 43-46, get_account_status.py lines
    24-30). *)
Record AccountInfo : Type := mkAccountInfo {
  login : Z;
  balance : Q;
  equity : Q;
  profit : Q;
  margin : Q;
  margin_free : Q;
  margin_level : Q
}.

(** Outcome of [subprocess.run(...)]: the completed process's captured
    standard output, or the exception the call raised (e.g. OSError
    when [tasklist] cannot be started). *)
Inductive RunResult : Type :=
  | Completed (stdout : string)
  | RunRaised (e : PyExc).

Class Platform (E : Type) : Type := {
  (** [mt5.initialize()]: whether the terminal connection came up. *)
  mt5_initialize : E -> bool * E;
  (** [mt5.account_info()]: the account record, or [None]. *)
  mt5_account_info : E -> option AccountInfo * E;
  (** [subprocess.run(['tasklist', '/FI', 'IMAGENAME eq python.exe'],
      capture_output=True, text=True)]. *)
  run_tasklist : E -> RunResult * E;
  (** [time.sleep(n)] for a valid [n]: [true] when a KeyboardInterrupt
      is delivered during the sleep. *)
  sleep_interrupted : E -> bool * E
}.

(** ** The scripted adapter *)

Module Scripted.

Record Script : Type := mkScript {
  init_answers : list bool;
  info_answers : list (option AccountInfo);
  tasklist_answers : list RunResult;
  interrupt_answers : list bool
}.

(** Pop the next answer; an exhausted script answers [d]. *)
Definition pop {A} (d : A) (l : list A) : A * list A :=
  match l with
  | [] => (d, [])
  | x :: rest => (x, rest)
  end.

#[export] Instance scripted_platform : Platform Script := {
  mt5_initialize s :=
    let (b, r) := pop false (init_answers s) in
    (b, mkScript r (info_answers s) (tasklist_answers s)
                 (interrupt_answers s));
  mt5_account_info s :=
    let (i, r) := pop None (info_answers s) in
    (i, mkScript (init_answers s) r (tasklist_answers s)
                 (interrupt_answers s));
  run_tasklist s :=
    let (t, r) := pop (RunRaised OSError) (tasklist_answers s) in
    (t, mkScript (init_answers s) (info_answers s) r
                 (interrupt_answers s));
  sleep_interrupted s :=
    let (k, r) := pop false (interrupt_answers s) in
    (k, mkScript (init_answers s) (info_answers s)
                 (tasklist_answers s) r)
}.

End Scripted.
