(* ===== verification/Agent.v ===== *)
(** * Agent: the state of a [MonitoringAgent] and its primitive effects

    [MonitoringAgent] (monitoring_agent.py, class at lines 21-26) keeps
    four fields on [self].  The program's whole mutable state is the
    agent, the [mt5] module (whether [import MetaTrader5] succeeded,
    lines 5-8, and whether a terminal connection is open), the log
    file, and the environment of the collaborators ([Platform]).  This
    file defines that [World] and one monadic action per primitive
    effect the methods perform. *)

From Stdlib Require Import ZArith QArith List String.
From S2P Require Import Prelude Logging Platform.
Import ListNotations.
Import Logging.

Record MonitoringAgent : Type := mkAgent {
  last_balance : option Q;
  last_equity : option Q;
  error_count : Z;
  alert_threshold : Z
}.

(** [MonitoringAgent.__init__], lines 22-26. *)
Definition MonitoringAgent_init : MonitoringAgent :=
  mkAgent None None 0 5.

Record World (E : Type) : Type := mkWorld {
  agent : MonitoringAgent;
  mt5_loaded : bool;       (* [mt5 is not None], lines 5-8 *)
  mt5_connected : bool;    (* between [initialize()] and [shutdown()] *)
  log : list LogRecord;
  env : E
}.
Arguments mkWorld {E}.
Arguments agent {E}.
Arguments mt5_loaded {E}.
Arguments mt5_connected {E}.
Arguments log {E}.
Arguments env {E}.

Definition set_agent {E} (a : MonitoringAgent) (w : World E) : World E :=
  mkWorld a (mt5_loaded w) (mt5_connected w) (log w) (env w).
Definition set_connected {E} (b : bool) (w : World E) : World E :=
  mkWorld (agent w) (mt5_loaded w) b (log w) (env w).
Definition set_log {E} (l : list LogRecord) (w : World E) : World E :=
  mkWorld (agent w) (mt5_loaded w) (mt5_connected w) l (env w).
Definition set_env {E} (e : E) (w : World E) : World E :=
  mkWorld (agent w) (mt5_loaded w) (mt5_connected w) (log w) e.

(** The state at process start: a fresh agent, no connection, an empty
    log (nothing persists across restarts). *)
Definition initial_world {E} (loaded : bool) (e : E) : World E :=
  mkWorld MonitoringAgent_init loaded false [] e.

Definition with_error_count (c : Z) (a : MonitoringAgent) : MonitoringAgent :=
  mkAgent (last_balance a) (last_equity a) c (alert_threshold a).

Section Effects.
Context {E : Type} `{Platform E}.

Definition M := PyM (World E).

Definition get_agent : M MonitoringAgent :=
  fun w => (Ret (agent w), w).

Definition modify_agent (f : MonitoringAgent -> MonitoringAgent) : M unit :=
  pmodify (fun w => set_agent (f (agent w)) w).

(** [logging.<level>(msg)]. *)
Definition log_msg (l : Level) (m : Msg) : M unit :=
  pmodify (fun w => set_log (emit l m (log w)) w).

Fixpoint log_all (rs : list LogRecord) : M unit :=
  match rs with
  | [] => pret tt
  | r :: rest => log_msg (levelname r) (message r) ;;; log_all rest
  end.

(** [mt5.initialize()]: the connection is open exactly when it
    reports success. *)
Definition mt5_initialize_call : M bool :=
  fun w => let (b, e') := mt5_initialize (env w) in
           (Ret b, set_env e' (set_connected b w)).

Definition mt5_account_info_call : M (option AccountInfo) :=
  fun w => let (i, e') := mt5_account_info (env w) in
           (Ret i, set_env e' w).

Definition mt5_shutdown_call : M unit :=
  pmodify (set_connected false).

(** [subprocess.run([...tasklist...])]: its captured stdout, or the
    exception it raised. *)
Definition subprocess_run_tasklist : M string :=
  fun w => match run_tasklist (env w) with
           | (Completed out, e') => (Ret out, set_env e' w)
           | (RunRaised ex, e') => (Exc ex, set_env e' w)
           end.

(** [time.sleep(secs)]: a negative length raises ValueError
    ("sleep length must be non-negative"); otherwise the sleep ends
    normally or with a KeyboardInterrupt. *)
Definition time_sleep (secs : Z) : M unit :=
  if (secs <? 0)%Z then praise ValueError
  else fun w => let (k, e') := sleep_interrupted (env w) in
                if k then (Exc KeyboardInterrupt, set_env e' w)
                else (Ret tt, set_env e' w).

End Effects.

(** ** Frame lemmas of the primitive effects *)

Section Frames.
Context {E : Type} `{Platform E}.

Lemma log_msg_run (l : Level) (m : Msg) (w : World E) :
  log_msg l m w = (Ret tt, set_log (emit l m (log w)) w).
Proof. reflexivity. Qed.

Lemma log_all_run (rs : list LogRecord) (w : World E) :
  (forall r, In r rs -> levelname r <> DEBUG) ->
  log_all rs w = (Ret tt, set_log (log w ++ rs) w).
Proof.
  revert w. induction rs as [|r rs IH]; intros w Hl; simpl.
  - rewrite app_nil_r. destruct w; reflexivity.
  - unfold pbind. rewrite log_msg_run, emit_enabled by (apply Hl; left; reflexivity).
    rewrite IH by (intros r' Hr'; apply Hl; right; exact Hr').
    simpl. rewrite <- app_assoc. destruct r; reflexivity.
Qed.

End Frames.

(** ** Frames

    [keeps f m]: every run of [m] leaves the observation [f] of the
    world unchanged (used with [f := agent] for "does not touch
    [self]", and with the alert records of the log).  [log_grows m]:
    every run of [m] only appends to the log. *)

Section FrameProps.
Context {E : Type} `{Platform E}.

Definition keeps {X A} (f : World E -> X) (m : M A) : Prop :=
  forall x0, preserves (fun w => f w = x0) m.

Definition log_grows {A} (m : M A) : Prop :=
  forall l0, preserves (fun w : World E => exists suf, log w = l0 ++ suf) m.

Definition alerts_of (w : World E) : list LogRecord := alerts (log w).

Lemma keeps_run {X A} (f : World E -> X) (m : M A) (w w' : World E) r :
  keeps f m -> m w = (r, w') -> f w' = f w.
Proof. intros Hm Hrun. exact (Hm (f w) w r w' eq_refl Hrun). Qed.

Lemma keeps_preserves {X A} (f : World E -> X) (m : M A) (P : X -> Prop) :
  keeps f m -> preserves (fun w => P (f w)) m.
Proof. intros Hm w r w' HP Hrun. rewrite (keeps_run f m w w' r Hm Hrun). exact HP. Qed.

Lemma log_grows_run {A} (m : M A) (w w' : World E) r :
  log_grows m -> m w = (r, w') -> exists suf, log w' = log w ++ suf.
Proof.
  intros Hm Hrun. apply (Hm (log w) w r w'); [|exact Hrun].
  exists []. symmetry. apply app_nil_r.
Qed.

(** Combinators. *)
Lemma keeps_ret {X A} (f : World E -> X) (a : A) : keeps f (pret a).
Proof. intro; apply preserves_ret. Qed.
Lemma keeps_get {X} (f : World E -> X) : keeps f pget.
Proof. intro; apply preserves_get. Qed.
Lemma keeps_lift {X A} (f : World E -> X) (x : pyres A) : keeps f (plift x).
Proof. intro; apply preserves_lift. Qed.
Lemma keeps_bind {X A B} (f : World E -> X) (m : M A) (k : A -> M B) :
  keeps f m -> (forall a, keeps f (k a)) -> keeps f (pbind m k).
Proof. intros Hm Hk x0. apply preserves_bind; [apply Hm | intro; apply Hk]. Qed.
Lemma keeps_try {X A} (f : World E -> X) (m : M A) hd h :
  keeps f m -> (forall e, keeps f (h e)) -> keeps f (ptry m hd h).
Proof. intros Hm Hh x0. apply preserves_try; [apply Hm | intro; apply Hh]. Qed.
Lemma keeps_if {X A} (f : World E -> X) (b : bool) (m1 m2 : M A) :
  keeps f m1 -> keeps f m2 -> keeps f (if b then m1 else m2).
Proof. destruct b; auto. Qed.
Lemma log_grows_ret {A} (a : A) : log_grows (pret a).
Proof. intro; apply preserves_ret. Qed.
Lemma log_grows_get : log_grows (@pget (World E)).
Proof. intro; apply preserves_get. Qed.
Lemma log_grows_lift {A} (x : pyres A) : log_grows (plift x).
Proof. intro; apply preserves_lift. Qed.
Lemma log_grows_bind {A B} (m : M A) (k : A -> M B) :
  log_grows m -> (forall a, log_grows (k a)) -> log_grows (pbind m k).
Proof. intros Hm Hk l0. apply preserves_bind; [apply Hm | intro; apply Hk]. Qed.
Lemma log_grows_try {A} (m : M A) hd h :
  log_grows m -> (forall e, log_grows (h e)) -> log_grows (ptry m hd h).
Proof. intros Hm Hh l0. apply preserves_try; [apply Hm | intro; apply Hh]. Qed.
Lemma log_grows_if {A} (b : bool) (m1 m2 : M A) :
  log_grows m1 -> log_grows m2 -> log_grows (if b then m1 else m2).
Proof. destruct b; auto. Qed.
Lemma log_grows_match_option {A B} (o : option B) (m1 : B -> M A) (m2 : M A) :
  (forall b, log_grows (m1 b)) -> log_grows m2 ->
  log_grows (match o with Some b => m1 b | None => m2 end).
Proof. destruct o; auto. Qed.

(** Logging. *)
Lemma log_msg_keeps_agent l m : keeps agent (log_msg l m).
Proof. intros a0 w r w' Hw [= _ <-]. exact Hw. Qed.

Lemma log_msg_keeps_alerts l m :
  is_alert (mkRecord l m) = false -> keeps alerts_of (log_msg l m).
Proof.
  intros Ha x0 w r w' Hw [= _ <-]. unfold alerts_of, alerts, emit in *. simpl.
  destruct (isEnabledFor l); [|exact Hw].
  rewrite filter_app, Hw. simpl. rewrite Ha. apply app_nil_r.
Qed.

Lemma log_msg_grows l m : log_grows (log_msg l m).
Proof.
  intros l0 w r w' [suf Hw] [= _ <-]. simpl.
  destruct (emit_extends l m (log w)) as [s2 ->]. rewrite Hw, <- app_assoc.
  eexists; reflexivity.
Qed.

Lemma log_all_keeps_agent rs : keeps agent (log_all rs).
Proof.
  induction rs as [|r rs IH]; simpl;
    [apply keeps_ret | apply keeps_bind; [apply log_msg_keeps_agent | intros; exact IH]].
Qed.

Lemma log_all_grows rs : log_grows (log_all rs).
Proof.
  induction rs as [|r rs IH]; simpl;
    [apply log_grows_ret | apply log_grows_bind; [apply log_msg_grows | intros; exact IH]].
Qed.

Lemma modify_agent_grows f : log_grows (modify_agent f).
Proof. intros l0 w r w' Hw [= _ <-]. exact Hw. Qed.

Lemma modify_agent_keeps_alerts f : keeps alerts_of (modify_agent f).
Proof. intros x0 w r w' Hw [= _ <-]. exact Hw. Qed.

(** The effects that touch only the environment or the connection
    keep [self] and the log: unfold, split the answers of the
    environment, and read off the final state. *)
Ltac frame_solve :=
  let w := fresh "w" in let Hw := fresh "Hw" in let Hrun := fresh "Hrun" in
  intros ? w ? ? Hw Hrun;
  repeat match type of Hrun with
         | context [match ?x with _ => _ end] => destruct x
         end;
  injection Hrun as _ <-; exact Hw.

(** The environment effects keep every observation of [self] and of
    the log. *)
Definition env_frame {A} (m : M A) : Prop :=
  (forall X (f : MonitoringAgent -> list LogRecord -> X),
      keeps (fun w => f (agent w) (log w)) m) /\ log_grows m.

Lemma env_frame_keeps {X A} (m : M A) (f : MonitoringAgent -> list LogRecord -> X) :
  env_frame m -> keeps (fun w => f (agent w) (log w)) m.
Proof. intros [Hk _]. apply Hk. Qed.

Lemma env_frame_keeps_agent {A} (m : M A) : env_frame m -> keeps agent m.
Proof. intros [Hk _]. exact (Hk _ (fun a _ => a)). Qed.

Lemma env_frame_keeps_alerts {A} (m : M A) : env_frame m -> keeps alerts_of m.
Proof. intros [Hk _]. exact (Hk _ (fun _ l => alerts l)). Qed.

Lemma env_frame_grows {A} (m : M A) : env_frame m -> log_grows m.
Proof. intros [_ Hg]. exact Hg. Qed.

Lemma mt5_initialize_frame : env_frame mt5_initialize_call.
Proof. unfold mt5_initialize_call; split; [intros X f|]; frame_solve. Qed.
Lemma mt5_account_info_frame : env_frame mt5_account_info_call.
Proof. unfold mt5_account_info_call; split; [intros X f|]; frame_solve. Qed.
Lemma mt5_shutdown_frame : env_frame mt5_shutdown_call.
Proof. unfold mt5_shutdown_call, pmodify; split; [intros X f|]; frame_solve. Qed.
Lemma subprocess_frame : env_frame subprocess_run_tasklist.
Proof. unfold subprocess_run_tasklist; split; [intros X f|]; frame_solve. Qed.
Lemma get_agent_frame : env_frame get_agent.
Proof. unfold get_agent; split; [intros X f|]; frame_solve. Qed.
Lemma time_sleep_frame secs : env_frame (time_sleep secs).
Proof.
  unfold time_sleep, praise. destruct (secs <? 0)%Z; split; [intros X f| |intros X f|];
    frame_solve.
Qed.

End FrameProps.

#[export] Hint Resolve keeps_ret keeps_get keeps_lift keeps_bind keeps_try keeps_if
  log_grows_ret log_grows_get log_grows_lift log_grows_bind log_grows_try
  log_grows_if log_grows_match_option log_msg_keeps_agent log_msg_keeps_alerts
  log_msg_grows log_all_keeps_agent log_all_grows modify_agent_grows
  modify_agent_keeps_alerts env_frame_keeps_agent env_frame_keeps_alerts
  env_frame_grows mt5_initialize_frame mt5_account_info_frame
  mt5_shutdown_frame subprocess_frame get_agent_frame time_sleep_frame : monn.
#[export] Hint Extern 1 (is_alert _ = false) => reflexivity : monn.
