(* ===== verification/Evaluator.v ===== *)
(** * Evaluator: the health checks of [check_account_health]

    Lines 48-61 of monitoring_agent.py compare the new account record
    with the one remembered on [self] and check the margin level.  They
    emit log records and may raise, but they do not change [self]; so
    they are modelled here as pure functions from the remembered and the
    current values to the records emitted, or the exception raised.
    [Health.check_account_health] emits these records in order.

    [Spec] is the spec's contract for this component ([evaluate],
    spec section 4.1), and [evaluate_refinement] relates the two. *)

From Stdlib Require Import ZArith QArith Qabs List String Bool Lqa.
From S2P Require Import Prelude Logging.
Import ListNotations.
Import Logging.

Module Evaluator.

(** [((new - last) / last) * 100], lines 50 and 51. *)
Definition pct_change (new last : Q) : pyres Q :=
  match py_truediv (new - last) last with
  | Ret q => Ret (q * 100)
  | Exc e => Exc e
  end.

(** Lines 53-57. *)
Definition equity_change_records (equity_change : Q) : list LogRecord :=
  (if py_lt 5 (Qabs equity_change)
   then [mkRecord WARNING (MsgEquityChanged equity_change)] else [])
  ++
  (if py_lt equity_change (-10 # 1)
   then [mkRecord CRITICAL (MsgEquityDrawdown equity_change)] else []).

(** Lines 49-57: nothing without a remembered balance; otherwise the
    balance change is computed (and discarded), then the equity
    change, then its records.  [None - x] raises TypeError. *)
Definition change_records (last_balance last_equity : option Q)
           (balance equity : Q) : pyres (list LogRecord) :=
  match last_balance with
  | None => Ret []
  | Some lb =>
      match pct_change balance lb with
      | Exc e => Exc e
      | Ret _ =>
          match last_equity with
          | None => Exc TypeError
          | Some le =>
              match pct_change equity le with
              | Exc e => Exc e
              | Ret equity_change => Ret (equity_change_records equity_change)
              end
          end
      end
  end.

(** Lines 60-61. *)
Definition margin_records (margin_level : Q) : list LogRecord :=
  if py_lt margin_level 100
  then [mkRecord CRITICAL (MsgMarginLevel margin_level)] else [].

(** ** The spec's contract *)

Module Spec.

Inductive Classification : Type :=
  | SignificantMove
  | CriticalDrawdown
  | MarginCallRisk.

Definition Classification_eq_dec (c1 c2 : Classification) :
  {c1 = c2} + {c1 <> c2}.
Proof. decide equality. Defined.

(** [evaluate(previous, current)]: change classifications only with
    a non-zero previous equity; [MarginCallRisk] only for a defined
    margin level below 100. *)
Definition evaluate (previous_equity : option Q)
           (current_equity : Q) (current_margin : option Q)
  : list Classification :=
  (match previous_equity with
   | Some pe =>
       if Qeq_bool pe 0 then []
       else
         let pct := (current_equity - pe) / pe * 100 in
         (if py_lt 5 (Qabs pct) then [SignificantMove] else [])
         ++ (if py_lt pct (-10 # 1) then [CriticalDrawdown] else [])
   | None => []
   end)
  ++
  (match current_margin with
   | Some m => if py_lt m 100 then [MarginCallRisk] else []
   | None => []
   end).

End Spec.

(** The classification a record of this component stands for. *)
Definition classify (r : LogRecord) : option Spec.Classification :=
  match message r with
  | MsgEquityChanged _ => Some Spec.SignificantMove
  | MsgEquityDrawdown _ => Some Spec.CriticalDrawdown
  | MsgMarginLevel _ => Some Spec.MarginCallRisk
  | _ => None
  end.

Fixpoint classifications (rs : list LogRecord) : list Spec.Classification :=
  match rs with
  | [] => []
  | r :: rest =>
      match classify r with
      | Some c => c :: classifications rest
      | None => classifications rest
      end
  end.

(** ** Properties *)

Lemma pct_change_ok (new last : Q) :
  ~ last == 0 -> pct_change new last = Ret ((new - last) / last * 100).
Proof. intro H. unfold pct_change. rewrite py_truediv_ok by exact H. reflexivity. Qed.

Lemma pct_change_zero (new last : Q) :
  last == 0 -> pct_change new last = Exc ZeroDivisionError.
Proof. intro H. unfold pct_change. rewrite py_truediv_zero by exact H. reflexivity. Qed.

(** With non-zero remembered values the comparison completes and its
    records are those of the equity change in percent. *)
Lemma change_records_nonzero (lb le b e : Q) :
  ~ lb == 0 -> ~ le == 0 ->
  change_records (Some lb) (Some le) b e
  = Ret (equity_change_records ((e - le) / le * 100)).
Proof.
  intros Hb He. unfold change_records.
  rewrite pct_change_ok by exact Hb. rewrite pct_change_ok by exact He.
  reflexivity.
Qed.

(** The warning of line 54 is logged exactly when the equity moved by
    more than 5% in absolute value, the critical record of line 57
    exactly when it fell by more than 10%, and nothing else is logged by
    lines 53-57. *)
Lemma equity_change_records_spec (x : Q) :
  (In (mkRecord WARNING (MsgEquityChanged x)) (equity_change_records x)
     <-> 5 < Qabs x)
  /\ (In (mkRecord CRITICAL (MsgEquityDrawdown x)) (equity_change_records x)
     <-> x < -10 # 1)
  /\ (forall r, In r (equity_change_records x) ->
        r = mkRecord WARNING (MsgEquityChanged x)
        \/ r = mkRecord CRITICAL (MsgEquityDrawdown x)).
Proof.
  unfold equity_change_records.
  case_py_lt 5 (Qabs x); case_py_lt x (-10 # 1); simpl;
    repeat split; intros; intuition (subst; auto; try discriminate; lra).
Qed.

(** A drawdown beyond 10% is reported in addition to the
    significant-move warning, never instead of it: the two checks of
    lines 53 and 56 are independent and the second implies the
    first. *)
Theorem drawdown_implies_warning (x : Q) :
  In (mkRecord CRITICAL (MsgEquityDrawdown x)) (equity_change_records x) ->
  In (mkRecord WARNING (MsgEquityChanged x)) (equity_change_records x).
Proof.
  destruct (equity_change_records_spec x) as [Hw [Hd _]].
  rewrite Hw, Hd. intro H. apply (Qabs_gt_iff x 5); lra.
Qed.

(** (C12) A remembered balance of zero makes line 50 raise
    ZeroDivisionError, whatever the remembered equity is: the unused
    [balance_change] is computed first, and the spec's guard on the
    previous equity is absent. *)
Theorem change_records_zero_balance (lb : Q) (le : option Q) (b e : Q) :
  lb == 0 -> change_records (Some lb) le b e = Exc ZeroDivisionError.
Proof.
  intro H. unfold change_records. rewrite pct_change_zero by exact H.
  reflexivity.
Qed.

Lemma change_records_zero_balance_witness :
  0 == 0 /\ change_records (Some 0) (Some 1000) 500 900 = Exc ZeroDivisionError.
Proof.
  split; [apply Qeq_refl | apply change_records_zero_balance; apply Qeq_refl].
Defined.

(** (C24) A remembered equity of zero with a non-zero balance makes
    line 51 raise ZeroDivisionError, where the spec skips the change
    classification. *)
Theorem change_records_zero_equity (lb le b e : Q) :
  ~ lb == 0 -> le == 0 ->
  change_records (Some lb) (Some le) b e = Exc ZeroDivisionError.
Proof.
  intros Hb He. unfold change_records.
  rewrite pct_change_ok by exact Hb. rewrite pct_change_zero by exact He.
  reflexivity.
Qed.

Lemma change_records_zero_equity_witness :
  ~ 10000 == 0 /\ 0 == 0
  /\ change_records (Some 10000) (Some 0) 10000 500 = Exc ZeroDivisionError.
Proof.
  assert (H : ~ 10000 == 0) by (vm_compute; discriminate).
  split; [exact H | split; [apply Qeq_refl|]].
  apply change_records_zero_equity; [exact H | apply Qeq_refl].
Defined.

(** (C17) Line 60 logs a critical margin record exactly for a margin
    level below 100, including a level of 0. *)
Theorem margin_records_spec (m : Q) :
  (margin_records m = [mkRecord CRITICAL (MsgMarginLevel m)] <-> m < 100)
  /\ (margin_records m = [] <-> 100 <= m).
Proof.
  unfold margin_records. case_py_lt m 100;
    repeat split; intros; (discriminate || reflexivity || lra).
Qed.

(** Classifications distribute over concatenation. *)
Lemma classifications_app (r1 r2 : list LogRecord) :
  classifications (r1 ++ r2) = classifications r1 ++ classifications r2.
Proof.
  induction r1 as [|r r1 IH]; simpl; [reflexivity|].
  destruct (classify r); rewrite IH; reflexivity.
Qed.

(** (C9) Refinement: whenever the code completes without error on a
    first poll or on non-zero remembered values, the classifications
    of the records lines 49-61 emit are exactly the spec's
    [evaluate] of the previous equity, the current equity and the
    (defined) margin level, in the same order. *)
Theorem evaluate_refinement (prev : option (Q * Q)) (b e m : Q) :
  match prev with
  | Some (lb, le) => ~ lb == 0 /\ ~ le == 0
  | None => True
  end ->
  exists rs,
    change_records (option_map fst prev) (option_map snd prev) b e = Ret rs
    /\ classifications (rs ++ margin_records m)
       = Spec.evaluate (option_map snd prev) e (Some m).
Proof.
  intro Hprev. unfold Spec.evaluate.
  destruct prev as [[lb le]|]; cbn [option_map fst snd].
  - destruct Hprev as [Hb He].
    rewrite change_records_nonzero by assumption.
    eexists; split; [reflexivity|].
    rewrite classifications_app.
    destruct (Qeq_bool le 0) eqn:Ez; [apply Qeq_bool_eq in Ez; contradiction|].
    unfold equity_change_records, margin_records.
    rewrite classifications_app.
    destruct (py_lt 5 _), (py_lt _ (-10 # 1)), (py_lt m 100); reflexivity.
  - eexists; split; [reflexivity|].
    unfold margin_records. destruct (py_lt m 100); reflexivity.
Qed.

Lemma evaluate_refinement_witness :
  (~ 10000 == 0 /\ ~ 9000 == 0)
  /\ exists rs,
      change_records (Some 10000) (Some 9000) 10000 8000 = Ret rs
      /\ classifications (rs ++ margin_records 95)
         = Spec.evaluate (Some 9000) 8000 (Some 95).
Proof.
  assert (H : ~ 10000 == 0 /\ ~ 9000 == 0) by (split; vm_compute; discriminate).
  split; [exact H|].
  exact (evaluate_refinement (Some (10000, 9000)) 10000 8000 95 H).
Defined.

(** Every record of this component is at WARNING level or above, so
    the INFO threshold of line 17 keeps it. *)
Lemma equity_change_records_not_debug (x : Q) (r : LogRecord) :
  In r (equity_change_records x) -> levelname r <> DEBUG.
Proof.
  intro Hin. destruct (equity_change_records_spec x) as [_ [_ Hall]].
  destruct (Hall r Hin) as [-> | ->]; discriminate.
Qed.

Lemma change_records_not_debug (lb le : option Q) (b e : Q) rs r :
  change_records lb le b e = Ret rs -> In r rs -> levelname r <> DEBUG.
Proof.
  unfold change_records.
  destruct lb as [lb|]; [|intros [= <-] []].
  destruct (pct_change b lb); [|discriminate].
  destruct le as [le|]; [|discriminate].
  destruct (pct_change e le); [|discriminate].
  intros [= <-]. apply equity_change_records_not_debug.
Qed.

Lemma margin_records_not_debug (m : Q) (r : LogRecord) :
  In r (margin_records m) -> levelname r <> DEBUG.
Proof.
  unfold margin_records. destruct (py_lt m 100); simpl;
    [intros [<- | []]; discriminate | intros []].
Qed.

(** The comparison raises only ZeroDivisionError, or TypeError when a
    balance is remembered without an equity. *)
Lemma change_records_exc (lb le : option Q) (b e : Q) (ex : PyExc) :
  change_records lb le b e = Exc ex ->
  ex = ZeroDivisionError
  \/ (ex = TypeError /\ lb <> None /\ le = None).
Proof.
  unfold change_records, pct_change, py_truediv.
  destruct lb as [lb|]; [|discriminate].
  destruct (Qeq_bool lb 0); [intros [= <-]; left; reflexivity|].
  destruct le as [le|]; [|intros [= <-]; right; repeat split; discriminate].
  destruct (Qeq_bool le 0); [intros [= <-]; left; reflexivity | discriminate].
Qed.

(** The comparison and margin checks never emit a sustained-failure
    alert. *)
Lemma change_records_no_alert (lb le : option Q) (b e : Q) rs :
  change_records lb le b e = Ret rs -> alerts rs = [].
Proof.
  intro Hc. unfold alerts. apply filter_none.
  intros r Hin. unfold is_alert. destruct (message r) eqn:Hm; try reflexivity.
  exfalso. unfold change_records in Hc.
  destruct lb as [lb|]; [|injection Hc as <-; destruct Hin].
  destruct (pct_change b lb); [|discriminate].
  destruct le as [le|]; [|discriminate].
  destruct (pct_change e le) as [x|]; [|discriminate]. injection Hc as <-.
  destruct (equity_change_records_spec x) as [_ [_ Hall]].
  destruct (Hall r Hin) as [-> | ->]; discriminate Hm.
Qed.

Lemma margin_records_no_alert (m : Q) : alerts (margin_records m) = [].
Proof. unfold margin_records. destruct (py_lt m 100); reflexivity. Qed.

(** The spec's examples (section 8) for the comparison of two
    polls: from an equity of 10000, 9400 (-6%) is a significant move but
    no drawdown, 8900 (-11%) is both, and a margin level of 95 is a
    margin-call risk whatever the equity does. *)
Theorem spec_examples_evaluate :
  (exists rs, change_records (Some 10000) (Some 10000) 10000 9400 = Ret rs
              /\ classifications rs = [Spec.SignificantMove])
  /\ (exists rs, change_records (Some 10000) (Some 10000) 10000 8900 = Ret rs
                 /\ classifications rs
                    = [Spec.SignificantMove; Spec.CriticalDrawdown])
  /\ classifications (margin_records 95)
     = [Spec.MarginCallRisk].
Proof.
  split; [|split].
  - eexists; split; [reflexivity | vm_compute; reflexivity].
  - eexists; split; [reflexivity | vm_compute; reflexivity].
  - vm_compute; reflexivity.
Qed.

End Evaluator.
