(* ===== verification/Health.v ===== *)
(** * Health: [MonitoringAgent.check_account_health]

    The account check of monitoring_agent.py, lines 28-77, as one
    action of the agent's monad: the guards on the [mt5] module and on
    [mt5.initialize()], the read of [mt5.account_info()], the
    comparison and margin checks of [Evaluator], the update of
    [self.last_balance] and [self.last_equity], the status record and
    [mt5.shutdown()].  An exception raised by the comparison leaves the
    method at that point: the remembered values are not updated and
    [mt5.shutdown()] is not called. *)

From Stdlib Require Import ZArith QArith Qabs List String Bool Lqa.
From S2P Require Import Prelude Logging Platform Agent Evaluator.
Import ListNotations.
Import Logging.

(** Lines 63-64. *)
Definition remember_account (b e : Q) (a : MonitoringAgent) : MonitoringAgent :=
  mkAgent (Some b) (Some e) (error_count a) (alert_threshold a).

(** The record of line 74 (without its timestamp). *)
Definition status_record (ai : AccountInfo) : LogRecord :=
  mkRecord INFO (MsgStatus (balance ai) (equity ai) (profit ai) (margin_level ai)).

(** [self.last_balance] and [self.last_equity] are set together (lines
    63-64), so either both are remembered or neither is. *)
Definition memory_paired (a : MonitoringAgent) : bool :=
  match last_balance a, last_equity a with
  | None, None | Some _, Some _ => true
  | _, _ => false
  end.

Section Health.
Context {E : Type} `{Platform E}.

Definition check_account_health : M bool :=
  w <- pget ;;
  if negb (mt5_loaded w) then
    log_msg ERROR MsgMt5Unavailable ;;; pret false
  else
    ok <- mt5_initialize_call ;;
    if negb ok then
      log_msg ERROR MsgInitFailed ;;; pret false
    else
      info <- mt5_account_info_call ;;
      match info with
      | None =>
          log_msg ERROR MsgAccountInfoFailed ;;;
          mt5_shutdown_call ;;;
          pret false
      | Some ai =>
          a <- get_agent ;;
          rs <- plift (Evaluator.change_records (last_balance a) (last_equity a)
                                                (balance ai) (equity ai)) ;;
          log_all rs ;;;
          log_all (Evaluator.margin_records (margin_level ai)) ;;;
          modify_agent (remember_account (balance ai) (equity ai)) ;;;
          log_msg (levelname (status_record ai)) (message (status_record ai)) ;;;
          mt5_shutdown_call ;;;
          pret true
      end.

(** ** The paths of the method *)

Lemma check_account_health_unloaded (w : World E) :
  mt5_loaded w = false ->
  check_account_health w
  = (Ret false, set_log (log w ++ [mkRecord ERROR MsgMt5Unavailable]) w).
Proof. intro Hl. unfold check_account_health. py_unfold. rewrite Hl. reflexivity. Qed.

Lemma check_account_health_init_failed (w : World E) (e1 : E) :
  mt5_loaded w = true -> mt5_initialize (env w) = (false, e1) ->
  check_account_health w
  = (Ret false, mkWorld (agent w) true false
                        (log w ++ [mkRecord ERROR MsgInitFailed]) e1).
Proof.
  intros Hl Hi. unfold check_account_health, mt5_initialize_call. py_unfold.
  rewrite Hl. simpl. rewrite Hi. destruct w; simpl in *; subst; reflexivity.
Qed.

Lemma check_account_health_no_info (w : World E) (e1 e2 : E) :
  mt5_loaded w = true -> mt5_initialize (env w) = (true, e1) ->
  mt5_account_info e1 = (None, e2) ->
  check_account_health w
  = (Ret false, mkWorld (agent w) true false
                        (log w ++ [mkRecord ERROR MsgAccountInfoFailed]) e2).
Proof.
  intros Hl Hi Ha.
  unfold check_account_health, mt5_initialize_call, mt5_account_info_call. py_unfold.
  rewrite Hl. simpl. rewrite Hi. simpl. rewrite Ha. destruct w; simpl in *; subst; reflexivity.
Qed.

Lemma check_account_health_info (w : World E) (e1 e2 : E) (ai : AccountInfo) :
  mt5_loaded w = true -> mt5_initialize (env w) = (true, e1) ->
  mt5_account_info e1 = (Some ai, e2) ->
  check_account_health w
  = match Evaluator.change_records (last_balance (agent w)) (last_equity (agent w))
                                   (balance ai) (equity ai) with
    | Exc ex => (Exc ex, mkWorld (agent w) true true (log w) e2)
    | Ret rs =>
        (Ret true,
         mkWorld (remember_account (balance ai) (equity ai) (agent w)) true false
                 (log w ++ rs ++ Evaluator.margin_records (margin_level ai)
                        ++ [status_record ai]) e2)
    end.
Proof.
  intros Hl Hi Ha.
  unfold check_account_health, mt5_initialize_call, mt5_account_info_call. py_unfold.
  rewrite Hl. simpl. rewrite Hi. simpl. rewrite Ha. simpl.
  destruct (Evaluator.change_records _ _ _ _) as [rs|ex] eqn:Hc;
    [|destruct w; simpl in *; subst; reflexivity].
  rewrite log_all_run by (intros r; apply Evaluator.change_records_not_debug with (1 := Hc)).
  rewrite log_all_run by apply Evaluator.margin_records_not_debug.
  destruct w; simpl in *; subst. rewrite !app_assoc. reflexivity.
Qed.

(** Split a run of [check_account_health] into its paths. *)
Ltac health_paths Hrun :=
  match type of Hrun with
  | check_account_health ?w = _ =>
      let Hl := fresh "Hl" in let Hi := fresh "Hi" in
      let Ha := fresh "Ha" in let Hc := fresh "Hc" in
      destruct (mt5_loaded w) eqn:Hl;
      [ destruct (mt5_initialize (env w)) as [[|] ?e1] eqn:Hi;
        [ destruct (mt5_account_info e1) as [[?ai|] ?e2] eqn:Ha;
          [ rewrite (check_account_health_info w _ _ _ Hl Hi Ha) in Hrun;
            destruct (Evaluator.change_records _ _ _ _) as [?rs|?ex] eqn:Hc
          | rewrite (check_account_health_no_info w _ _ Hl Hi Ha) in Hrun ]
        | rewrite (check_account_health_init_failed w _ Hl Hi) in Hrun ]
      | rewrite (check_account_health_unloaded w Hl) in Hrun ];
      inversion Hrun; subst; clear Hrun
  end.

(** The check changes neither the error counter nor the threshold,
    and keeps the remembered values paired. *)
Lemma check_account_health_fields (w w' : World E) (r : pyres bool) :
  check_account_health w = (r, w') ->
  error_count (agent w') = error_count (agent w)
  /\ alert_threshold (agent w') = alert_threshold (agent w)
  /\ (memory_paired (agent w) = true -> memory_paired (agent w') = true).
Proof. intro Hrun. health_paths Hrun; repeat split; auto. Qed.

Lemma check_account_health_grows : log_grows check_account_health.
Proof. unfold check_account_health. auto 20 with monn. Qed.

Lemma check_account_health_keeps_alerts : keeps alerts_of check_account_health.
Proof.
  intros x0 w r w' Hw Hrun. rewrite <- Hw. clear Hw. unfold alerts_of.
  health_paths Hrun; cbn [log set_log]; rewrite ?alerts_app; try reflexivity;
    try (simpl; apply app_nil_r).
  rewrite (Evaluator.change_records_no_alert _ _ _ _ _ Hc),
    Evaluator.margin_records_no_alert. simpl. apply app_nil_r.
Qed.

(** (C10) When the comparison raises, the exception leaves the method
    before lines 63-77: the remembered values and the log are those
    of before, and the terminal connection opened by
    [mt5.initialize()] is left open, because [mt5.shutdown()] is
    never reached.  The exception is ZeroDivisionError, or TypeError
    for a balance remembered without an equity. *)
Theorem check_account_health_exception (w w' : World E) (ex : PyExc) :
  check_account_health w = (Exc ex, w') ->
  (ex = ZeroDivisionError \/ ex = TypeError)
  /\ agent w' = agent w /\ log w' = log w /\ mt5_connected w' = true.
Proof.
  intro Hrun. health_paths Hrun.
  destruct (Evaluator.change_records_exc _ _ _ _ _ Hc) as [-> | [-> _]];
    repeat split; auto.
Qed.

(** (C21) A check that returns closes the terminal connection whenever
    the [mt5] module is loaded: every path after a successful
    [mt5.initialize()] ends with [mt5.shutdown()] (lines 40 and 76),
    and a failed initialisation leaves no connection. *)
Theorem check_account_health_closes (w w' : World E) (ok : bool) :
  mt5_loaded w = true ->
  check_account_health w = (Ret ok, w') -> mt5_connected w' = false.
Proof. intros Hload Hrun. health_paths Hrun; reflexivity || congruence. Qed.

(** (C23) [self]'s state after the check: a check that returns True has
    read an account record from the terminal and remembered its
    balance and equity (lines 63-64), keeping the error counter and
    threshold; any other outcome leaves [self] unchanged. *)
Theorem check_account_health_agent (w w' : World E) (r : pyres bool) :
  check_account_health w = (r, w') ->
  (r = Ret true
   /\ exists e1 ai,
        mt5_initialize (env w) = (true, e1)
        /\ fst (mt5_account_info e1) = Some ai
        /\ agent w' = remember_account (balance ai) (equity ai) (agent w))
  \/ (r <> Ret true /\ agent w' = agent w).
Proof.
  intro Hrun. health_paths Hrun;
    first [ right; split; [discriminate | reflexivity]
          | left; split; [reflexivity|];
            exists e1, ai; rewrite Ha; repeat split ].
Qed.

(** Invariant: the remembered balance and equity are set together,
    and every run of the check, returning or raising, preserves this. *)
Theorem check_account_health_paired (w w' : World E) (r : pyres bool) :
  memory_paired (agent w) = true ->
  check_account_health w = (r, w') -> memory_paired (agent w') = true.
Proof. intros Hp Hrun. apply (check_account_health_fields w w' r Hrun), Hp. Qed.

Lemma check_account_health_raises :
  raises_only (fun w : World E => memory_paired (agent w) = true)
              (fun ex => ex = ZeroDivisionError) check_account_health.
Proof.
  intros w ex w' Hp Hrun. health_paths Hrun.
  destruct (Evaluator.change_records_exc _ _ _ _ _ Hc) as [-> | [-> [Hb He]]];
    [reflexivity|].
  unfold memory_paired in Hp. rewrite He in Hp.
  destruct (last_balance (agent w)); [discriminate | contradiction].
Qed.

(** (C22) Under that invariant the check never raises TypeError: the only
    exception it can raise is ZeroDivisionError, from a remembered
    balance or equity of zero. *)
Theorem check_account_health_only_zerodiv (w w' : World E) (ex : PyExc) :
  memory_paired (agent w) = true ->
  check_account_health w = (Exc ex, w') -> ex = ZeroDivisionError.
Proof. intros Hp Hrun. exact (check_account_health_raises w ex w' Hp Hrun). Qed.

(** (C16) First poll: with nothing remembered, a successful read logs no
    change record, only the margin record (if the level is below 100)
    and the status record, and returns True having remembered the
    values read. *)
Theorem check_account_health_first_poll (w : World E) (e1 e2 : E)
        (ai : AccountInfo) :
  mt5_loaded w = true -> mt5_initialize (env w) = (true, e1) ->
  mt5_account_info e1 = (Some ai, e2) ->
  last_balance (agent w) = None ->
  check_account_health w
  = (Ret true,
     mkWorld (remember_account (balance ai) (equity ai) (agent w)) true false
             (log w ++ Evaluator.margin_records (margin_level ai)
                    ++ [status_record ai]) e2).
Proof.
  intros Hl Hi Ha Hn. rewrite (check_account_health_info w e1 e2 ai Hl Hi Ha).
  unfold Evaluator.change_records. rewrite Hn. reflexivity.
Qed.

(** Later polls: with non-zero remembered values, a successful read
    logs the change records of the equity move in percent, then the
    margin record, then the status record, and returns True. *)
Lemma check_account_health_next_poll (w : World E) (e1 e2 : E)
        (ai : AccountInfo) (lb le : Q) :
  mt5_loaded w = true -> mt5_initialize (env w) = (true, e1) ->
  mt5_account_info e1 = (Some ai, e2) ->
  last_balance (agent w) = Some lb -> last_equity (agent w) = Some le ->
  ~ lb == 0 -> ~ le == 0 ->
  check_account_health w
  = (Ret true,
     mkWorld (remember_account (balance ai) (equity ai) (agent w)) true false
             (log w ++ Evaluator.equity_change_records ((equity ai - le) / le * 100)
                    ++ Evaluator.margin_records (margin_level ai)
                    ++ [status_record ai]) e2).
Proof.
  intros Hl Hi Ha Hb He Hb0 He0.
  rewrite (check_account_health_info w e1 e2 ai Hl Hi Ha), Hb, He.
  rewrite Evaluator.change_records_nonzero by assumption. reflexivity.
Qed.

(** (C8) The thresholds of a later poll: with non-zero remembered values
    [lb] and [le], a successful read returns True and appends to the
    log the change records, the margin record and the status record, in
    that order; among the change records, the warning of line 54 is
    there exactly when the equity moved by more than 5% of [le] either
    way, the critical drawdown record of line 57 exactly when it fell by
    more than 10%, and there is no other. *)
Theorem check_account_health_alerts (w : World E) (e1 e2 : E)
        (ai : AccountInfo) (lb le : Q) :
  mt5_loaded w = true -> mt5_initialize (env w) = (true, e1) ->
  mt5_account_info e1 = (Some ai, e2) ->
  last_balance (agent w) = Some lb -> last_equity (agent w) = Some le ->
  ~ lb == 0 -> ~ le == 0 ->
  let pct := (equity ai - le) / le * 100 in
  exists rs w',
    check_account_health w = (Ret true, w')
    /\ log w' = log w ++ rs ++ Evaluator.margin_records (margin_level ai)
                      ++ [status_record ai]
    /\ (In (mkRecord WARNING (MsgEquityChanged pct)) rs <-> 5 < Qabs pct)
    /\ (In (mkRecord CRITICAL (MsgEquityDrawdown pct)) rs <-> pct < -10 # 1)
    /\ (forall r, In r rs -> r = mkRecord WARNING (MsgEquityChanged pct)
                             \/ r = mkRecord CRITICAL (MsgEquityDrawdown pct)).
Proof.
  intros Hl Hi Ha Hb He Hb0 He0 pct.
  exists (Evaluator.equity_change_records pct).
  eexists. split; [apply (check_account_health_next_poll w e1 e2 ai lb le); assumption|].
  split; [reflexivity|]. apply Evaluator.equity_change_records_spec.
Qed.

End Health.

#[export] Hint Resolve check_account_health_keeps_alerts
  check_account_health_grows : monn.

(** ** Witnesses, on the scripted adapter *)

Import Scripted.

Definition demo_info : AccountInfo := mkAccountInfo 1 10000 9400 (-600) 100 9300 9400.

(** A loaded terminal that comes up and answers [infos]. *)
Definition demo_world (a : MonitoringAgent) (infos : list (option AccountInfo))
  : World Script :=
  mkWorld a true false [] (mkScript [true] infos [] []).

Definition polled_world : World Script :=
  demo_world (mkAgent (Some 10000) (Some 10000) 0 5) [Some demo_info].
Definition fresh_world : World Script := demo_world MonitoringAgent_init [Some demo_info].
Definition zero_world : World Script :=
  demo_world (mkAgent (Some 0) (Some 1000) 0 5) [Some demo_info].

Lemma check_account_health_alerts_witness :
  mt5_loaded polled_world = true
  /\ mt5_initialize (env polled_world) = (true, mkScript [] [Some demo_info] [] [])
  /\ mt5_account_info (mkScript [] [Some demo_info] [] [])
     = (Some demo_info, mkScript [] [] [] [])
  /\ last_balance (agent polled_world) = Some 10000
  /\ last_equity (agent polled_world) = Some 10000
  /\ ~ 10000 == 0 /\ ~ 10000 == 0
  /\ let pct := (equity demo_info - 10000) / 10000 * 100 in
     exists rs w',
       check_account_health polled_world = (Ret true, w')
       /\ log w' = log polled_world ++ rs
                   ++ Evaluator.margin_records (margin_level demo_info)
                   ++ [status_record demo_info]
       /\ (In (mkRecord WARNING (MsgEquityChanged pct)) rs <-> 5 < Qabs pct)
       /\ (In (mkRecord CRITICAL (MsgEquityDrawdown pct)) rs <-> pct < -10 # 1)
       /\ (forall r, In r rs -> r = mkRecord WARNING (MsgEquityChanged pct)
                                \/ r = mkRecord CRITICAL (MsgEquityDrawdown pct)).
Proof.
  do 7 (split; [discharge|]).
  apply (check_account_health_alerts polled_world (mkScript [] [Some demo_info] [] [])
           (mkScript [] [] [] []) demo_info 10000 10000); discharge.
Defined.

Lemma check_account_health_exception_witness :
  check_account_health zero_world
  = (Exc ZeroDivisionError, snd (check_account_health zero_world))
  /\ (ZeroDivisionError = ZeroDivisionError \/ ZeroDivisionError = TypeError)
     /\ agent (snd (check_account_health zero_world)) = agent zero_world
     /\ log (snd (check_account_health zero_world)) = log zero_world
     /\ mt5_connected (snd (check_account_health zero_world)) = true.
Proof.
  split; [discharge|]. apply (check_account_health_exception zero_world). discharge.
Defined.

Lemma check_account_health_closes_witness :
  mt5_loaded polled_world = true
  /\ check_account_health polled_world
     = (Ret true, snd (check_account_health polled_world))
  /\ mt5_connected (snd (check_account_health polled_world)) = false.
Proof.
  do 2 (split; [discharge|]).
  apply (check_account_health_closes polled_world _ true); discharge.
Defined.

Lemma check_account_health_only_zerodiv_witness :
  memory_paired (agent zero_world) = true
  /\ check_account_health zero_world
     = (Exc ZeroDivisionError, snd (check_account_health zero_world))
  /\ ZeroDivisionError = ZeroDivisionError.
Proof.
  do 2 (split; [discharge|]).
  apply (check_account_health_only_zerodiv zero_world (snd (check_account_health zero_world)));
    discharge.
Defined.

Lemma check_account_health_first_poll_witness :
  mt5_loaded fresh_world = true
  /\ mt5_initialize (env fresh_world) = (true, mkScript [] [Some demo_info] [] [])
  /\ mt5_account_info (mkScript [] [Some demo_info] [] [])
     = (Some demo_info, mkScript [] [] [] [])
  /\ last_balance (agent fresh_world) = None
  /\ check_account_health fresh_world
     = (Ret true,
        mkWorld (remember_account (balance demo_info) (equity demo_info) (agent fresh_world))
                true false
                (log fresh_world ++ Evaluator.margin_records (margin_level demo_info)
                     ++ [status_record demo_info]) (mkScript [] [] [] [])).
Proof.
  do 4 (split; [discharge|]).
  apply (check_account_health_first_poll fresh_world (mkScript [] [Some demo_info] [] [])
           (mkScript [] [] [] []) demo_info); discharge.
Defined.

Lemma check_account_health_agent_witness :
  check_account_health polled_world
  = (Ret true, snd (check_account_health polled_world))
  /\ ((Ret true = Ret true
       /\ exists e1 ai,
            mt5_initialize (env polled_world) = (true, e1)
            /\ fst (mt5_account_info e1) = Some ai
            /\ agent (snd (check_account_health polled_world))
               = remember_account (balance ai) (equity ai) (agent polled_world))
      \/ (Ret true <> Ret true
          /\ agent (snd (check_account_health polled_world)) = agent polled_world)).
Proof.
  split; [discharge|]. apply check_account_health_agent. discharge.
Defined.

