(* ===== verification/Process.v ===== *)
(** * Process: [MonitoringAgent.check_bot_process]

    The liveness check of monitoring_agent.py, lines 79-94: run
    [tasklist /FI "IMAGENAME eq python.exe"], and report the trading
    bot alive when the captured output contains the text [python.exe].
    The [except Exception] clause turns a failure to run the command
    into [False]; a KeyboardInterrupt is not an [Exception] and
    propagates. *)

From Stdlib Require Import ZArith QArith List String Bool.
From S2P Require Import Prelude Logging Platform Agent.
Import ListNotations.
Import Logging.


(** The image name searched for in the output, line 88. *)
Definition bot_image : string := "python.exe"%string.

Section Process.
Context {E : Type} `{Platform E}.

Definition check_bot_process : M bool :=
  ptry (out <- subprocess_run_tasklist ;;
        if negb (py_str_in bot_image out) then
          log_msg CRITICAL MsgBotNotFound ;;; pret false
        else pret true)
       is_Exception
       (fun e => log_msg ERROR (MsgBotCheckError e) ;;; pret false).

(** The whole behaviour of the check, by the outcome of
    [subprocess.run]. *)
Lemma check_bot_process_run (w : World E) :
  check_bot_process w
  = match run_tasklist (env w) with
    | (Completed out, e') =>
        if py_str_in bot_image out then (Ret true, set_env e' w)
        else (Ret false, set_log (log w ++ [mkRecord CRITICAL MsgBotNotFound])
                                 (set_env e' w))
    | (RunRaised ex, e') =>
        if is_Exception ex
        then (Ret false, set_log (log w ++ [mkRecord ERROR (MsgBotCheckError ex)])
                                 (set_env e' w))
        else (Exc ex, set_env e' w)
    end.
Proof.
  unfold check_bot_process, subprocess_run_tasklist. py_unfold.
  destruct (run_tasklist (env w)) as [[out|ex] e'].
  - destruct (py_str_in bot_image out); reflexivity.
  - destruct (is_Exception ex); reflexivity.
Qed.

(** (C18) The check returns True exactly when [tasklist] ran and its
    output contains [python.exe] somewhere; it returns False, having
    logged a critical record, when the output does not; and it returns
    False with an error record when the command raised an
    [Exception]. *)
Theorem check_bot_process_spec (w : World E) (b : bool) (w' : World E) :
  check_bot_process w = (Ret b, w') ->
  (b = true <->
   exists out pre suf, fst (run_tasklist (env w)) = Completed out
                       /\ out = (pre ++ bot_image ++ suf)%string)
  /\ (b = false -> exists r, log w' = log w ++ [r]
                             /\ (levelname r = CRITICAL \/ levelname r = ERROR)).
Proof.
  rewrite check_bot_process_run.
  destruct (run_tasklist (env w)) as [[out|ex] e']; simpl.
  - destruct (py_str_in bot_image out) eqn:Hin; intros [= <- <-]; split.
    + split; [intros _|reflexivity].
      apply py_str_in_spec in Hin. destruct Hin as [pre [suf ->]].
      exists (pre ++ bot_image ++ suf)%string, pre, suf. split; reflexivity.
    + discriminate.
    + split; [discriminate|]. intros [o [pre [suf [[= <-] Ho]]]].
      rewrite <- Hin. apply py_str_in_spec. exists pre, suf. exact Ho.
    + intros _. eexists; split; [reflexivity | left; reflexivity].
  - destruct (is_Exception ex); intros [= <- <-]; split.
    + split; [discriminate|]. intros [o [pre [suf [[=] _]]]].
    + intros _. eexists; split; [reflexivity | right; reflexivity].
Qed.

(** Only a KeyboardInterrupt escapes the check: every other
    exception is caught by [except Exception] (line 92). *)
Lemma check_bot_process_raises (P : World E -> Prop) :
  raises_only P (fun ex => ex = KeyboardInterrupt) check_bot_process.
Proof.
  intros w ex w' _. rewrite check_bot_process_run.
  destruct (run_tasklist (env w)) as [[out|ex'] e'].
  - destruct (py_str_in bot_image out); discriminate.
  - destruct ex'; simpl; congruence.
Qed.

Lemma check_bot_process_keeps_agent : keeps agent check_bot_process.
Proof. unfold check_bot_process. auto 10 with monn. Qed.

Lemma check_bot_process_keeps_alerts : keeps alerts_of check_bot_process.
Proof. unfold check_bot_process. auto 10 with monn. Qed.

Lemma check_bot_process_grows : log_grows check_bot_process.
Proof. unfold check_bot_process. auto 10 with monn. Qed.

End Process.

#[export] Hint Resolve check_bot_process_keeps_agent
  check_bot_process_keeps_alerts check_bot_process_grows : monn.

(** ** Witness, on the scripted adapter *)

Import Scripted.

Definition tasklist_world (out : string) : World Script :=
  initial_world true (mkScript [] [] [Completed out] []).

Definition python_row : string :=
  "python.exe                    4242 Console                    1     25,000 K"%string.

Lemma check_bot_process_spec_witness :
  check_bot_process (tasklist_world python_row)
  = (Ret true, snd (check_bot_process (tasklist_world python_row)))
  /\ (true = true <->
      exists out pre suf, fst (run_tasklist (env (tasklist_world python_row))) = Completed out
                          /\ out = (pre ++ bot_image ++ suf)%string)
  /\ (true = false -> exists r, log (snd (check_bot_process (tasklist_world python_row)))
                                = (log (tasklist_world python_row) ++ [r])%list
                                /\ (levelname r = CRITICAL \/ levelname r = ERROR)).
Proof. split; [discharge|]. apply check_bot_process_spec. discharge. Defined.

