(* ===== verification/Counter.v ===== *)
(** * Counter: the decaying error counter of [monitor_loop]

    Each cycle of monitoring_agent.py's loop updates [self.error_count]
    once per check (lines 105-108 for the process, 111-114 for the
    account): a failed check adds one, a passed one subtracts one with
    a floor at zero.  This file gives that update on Python's unbounded
    integers ([Z]), the spec's description of it as a counter on
    naturals ([Spec]) with the refinement between the two, and the
    arithmetic facts the loop's theorems use: non-negativity, the bound
    of two per cycle, decay under repeated success and growth under
    repeated failure. *)

From Stdlib Require Import ZArith List Lia.
From S2P Require Import Prelude.
Import ListNotations.
Local Open Scope Z_scope.

Module Counter.

(** [if not ok: c += 1 else: c = max(0, c - 1)]. *)
Definition update_error_count (ok : bool) (c : Z) : Z :=
  if ok then Z.max 0 (c - 1) else c + 1.

(** One cycle: the process check, then the account check. *)
Definition cycle_count (process_ok account_ok : bool) (c : Z) : Z :=
  update_error_count account_ok (update_error_count process_ok c).

(** The counter after a sequence of cycles, oldest first. *)
Fixpoint run_counts (outcomes : list (bool * bool)) (c : Z) : Z :=
  match outcomes with
  | [] => c
  | (p, a) :: rest => run_counts rest (cycle_count p a c)
  end.

(** The counter after each cycle of a sequence. *)
Fixpoint count_trace (outcomes : list (bool * bool)) (c : Z) : list Z :=
  match outcomes with
  | [] => []
  | (p, a) :: rest =>
      let c' := cycle_count p a c in c' :: count_trace rest c'
  end.

(** The spec's counter (section 4.2, step 3): a natural number,
    incremented for each failed check and decremented, never below
    zero, for each passed one. *)
Module Spec.
Definition step (ok : bool) (n : nat) : nat :=
  if ok then Nat.pred n else S n.
End Spec.

(** ** Arithmetic of one update *)

Lemma update_nonneg (ok : bool) (c : Z) :
  0 <= c -> 0 <= update_error_count ok c.
Proof. destruct ok; simpl; lia. Qed.

Lemma cycle_nonneg (p a : bool) (c : Z) :
  0 <= c -> 0 <= cycle_count p a c.
Proof. intro H. apply update_nonneg, update_nonneg, H. Qed.

Lemma cycle_both_ok (c : Z) :
  0 <= c -> cycle_count true true c = Z.max 0 (c - 2).
Proof. intro H. unfold cycle_count, update_error_count. lia. Qed.

Lemma cycle_both_fail (c : Z) : cycle_count false false c = c + 2.
Proof. unfold cycle_count, update_error_count. lia. Qed.

#[export] Hint Resolve update_nonneg cycle_nonneg : monn.
#[export] Hint Rewrite cycle_both_fail : monn_rw.

Lemma run_counts_app (o1 o2 : list (bool * bool)) (c : Z) :
  run_counts (o1 ++ o2) c = run_counts o2 (run_counts o1 c).
Proof. revert c. induction o1 as [|[p a] o1 IH]; intro c; simpl; auto. Qed.

Lemma run_counts_both_ok (k : nat) (c : Z) :
  0 <= c -> run_counts (repeat (true, true) k) c = Z.max 0 (c - 2 * Z.of_nat k).
Proof.
  revert c. induction k as [|k IH]; intros c Hc; cbn [repeat run_counts].
  - lia.
  - rewrite IH by (apply cycle_nonneg; exact Hc). rewrite cycle_both_ok by exact Hc. lia.
Qed.

Lemma run_counts_both_fail (k : nat) (c : Z) :
  run_counts (repeat (false, false) k) c = c + 2 * Z.of_nat k.
Proof.
  revert c. induction k as [|k IH]; intro c; cbn [repeat run_counts].
  - lia.
  - rewrite IH, cycle_both_fail. lia.
Qed.

(** Refinement: on non-negative values the code's update (a [Z]
    with [max(0, c - 1)]) is the spec's counter on naturals, for a
    passed and for a failed check. *)
Theorem update_refines_spec (ok : bool) (n : nat) :
  update_error_count ok (Z.of_nat n) = Z.of_nat (Spec.step ok n).
Proof. destruct ok; unfold update_error_count, Spec.step; lia. Qed.

(** Invariant: from a non-negative count, the counter stays
    non-negative after any sequence of cycles. *)
Theorem run_counts_nonneg (outcomes : list (bool * bool)) (c : Z) :
  0 <= c -> 0 <= run_counts outcomes c.
Proof.
  revert c. induction outcomes as [|[p a] rest IH]; intros c Hc; simpl; auto with monn.
Qed.

(** (C15) Bounds: one cycle moves a non-negative counter by at most two
    either way, so after [n] cycles it is at most [c + 2n]. *)
Theorem run_counts_bounds (outcomes : list (bool * bool)) (c : Z) :
  0 <= c ->
  (forall p a, c - 2 <= cycle_count p a c <= c + 2)
  /\ run_counts outcomes c <= c + 2 * Z.of_nat (length outcomes).
Proof.
  intro Hc. split.
  - intros [|] [|]; unfold cycle_count, update_error_count; lia.
  - revert c Hc. induction outcomes as [|[p a] rest IH]; intros c Hc; simpl.
    + lia.
    + specialize (IH (cycle_count p a c) (cycle_nonneg p a c Hc)).
      assert (cycle_count p a c <= c + 2)
        by (destruct p, a; unfold cycle_count, update_error_count; lia).
      lia.
Qed.

Lemma run_counts_bounds_witness :
  0 <= 3
  /\ (forall p a, 3 - 2 <= cycle_count p a 3 <= 3 + 2)
     /\ run_counts [(false, false); (true, false)] 3 <= 3 + 2 * Z.of_nat 2.
Proof. split; [lia | apply run_counts_bounds; lia]. Defined.

(** (C13) Decay: from a count [c >= 0], [ceil(c/2)] cycles in which both
    checks pass bring the counter to 0, and any further such cycles
    keep it there. *)
Theorem decay_to_zero (c : Z) (k : nat) :
  0 <= c -> (c + 1) / 2 <= Z.of_nat k ->
  run_counts (repeat (true, true) k) c = 0.
Proof.
  intros Hc Hk. rewrite run_counts_both_ok by exact Hc.
  assert (c <= 2 * ((c + 1) / 2)) by (pose proof (Z.div_mod (c + 1) 2); pose proof (Z.mod_pos_bound (c + 1) 2); lia).
  lia.
Qed.

Lemma decay_to_zero_witness :
  0 <= 5 /\ (5 + 1) / 2 <= Z.of_nat 3 /\ run_counts (repeat (true, true) 3) 5 = 0.
Proof.
  split; [lia|]. split; [vm_compute; discriminate|].
  apply decay_to_zero; [lia | vm_compute; discriminate].
Defined.

(** (C6) Escalation time: from a count [c] below a threshold [t], cycles
    in which both checks fail reach [t] after exactly
    [ceil((t - c)/2)] cycles, and not before. *)
Theorem escalation_time (c t : Z) (k : nat) :
  0 <= c < t ->
  (t <= run_counts (repeat (false, false) k) c <-> (t - c + 1) / 2 <= Z.of_nat k).
Proof.
  intros Hct. rewrite run_counts_both_fail.
  pose proof (Z.div_mod (t - c + 1) 2). pose proof (Z.mod_pos_bound (t - c + 1) 2).
  lia.
Qed.

Lemma escalation_time_witness :
  0 <= 0 < 5
  /\ (5 <= run_counts (repeat (false, false) 3) 0 <-> (5 - 0 + 1) / 2 <= Z.of_nat 3).
Proof. split; [lia | apply escalation_time; lia]. Defined.

(** (C14) An isolated failed check, in a cycle where the other check
    passes, followed by cycles where both pass, never lifts a zero
    counter above 1. *)
Theorem isolated_failure_bounded (p a : bool) (k : nat) :
  p = true \/ a = true ->
  Forall (fun x => x <= 1) (count_trace ((p, a) :: repeat (true, true) k) 0).
Proof.
  intro Hpa. simpl count_trace. constructor.
  - destruct Hpa as [-> | ->]; destruct p || destruct a; cbv; discriminate.
  - assert (Hle : 0 <= cycle_count p a 0 <= 1)
      by (destruct Hpa as [-> | ->]; [destruct a | destruct p];
          unfold cycle_count, update_error_count; lia).
    generalize dependent (cycle_count p a 0). induction k as [|k IH]; intros c Hc;
      cbn [repeat count_trace].
    + constructor.
    + constructor; [rewrite cycle_both_ok; lia|]. apply IH.
      rewrite cycle_both_ok; lia.
Qed.

Lemma isolated_failure_bounded_witness :
  (false = true \/ true = true)
  /\ Forall (fun x => x <= 1) (count_trace ((false, true) :: repeat (true, true) 4) 0).
Proof.
  split; [right; reflexivity | apply isolated_failure_bounded; right; reflexivity].
Defined.

(** (C4) A check that fails at every cycle while the other passes keeps
    a counter of 0 or 1 where it is (and lifts 0 to 1 when it is the
    account check that fails): the counter never grows, so a permanent
    failure of one check alone never reaches a threshold above 1.
    In particular the spec's scenario (account check failing, process
    check passing, three cycles from 0) gives 1, 1, 1, not 1, 2, 3. *)
Theorem one_check_failing_steady (k : nat) :
  count_trace (repeat (true, false) k) 0 = repeat 1 k
  /\ count_trace (repeat (false, true) k) 0 = repeat 0 k.
Proof.
  split.
  - destruct k as [|k]; [reflexivity|]. simpl. f_equal.
    induction k as [|k IH]; [reflexivity|]. simpl. f_equal. exact IH.
  - induction k as [|k IH]; [reflexivity|]. simpl. f_equal. exact IH.
Qed.

End Counter.
