(* ===== verification/Loop.v ===== *)
(** * Loop: [MonitoringAgent.monitor_loop] and the program's entry point

    monitoring_agent.py, lines 96-129.  One cycle ([loop_body]) runs
    the process check and counts it, runs the account check and counts
    it, logs the sustained-failure alert when the counter has reached
    the threshold, and sleeps.  [while True] is unbounded; the model
    runs it for a number of cycles [fuel] chosen by the statement and
    reports [StillRunning] when that many cycles completed without an
    exception.  The whole loop sits in [try ... except
    KeyboardInterrupt], which logs the stop record and returns. *)

From Stdlib Require Import ZArith QArith List String Bool Lia.
From S2P Require Import Prelude Logging Platform Agent Evaluator Health Process Counter.
Import ListNotations.
Import Logging.

Section Loop.
Context {E : Type} `{Platform E}.

(** Lines 105-108 and 111-114: count one check. *)
Definition count_check (ok : bool) : @M E unit :=
  modify_agent (fun a =>
    with_error_count (Counter.update_error_count ok (error_count a)) a).

(** Lines 117-118. *)
Definition escalate : @M E unit :=
  a <- get_agent ;;
  if (alert_threshold a <=? error_count a)%Z
  then log_msg CRITICAL (MsgConsecutiveErrors (error_count a))
  else pret tt.

(** Lines 103-121: one iteration of [while True]. *)
Definition loop_body (check_interval : Z) : @M E unit :=
  p <- check_bot_process ;;
  count_check p ;;;
  h <- check_account_health ;;
  count_check h ;;;
  escalate ;;;
  time_sleep check_interval.

Fixpoint while_true (fuel : nat) (body : @M E unit) : @M E unit :=
  match fuel with
  | O => pret tt
  | S n => body ;;; while_true n body
  end.

Inductive LoopExit : Type :=
  | StillRunning   (* [fuel] cycles completed; the loop goes on *)
  | Stopped.       (* KeyboardInterrupt caught, method returned *)

(** Lines 96-125 (the two [print] calls write to the console and are
    not modelled). *)
Definition monitor_loop (fuel : nat) (check_interval : Z) : @M E LoopExit :=
  log_msg INFO MsgAgentStarted ;;;
  ptry (while_true fuel (loop_body check_interval) ;;; pret StillRunning)
       is_KeyboardInterrupt
       (fun _ => log_msg INFO MsgAgentStopped ;;; pret Stopped).

(** Lines 127-129: a fresh agent, polling every 300 seconds. *)
Definition main (fuel : nat) (mt5_available : bool) (e : E)
  : pyres LoopExit * World E :=
  monitor_loop fuel 300 (initial_world mt5_available e).

(** ** Invariant of the agent's fields *)

Definition agent_ok (a : MonitoringAgent) : Prop :=
  (0 <= error_count a)%Z /\ memory_paired a = true /\ alert_threshold a = 5%Z.

Definition world_ok (w : World E) : Prop := agent_ok (agent w).

Lemma count_check_ok (ok : bool) : preserves world_ok (count_check ok).
Proof.
  apply preserves_modify. intros w [Hc [Hp Ht]].
  split; [apply Counter.update_nonneg, Hc | split; assumption].
Qed.

Lemma check_bot_process_ok : preserves world_ok check_bot_process.
Proof. apply (keeps_preserves agent _ agent_ok), check_bot_process_keeps_agent. Qed.

Lemma check_account_health_ok : preserves world_ok check_account_health.
Proof.
  intros w r w' [Hc [Hp Ht]] Hrun.
  destruct (check_account_health_fields w w' r Hrun) as [Hc' [Ht' Hp']].
  unfold world_ok, agent_ok. rewrite Hc', Ht'. auto.
Qed.

Lemma escalate_keeps : keeps agent escalate.
Proof. unfold escalate. auto with monn. Qed.

Lemma loop_body_ok (ci : Z) : preserves world_ok (loop_body ci).
Proof.
  unfold loop_body.
  apply preserves_bind; [apply check_bot_process_ok | intro p].
  apply preserves_bind; [apply count_check_ok | intros _].
  apply preserves_bind; [apply check_account_health_ok | intro h].
  apply preserves_bind; [apply count_check_ok | intros _].
  apply preserves_bind; [apply (keeps_preserves agent _ agent_ok), escalate_keeps | intros _].
  apply (keeps_preserves agent _ agent_ok), env_frame_keeps_agent, time_sleep_frame.
Qed.

Lemma while_true_preserves (P : World E -> Prop) (n : nat) (body : @M E unit) :
  preserves P body -> preserves P (while_true n body).
Proof.
  intro Hb. induction n as [|n IH]; simpl; auto with monn.
Qed.

(** ** Exceptions of a cycle *)

Lemma time_sleep_raises (P : World E -> Prop) (ci : Z) :
  raises_only P (fun ex => ex = ValueError \/ ex = KeyboardInterrupt) (time_sleep ci).
Proof.
  intros w ex w' _. unfold time_sleep, praise.
  destruct (ci <? 0)%Z; [intros [= <- _]; left; reflexivity|].
  destruct (sleep_interrupted (env w)) as [[|] e']; intros [= <- _]; right; reflexivity.
Qed.

Lemma time_sleep_valid_raises (P : World E -> Prop) (ci : Z) :
  (0 <= ci)%Z ->
  raises_only P (fun ex => ex = KeyboardInterrupt) (time_sleep ci).
Proof.
  intros Hci w ex w' _. unfold time_sleep, praise.
  destruct (Z.ltb_spec ci 0); [lia|].
  destruct (sleep_interrupted (env w)) as [[|] e']; intros [= <- _]; reflexivity.
Qed.

Lemma count_check_raises (P : World E -> Prop) Pe ok : raises_only P Pe (count_check ok).
Proof. intros w ex w' _ [=]. Qed.

Lemma escalate_raises (P : World E -> Prop) Pe : raises_only P Pe escalate.
Proof.
  intros w ex w' _. unfold escalate, get_agent, pbind, log_msg, pmodify, pret.
  destruct (_ <=? _)%Z; discriminate.
Qed.

(** From a well-formed state a cycle raises only KeyboardInterrupt
    (from [subprocess.run]), ZeroDivisionError (from the comparison),
    or what [time.sleep] raises. *)
Lemma loop_body_raises (ci : Z) (Ps : PyExc -> Prop) :
  raises_only world_ok Ps (time_sleep ci) ->
  raises_only world_ok
    (fun ex => ex = KeyboardInterrupt \/ ex = ZeroDivisionError \/ Ps ex) (loop_body ci).
Proof.
  intro Hs. unfold loop_body.
  apply raises_only_bind; [apply check_bot_process_ok | |intro p].
  { eapply raises_only_weaken; [|apply check_bot_process_raises].
    intros ? ->; left; reflexivity. }
  apply raises_only_bind; [apply count_check_ok | apply count_check_raises | intros _].
  apply raises_only_bind; [apply check_account_health_ok | |intro h].
  { eapply raises_only_weaken; [|eapply raises_only_strengthen; [|apply check_account_health_raises]].
    - intros ? ->; right; left; reflexivity.
    - intros w [_ [Hp _]]; exact Hp. }
  apply raises_only_bind; [apply count_check_ok | apply count_check_raises | intros _].
  apply raises_only_bind;
    [apply (keeps_preserves agent _ agent_ok), escalate_keeps | apply escalate_raises | intros _].
  eapply raises_only_weaken; [|exact Hs]. intros; right; right; assumption.
Qed.

Lemma while_true_raises (P : World E -> Prop) (Pe : PyExc -> Prop) (n : nat) (body : @M E unit) :
  preserves P body -> raises_only P Pe body -> raises_only P Pe (while_true n body).
Proof.
  intros Hp Hr. induction n as [|n IH]; simpl; [apply raises_only_ret|].
  apply raises_only_bind; auto.
Qed.

Lemma monitor_loop_preserves (fuel : nat) (ci : Z) : preserves world_ok (monitor_loop fuel ci).
Proof.
  unfold monitor_loop.
  apply preserves_bind; [apply (keeps_preserves agent _ agent_ok); auto with monn | intros _].
  apply preserves_try; [apply preserves_bind; [apply while_true_preserves, loop_body_ok | intros _; apply preserves_ret]|].
  intros _. apply preserves_bind; [apply (keeps_preserves agent _ agent_ok); auto with monn | intros _; apply preserves_ret].
Qed.

Lemma loop_body_grows (ci : Z) : log_grows (loop_body ci).
Proof. unfold loop_body, count_check, escalate. auto 20 with monn. Qed.

Lemma initial_world_ok (loaded : bool) (e : E) : world_ok (initial_world loaded e).
Proof. repeat split; simpl; lia. Qed.

(** (C2) Invariant of every run of the program, whatever the terminal,
    the process table and the user do, and however many cycles it
    runs: the error counter is non-negative, the remembered balance
    and equity are set together, the threshold is still 5, and the
    log begins with the start record. *)
Theorem main_invariant (fuel : nat) (loaded : bool) (e : E) :
  world_ok (snd (main fuel loaded e))
  /\ exists rest, log (snd (main fuel loaded e)) = mkRecord INFO MsgAgentStarted :: rest.
Proof.
  unfold main. split.
  - apply preserves_run; [apply monitor_loop_preserves | apply initial_world_ok].
  - destruct (monitor_loop fuel 300 (initial_world loaded e)) as [r w'] eqn:Hrun. simpl.
    unfold monitor_loop in Hrun.
    rewrite (pbind_run _ _ _ _ tt (log_msg_run _ _ _)) in Hrun.
    assert (Hg : log_grows (E:=E) (ptry (while_true fuel (loop_body 300) ;;; pret StillRunning)
                  is_KeyboardInterrupt (fun _ => log_msg INFO MsgAgentStopped ;;; pret Stopped))).
    { apply log_grows_try; [apply log_grows_bind | intros; auto with monn].
      - intro l0. apply while_true_preserves, loop_body_grows.
      - intros; apply log_grows_ret. }
    destruct (log_grows_run _ _ _ _ Hg Hrun) as [rest Hrest].
    exists rest. rewrite Hrest. reflexivity.
Qed.

(** The body of the [try] of [monitor_loop]. *)
Definition loop_try_body (fuel : nat) (ci : Z) : @M E LoopExit :=
  while_true fuel (loop_body ci) ;;; pret StillRunning.

Lemma monitor_loop_run (fuel : nat) (ci : Z) (w : World E) :
  monitor_loop fuel ci w
  = match loop_try_body fuel ci (set_log (log w ++ [mkRecord INFO MsgAgentStarted]) w) with
    | (Ret x, w1) => (Ret x, w1)
    | (Exc KeyboardInterrupt, w1) =>
        (Ret Stopped, set_log (log w1 ++ [mkRecord INFO MsgAgentStopped]) w1)
    | (Exc ex, w1) => (Exc ex, w1)
    end.
Proof.
  unfold monitor_loop. rewrite (pbind_run _ _ _ _ tt (log_msg_run _ _ _)).
  unfold ptry. fold (loop_try_body fuel ci).
  destruct (loop_try_body fuel ci _) as [[x|[]] w1]; reflexivity.
Qed.

Lemma loop_try_body_result (fuel : nat) (ci : Z) (w w1 : World E) (x : LoopExit) :
  loop_try_body fuel ci w = (Ret x, w1) -> x = StillRunning.
Proof.
  unfold loop_try_body, pbind.
  destruct (while_true fuel (loop_body ci) w) as [[[]|ex] w2]; intro Hr; inversion Hr; reflexivity.
Qed.

(** (C11) The agent started by [main] (interval 300 s) can crash with one
    exception only: ZeroDivisionError, from a remembered balance or
    equity of zero.  A KeyboardInterrupt is caught by the [try]; a
    failure to run [tasklist] or to reach the terminal is turned into
    [False]; the interval is valid; and TypeError is excluded by the
    invariant. *)
Theorem main_crashes_only_zerodiv (fuel : nat) (loaded : bool) (e : E) (ex : PyExc) :
  fst (main fuel loaded e) = Exc ex -> ex = ZeroDivisionError.
Proof.
  unfold main. rewrite monitor_loop_run.
  set (w0 := set_log _ _).
  destruct (loop_try_body fuel 300 w0) as [r w1] eqn:Hrun.
  assert (Hr : raises_only world_ok (fun ex => ex = KeyboardInterrupt \/ ex = ZeroDivisionError)
                 (loop_try_body fuel 300)).
  { unfold loop_try_body. apply raises_only_bind;
      [apply while_true_preserves, loop_body_ok | | intros; apply raises_only_ret].
    apply while_true_raises; [apply loop_body_ok|].
    eapply raises_only_weaken; [|apply loop_body_raises, time_sleep_valid_raises; lia].
    intros ? [-> | [-> | ->]]; auto. }
  destruct r as [x|ex']; simpl; [intro Hx; discriminate Hx|].
  assert (Hok : world_ok w0) by apply initial_world_ok.
  destruct (Hr w0 ex' w1 Hok Hrun) as [-> | ->]; simpl; intro Hx; congruence.
Qed.

(** (C19) How [monitor_loop] ends, from how its [while True] loop
    (started after the start record of line 98) ends: the method
    returns [Stopped] exactly when the loop raised KeyboardInterrupt,
    and then appends the stop record of line 124 to the loop's log and
    changes nothing else; when the loop completes its [fuel] cycles it
    reports [StillRunning], and when the loop raises any other
    exception the method re-raises it; in both cases its final state is
    the loop's, with no stop record added. *)
Theorem monitor_loop_exits (fuel : nat) (ci : Z) (w w' : World E) (r : pyres LoopExit) :
  monitor_loop fuel ci w = (r, w') ->
  (exists w1, while_true fuel (loop_body ci)
                (set_log (log w ++ [mkRecord INFO MsgAgentStarted]) w)
              = (Exc KeyboardInterrupt, w1)
              /\ r = Ret Stopped
              /\ w' = set_log (log w1 ++ [mkRecord INFO MsgAgentStopped]) w1)
  \/ (while_true fuel (loop_body ci) (set_log (log w ++ [mkRecord INFO MsgAgentStarted]) w)
      = (Ret tt, w') /\ r = Ret StillRunning)
  \/ (exists ex, while_true fuel (loop_body ci)
                   (set_log (log w ++ [mkRecord INFO MsgAgentStarted]) w) = (Exc ex, w')
                 /\ ex <> KeyboardInterrupt /\ r = Exc ex).
Proof.
  intro Hm. rewrite monitor_loop_run in Hm. unfold loop_try_body, pbind in Hm.
  destruct (while_true fuel (loop_body ci) _) as [[[]|[]] w1]; injection Hm as <- <-;
    first [ left; eexists; split; [reflexivity | split; reflexivity]
          | right; left; split; reflexivity
          | right; right; eexists; split; [reflexivity | split; [discriminate | reflexivity]] ].
Qed.

Lemma time_sleep_negative (P : World E -> Prop) (ci : Z) :
  (ci < 0)%Z -> never_returns (time_sleep ci)
               /\ raises_only P (fun ex => ex = ValueError) (time_sleep ci).
Proof.
  intro Hci. unfold time_sleep. rewrite (proj2 (Z.ltb_lt ci 0) Hci).
  split; [apply never_returns_raise | intros w ex w' _ [= <- _]; reflexivity].
Qed.

(** (C20) A negative interval is not rejected (the spec asks for a
    configuration error; the code does no validation): the first
    [time.sleep] raises ValueError, which no clause catches, so a loop
    started with it ends in its first cycle, by a crash with
    ValueError (or ZeroDivisionError from the comparison), or by
    [Stopped] if the user interrupts [tasklist]; it never completes a
    cycle. *)
Theorem monitor_loop_negative_interval (n : nat) (ci : Z) (w w' : World E)
        (r : pyres LoopExit) :
  (ci < 0)%Z -> world_ok w ->
  monitor_loop (S n) ci w = (r, w') ->
  r = Ret Stopped \/ r = Exc ValueError \/ r = Exc ZeroDivisionError.
Proof.
  intros Hci Hok Hm. rewrite monitor_loop_run in Hm. set (w0 := set_log _ _) in Hm.
  assert (Hnr : never_returns (loop_try_body (S n) ci)).
  { unfold loop_try_body. simpl while_true.
    apply never_returns_bind_l, never_returns_bind_l. unfold loop_body.
    repeat (apply never_returns_bind; intro).
    apply (time_sleep_negative (fun _ => True) ci Hci). }
  assert (Hr : raises_only world_ok
                 (fun ex => ex = KeyboardInterrupt \/ ex = ZeroDivisionError \/ ex = ValueError)
                 (loop_try_body (S n) ci)).
  { unfold loop_try_body. apply raises_only_bind;
      [apply while_true_preserves, loop_body_ok | | intros; apply raises_only_ret].
    apply while_true_raises; [apply loop_body_ok|].
    apply loop_body_raises, (time_sleep_negative world_ok ci Hci). }
  destruct (Hnr w0) as [ex [w1 Hrun]]. rewrite Hrun in Hm.
  destruct (Hr w0 ex w1 Hok Hrun) as [-> | [-> | ->]]; injection Hm as <- _; auto.
Qed.

(** ** One cycle: the counter and the alert *)

Lemma count_check_run (ok : bool) (w : World E) :
  count_check ok w
  = (Ret tt, set_agent (with_error_count
                          (Counter.update_error_count ok (error_count (agent w))) (agent w)) w).
Proof. reflexivity. Qed.

Definition alert_records (a : MonitoringAgent) : list LogRecord :=
  if (alert_threshold a <=? error_count a)%Z
  then [mkRecord CRITICAL (MsgConsecutiveErrors (error_count a))] else [].

Lemma escalate_run (w : World E) :
  escalate w = (Ret tt, set_log (log w ++ alert_records (agent w)) w).
Proof.
  unfold escalate, alert_records, get_agent. py_unfold.
  destruct (_ <=? _)%Z; simpl; [reflexivity|].
  rewrite app_nil_r. destruct w; reflexivity.
Qed.

(** (C1) One cycle of the loop refines the abstract counter and the
    escalation rule: if both checks return, with results [p] and [h],
    the counter after the cycle is [Counter.cycle_count p h] of the
    counter before it, and the cycle adds exactly one alert record,
    carrying the new count, when that count has reached the
    threshold, and none otherwise.  If a check raises, the cycle ends
    there with KeyboardInterrupt or ZeroDivisionError and adds no
    alert. *)
Theorem loop_body_cycle (ci : Z) (w w' : World E) (r : pyres unit) :
  world_ok w ->
  loop_body ci w = (r, w') ->
  (exists p w1 h w2,
      check_bot_process w = (Ret p, w1)
      /\ check_account_health (snd (count_check p w1)) = (Ret h, w2)
      /\ error_count (agent w')
         = Counter.cycle_count p h (error_count (agent w))
      /\ alerts_of w' = alerts_of w ++ alert_records (agent w'))
  \/ (exists ex, r = Exc ex /\ (ex = KeyboardInterrupt \/ ex = ZeroDivisionError)
                 /\ alerts_of w' = alerts_of w).
Proof.
  intros Hok Hrun. unfold loop_body in Hrun.
  destruct (check_bot_process w) as [[p|ex] w1] eqn:E1.
  2:{ rewrite (pbind_exc _ _ _ _ _ E1) in Hrun. injection Hrun as <- <-.
      right. exists ex. split; [reflexivity|]. split.
      - left. exact (check_bot_process_raises (fun _ => True) w ex w1 I E1).
      - exact (keeps_run _ _ _ _ _ check_bot_process_keeps_alerts E1). }
  rewrite (pbind_run _ _ _ _ _ E1), (pbind_run _ _ _ _ _ (count_check_run p w1)) in Hrun.
  set (w1c := set_agent _ w1) in Hrun.
  assert (Ha1 : agent w1 = agent w)
    by exact (keeps_run _ _ _ _ _ check_bot_process_keeps_agent E1).
  assert (Hl1 : alerts_of w1 = alerts_of w)
    by exact (keeps_run _ _ _ _ _ check_bot_process_keeps_alerts E1).
  destruct (check_account_health w1c) as [[h|ex] w2] eqn:E2.
  2:{ rewrite (pbind_exc _ _ _ _ _ E2) in Hrun. injection Hrun as <- <-.
      right. exists ex. split; [reflexivity|]. split.
      - right. apply (check_account_health_raises w1c ex w2); [|exact E2].
        unfold w1c; simpl; rewrite Ha1; apply Hok.
      - rewrite (keeps_run _ _ _ _ _ check_account_health_keeps_alerts E2). exact Hl1. }
  rewrite (pbind_run _ _ _ _ _ E2), (pbind_run _ _ _ _ _ (count_check_run h w2)) in Hrun.
  rewrite (pbind_run _ _ _ _ _ (escalate_run _)) in Hrun.
  set (w3 := set_log _ _) in Hrun.
  assert (Ha' : agent w' = agent w3)
    by exact (keeps_run _ _ _ _ _ (env_frame_keeps_agent _ (time_sleep_frame ci)) Hrun).
  assert (Hl' : alerts_of w' = alerts_of w3)
    by exact (keeps_run _ _ _ _ _ (env_frame_keeps_alerts _ (time_sleep_frame ci)) Hrun).
  destruct (check_account_health_fields w1c w2 _ E2) as [Hc2 _].
  assert (Hl2 : alerts_of w2 = alerts_of w1c)
    by exact (keeps_run _ _ _ _ _ check_account_health_keeps_alerts E2).
  left. exists p, w1, h, w2. split; [reflexivity|]. split; [exact E2|].
  rewrite Ha', Hl'. unfold w3. simpl. rewrite Hc2. unfold w1c. simpl.
  rewrite Ha1. split; [reflexivity|].
  unfold alerts_of in *. simpl. rewrite alerts_app, Hl2. unfold w1c. simpl.
  rewrite Hl1. f_equal. unfold alert_records. simpl.
  destruct (_ <=? _)%Z; reflexivity.
Qed.

End Loop.

(** ** Witnesses, on the scripted adapter *)

Import Scripted.

(** Both checks fail: [tasklist] cannot run, the terminal stays down. *)
Definition down_world : World Script :=
  initial_world true (mkScript [false] [] [RunRaised OSError] []).

(** A zero balance is read, then the next poll divides by it. *)
Definition zero_script : Script :=
  mkScript [true; true]
           [Some (mkAccountInfo 1 0 1000 1000 100 900 1000);
            Some (mkAccountInfo 1 500 1000 500 100 900 1000)]
           [Completed python_row; Completed python_row] [].

Lemma loop_body_cycle_witness :
  world_ok down_world
  /\ loop_body 300 down_world = (Ret tt, snd (loop_body 300 down_world))
  /\ ((exists p w1 h w2,
          check_bot_process down_world = (Ret p, w1)
          /\ check_account_health (snd (count_check p w1)) = (Ret h, w2)
          /\ error_count (agent (snd (loop_body 300 down_world)))
             = Counter.cycle_count p h (error_count (agent down_world))
          /\ alerts_of (snd (loop_body 300 down_world))
             = alerts_of down_world ++ alert_records (agent (snd (loop_body 300 down_world))))
      \/ (exists ex, (Ret tt : pyres unit) = Exc ex
                     /\ (ex = KeyboardInterrupt \/ ex = ZeroDivisionError)
                     /\ alerts_of (snd (loop_body 300 down_world)) = alerts_of down_world)).
Proof.
  split; [apply initial_world_ok|]. split; [discharge|].
  apply (loop_body_cycle 300); [apply initial_world_ok | discharge].
Defined.

Lemma monitor_loop_exits_witness :
  monitor_loop 2 300 (initial_world true zero_script)
  = (Exc ZeroDivisionError, snd (monitor_loop 2 300 (initial_world true zero_script)))
  /\ ((exists w1, while_true 2 (loop_body 300)
                   (set_log ([] ++ [mkRecord INFO MsgAgentStarted]) (initial_world true zero_script))
                 = (Exc KeyboardInterrupt, w1)
                 /\ (Exc ZeroDivisionError : pyres LoopExit) = Ret Stopped
                 /\ snd (monitor_loop 2 300 (initial_world true zero_script))
                    = set_log (log w1 ++ [mkRecord INFO MsgAgentStopped]) w1)
      \/ (while_true 2 (loop_body 300)
             (set_log ([] ++ [mkRecord INFO MsgAgentStarted]) (initial_world true zero_script))
           = (Ret tt, snd (monitor_loop 2 300 (initial_world true zero_script)))
           /\ (Exc ZeroDivisionError : pyres LoopExit) = Ret StillRunning)
      \/ (exists ex, while_true 2 (loop_body 300)
                       (set_log ([] ++ [mkRecord INFO MsgAgentStarted]) (initial_world true zero_script))
                     = (Exc ex, snd (monitor_loop 2 300 (initial_world true zero_script)))
                     /\ ex <> KeyboardInterrupt /\ (Exc ZeroDivisionError : pyres LoopExit) = Exc ex)).
Proof. split; [discharge|]. apply (monitor_loop_exits 2 300). discharge. Defined.

Lemma monitor_loop_negative_interval_witness :
  (-1 < 0)%Z /\ world_ok down_world
  /\ monitor_loop 1 (-1) down_world = (Exc ValueError, snd (monitor_loop 1 (-1) down_world))
  /\ ((Exc ValueError : pyres LoopExit) = Ret Stopped \/ (Exc ValueError : pyres LoopExit) = Exc ValueError
      \/ (Exc ValueError : pyres LoopExit) = Exc ZeroDivisionError).
Proof.
  split; [lia|]. split; [apply initial_world_ok|]. split; [discharge|].
  apply (monitor_loop_negative_interval 0 (-1) down_world (snd (monitor_loop 1 (-1) down_world)));
    [lia | apply initial_world_ok | discharge].
Defined.

Lemma main_crashes_only_zerodiv_witness :
  fst (main 2 true zero_script) = Exc ZeroDivisionError
  /\ ZeroDivisionError = ZeroDivisionError.
Proof.
  split; [discharge|]. apply (main_crashes_only_zerodiv 2 true zero_script). discharge.
Defined.

