(* ===== verification/Phase.v ===== *)
(** * Phase: [monitor_loop] as a small-step machine

    monitoring_agent.py, lines 96-125, presented as the program points
    of [monitor_loop]: the start record (line 98), the process check
    (105) and its count (106-108), the account check (111) and its count
    (112-114), the escalation (117-118), the sleep (121), an exception
    travelling out of [while True] (to the [except] of line 123), and the
    two ends of the method: returned after the stop record (124), or
    crashed by an uncaught exception.  A state is a program point and
    the [World]; each step runs the statement at that point with the
    monadic definitions of Loop, Health and Process.

    The step is given twice: as the executable function [loop_step] and as
    the relation [sstep], one rule per program point, proved equal.
    [monitor_loop_simulation] checks that the machine runs exactly
    what [Loop.monitor_loop] computes, so that its invariant is one of
    the code; [reachable_ok] is the invariant of
    every reachable state (by rule induction), which covers runs of any
    length, including the infinite run of [while True] that the fuel
    of [monitor_loop] cuts. *)

From Stdlib Require Import ZArith QArith List String Bool Lia.
From S2P Require Import Prelude Logging Platform Agent Evaluator Health Process Counter Loop.
Import ListNotations.
Import Logging.

(** The program points of [monitor_loop]. *)
Inductive Phase : Type :=
  | Starting                    (* line 98 *)
  | CheckProcess                (* line 105, head of [while True] *)
  | CountProcess (ok : bool)    (* lines 105-108 *)
  | CheckAccount                (* line 111 *)
  | CountAccount (ok : bool)    (* lines 111-114 *)
  | Escalating                  (* lines 117-118 *)
  | Sleeping                    (* line 121 *)
  | Raised (e : PyExc)          (* an exception leaving the [try] body *)
  | Returned                    (* [except KeyboardInterrupt], line 124 done *)
  | Crashed (e : PyExc).        (* an exception no clause catches *)

Definition final (p : Phase) : bool :=
  match p with
  | Returned | Crashed _ => true
  | _ => false
  end.

Section Machine.
Context {E : Type} `{Platform E}.
Variable check_interval : Z.

Definition State : Type := (Phase * World E)%type.

(** Run the statement [m]: on return continue at [next a], on an
    exception go to [Raised e] with the state reached. *)
Definition after {A} (m : @M E A) (next : A -> Phase) (w : World E) : State :=
  match m w with
  | (Ret a, w') => (next a, w')
  | (Exc e, w') => (Raised e, w')
  end.

Definition loop_step (s : State) : option State :=
  let (p, w) := s in
  match p with
  | Starting => Some (after (log_msg INFO MsgAgentStarted) (fun _ => CheckProcess) w)
  | CheckProcess => Some (after check_bot_process CountProcess w)
  | CountProcess ok => Some (after (count_check ok) (fun _ => CheckAccount) w)
  | CheckAccount => Some (after check_account_health CountAccount w)
  | CountAccount ok => Some (after (count_check ok) (fun _ => Escalating) w)
  | Escalating => Some (after escalate (fun _ => Sleeping) w)
  | Sleeping => Some (after (time_sleep check_interval) (fun _ => CheckProcess) w)
  | Raised e =>
      if is_KeyboardInterrupt e
      then Some (after (log_msg INFO MsgAgentStopped) (fun _ => Returned) w)
      else Some (Crashed e, w)
  | Returned | Crashed _ => None
  end.

Inductive sstep : State -> State -> Prop :=
  | s_start w :
      sstep (Starting, w) (after (log_msg INFO MsgAgentStarted) (fun _ => CheckProcess) w)
  | s_check_process w :
      sstep (CheckProcess, w) (after check_bot_process CountProcess w)
  | s_count_process ok w :
      sstep (CountProcess ok, w) (after (count_check ok) (fun _ => CheckAccount) w)
  | s_check_account w :
      sstep (CheckAccount, w) (after check_account_health CountAccount w)
  | s_count_account ok w :
      sstep (CountAccount ok, w) (after (count_check ok) (fun _ => Escalating) w)
  | s_escalate w :
      sstep (Escalating, w) (after escalate (fun _ => Sleeping) w)
  | s_sleep w :
      sstep (Sleeping, w) (after (time_sleep check_interval) (fun _ => CheckProcess) w)
  | s_interrupted w :
      sstep (Raised KeyboardInterrupt, w)
            (after (log_msg INFO MsgAgentStopped) (fun _ => Returned) w)
  | s_uncaught e w :
      e <> KeyboardInterrupt -> sstep (Raised e, w) (Crashed e, w).

Inductive star : State -> State -> Prop :=
  | star_refl s : star s s
  | star_step s1 s2 s3 : sstep s1 s2 -> star s2 s3 -> star s1 s3.

(** [n] steps of the executable machine. *)
Fixpoint steps (n : nat) (s : State) : option State :=
  match n with
  | O => Some s
  | S n' => match loop_step s with
            | Some s' => steps n' s'
            | None => None
            end
  end.

(** Where a run of the [try] body leaves the machine. *)
Definition cycle_end (o : pyres unit * World E) : State :=
  match o with
  | (Ret _, w') => (CheckProcess, w')
  | (Exc e, w') => (Raised e, w')
  end.

(** Where [monitor_loop] leaves the machine. *)
Definition loop_end (o : pyres LoopExit * World E) : State :=
  match o with
  | (Ret StillRunning, w') => (CheckProcess, w')
  | (Ret Stopped, w') => (Returned, w')
  | (Exc e, w') => (Crashed e, w')
  end.

(** The invariant of reachable states: the agent's fields are
    well-formed; an exception in flight is KeyboardInterrupt or
    ZeroDivisionError; a crash is a ZeroDivisionError; a returned
    method has written the stop record last. *)
Definition phase_ok (s : State) : Prop :=
  world_ok (snd s)
  /\ match fst s with
     | Raised e => e = KeyboardInterrupt \/ e = ZeroDivisionError
     | Crashed e => e = ZeroDivisionError
     | Returned => exists l, log (snd s) = l ++ [mkRecord INFO MsgAgentStopped]
     | _ => True
     end.

(** ** The relation and the function *)

Lemma sstep_step (s s' : State) : sstep s s' <-> loop_step s = Some s'.
Proof.
  split.
  - intro Hs. destruct Hs; try reflexivity.
    simpl. destruct e; [reflexivity .. | congruence].
  - destruct s as [[] w]; simpl; try discriminate;
      [intros [= <-]; constructor .. |].
    destruct e; simpl; intros [= <-]; first [apply s_interrupted | apply s_uncaught; discriminate].
Qed.

Lemma sstep_deterministic (s s1 s2 : State) : sstep s s1 -> sstep s s2 -> s1 = s2.
Proof. rewrite !sstep_step. congruence. Qed.

(** Only the two ends of the method have no step. *)
Lemma step_progress (s : State) : loop_step s = None <-> final (fst s) = true.
Proof.
  destruct s as [[] w]; simpl; split; try discriminate; try reflexivity.
  destruct (is_KeyboardInterrupt e); discriminate.
Qed.

Lemma star_trans (s1 s2 s3 : State) : star s1 s2 -> star s2 s3 -> star s1 s3.
Proof. induction 1; eauto using star. Qed.

Lemma star_steps (n : nat) (s s' : State) : steps n s = Some s' -> star s s'.
Proof.
  revert s. induction n as [|n IH]; simpl; intros s Hs; [injection Hs as <-; constructor|].
  destruct (loop_step s) as [s1|] eqn:Hs1; [|discriminate].
  apply star_step with s1; [apply sstep_step, Hs1 | exact (IH s1 Hs)].
Qed.

Lemma steps_add (n m : nat) (s s1 : State) :
  steps n s = Some s1 -> steps (n + m) s = steps m s1.
Proof.
  revert s. induction n as [|n IH]; simpl; intros s Hs; [congruence|].
  destruct (loop_step s); [exact (IH _ Hs) | discriminate].
Qed.

(** ** Simulation of [Loop.monitor_loop] *)

Lemma after_run {A} (m : @M E A) (next : A -> Phase) (w : World E) :
  after m next w = match m w with (Ret a, w') => (next a, w') | (Exc e, w') => (Raised e, w') end.
Proof. reflexivity. Qed.

(** A statement followed by the rest of the cycle. *)
Lemma star_stmt {A} (m : @M E A) (k : A -> @M E unit) (p : Phase) (next : A -> Phase) (w : World E) :
  sstep (p, w) (after m next w) ->
  (forall a w', m w = (Ret a, w') -> star (next a, w') (cycle_end (k a w'))) ->
  star (p, w) (cycle_end (pbind m k w)).
Proof.
  intros Hs Hk. eapply star_step; [exact Hs|]. rewrite after_run. unfold pbind.
  destruct (m w) as [[a|e] w']; [apply Hk; reflexivity | apply star_refl].
Qed.

Lemma cycle_simulation (w : World E) :
  star (CheckProcess, w) (cycle_end (loop_body check_interval w)).
Proof.
  unfold loop_body.
  repeat (eapply star_stmt; [constructor | intros ?a ?w _]).
  eapply star_step; [constructor|]. rewrite after_run.
  destruct (time_sleep check_interval _) as [[[]|e] w']; apply star_refl.
Qed.

Lemma while_simulation (n : nat) (w : World E) :
  star (CheckProcess, w) (cycle_end (while_true n (loop_body check_interval) w)).
Proof.
  revert w. induction n as [|n IH]; intro w; simpl; [apply star_refl|].
  pose proof (cycle_simulation w) as Hc. unfold pbind.
  destruct (loop_body check_interval w) as [[[]|e] w1]; [|exact Hc].
  exact (star_trans _ _ _ Hc (IH w1)).
Qed.

(** Refinement: the small-step machine started at line 98
    reaches, through its rules, exactly the state in which
    [monitor_loop] leaves the program: the head of the next cycle when
    the [fuel] cycles completed, the returned method after a
    KeyboardInterrupt, and a crash with the same exception otherwise,
    each with the same world.  Since the machine is deterministic
    ([sstep_deterministic]), this is the only run it has. *)
Lemma monitor_loop_simulation (fuel : nat) (w : World E) :
  star (Starting, w) (loop_end (monitor_loop fuel check_interval w)).
Proof.
  rewrite monitor_loop_run. eapply star_step; [apply s_start|]. rewrite after_run.
  simpl. unfold loop_try_body, pbind.
  pose proof (while_simulation fuel (set_log (log w ++ [mkRecord INFO MsgAgentStarted]) w)) as Hw.
  destruct (while_true fuel _ _) as [[[]|e] w1]; simpl in *; [exact Hw|].
  apply (star_trans _ _ _ Hw). destruct e;
    (eapply star_step; [first [apply s_interrupted | apply s_uncaught; discriminate] | apply star_refl]).
Qed.

(** ** The invariant of reachable states *)

Lemma after_ok {A} (m : @M E A) (next : A -> Phase) (Pe : PyExc -> Prop) (w : World E) :
  preserves world_ok m -> raises_only world_ok Pe m -> world_ok w ->
  world_ok (snd (after m next w))
  /\ ((exists a, fst (after m next w) = next a)
      \/ (exists e, fst (after m next w) = Raised e /\ Pe e)).
Proof.
  intros Hp Hr Hw. rewrite after_run.
  destruct (m w) as [[a|e] w'] eqn:Hm; simpl.
  - split; [exact (Hp _ _ _ Hw Hm) | left; eauto].
  - split; [exact (Hp _ _ _ Hw Hm) | right; eauto].
Qed.

Lemma log_msg_ok (l : Level) (m : Msg) : preserves world_ok (@log_msg E l m).
Proof. apply (keeps_preserves agent _ agent_ok), log_msg_keeps_agent. Qed.

Lemma log_msg_raises (l : Level) (m : Msg) Pe : raises_only world_ok Pe (@log_msg E l m).
Proof. intros w e w' _ Hr. discriminate Hr. Qed.

Ltac phase_after lemma_ok lemma_raises :=
  match goal with
  | Hok : world_ok ?w |- phase_ok (after ?m ?next ?w) =>
      destruct (after_ok m next _ w lemma_ok lemma_raises Hok)
        as [Hw' [[a Ha] | [e [Ha HPe]]]];
      (split; [exact Hw' | rewrite Ha; simpl; tauto])
  end.

Lemma sstep_ok (s s' : State) : (0 <= check_interval)%Z -> phase_ok s -> sstep s s' -> phase_ok s'.
Proof.
  intros Hci [Hw Hp] Hs. destruct Hs; simpl in Hw, Hp.
  - phase_after (log_msg_ok INFO MsgAgentStarted) (log_msg_raises INFO MsgAgentStarted (fun _ => False)).
  - phase_after check_bot_process_ok (check_bot_process_raises world_ok).
  - phase_after (@count_check_ok E ok) (@count_check_raises E world_ok (fun _ => False) ok).
  - phase_after check_account_health_ok
      (raises_only_strengthen _ _ _ _ (fun w (Hw : world_ok w) => proj1 (proj2 Hw))
         check_account_health_raises).
  - phase_after (@count_check_ok E ok) (@count_check_raises E world_ok (fun _ => False) ok).
  - phase_after (keeps_preserves agent _ agent_ok (@escalate_keeps E))
      (@escalate_raises E world_ok (fun _ => False)).
  - phase_after (keeps_preserves agent _ agent_ok
                   (env_frame_keeps_agent _ (time_sleep_frame check_interval)))
      (time_sleep_valid_raises world_ok check_interval Hci).
  - rewrite after_run, log_msg_run. split; [exact Hw | simpl; eexists; reflexivity].
  - split; [exact Hw|]. simpl. destruct Hp; [contradiction | assumption].
Qed.

Lemma star_ok (s s' : State) : (0 <= check_interval)%Z -> star s s' -> phase_ok s -> phase_ok s'.
Proof. intros Hci Hs. induction Hs; eauto using sstep_ok. Qed.

(** (C3) Invariant of every reachable state, by rule induction: from a
    well-formed world and a valid interval, every state the machine
    reaches, after any number of steps and so at any point of the
    unbounded loop, has a non-negative counter, paired memory and the
    threshold 5; an exception travelling to the [except] clause is a
    KeyboardInterrupt or a ZeroDivisionError; the method crashes only
    with ZeroDivisionError; and when it returns, the stop record is the
    last record of the log. *)
Theorem reachable_ok (w0 : World E) (s : State) :
  (0 <= check_interval)%Z -> world_ok w0 -> star (Starting, w0) s -> phase_ok s.
Proof. intros Hci Hw Hs. apply (star_ok _ _ Hci Hs). split; [exact Hw | exact I]. Qed.

End Machine.

(** ** Witnesses, on the scripted adapter *)

Import Scripted.

Lemma reachable_ok_witness :
  exists s, steps 300 8 (Starting, down_world) = Some s /\ phase_ok s.
Proof.
  eexists. split; [reflexivity|].
  apply (reachable_ok 300 down_world); [lia | apply initial_world_ok |].
  apply (star_steps 300 8). reflexivity.
Defined.

