(* ===== verification/Scenarios.v ===== *)
(** * Scenarios: runs of [main] on a platform that answers steadily

    The spec's end-to-end scenarios (section 8) are runs of [main] on
    a platform that answers the same way at every cycle.
    [steady_env good p] says so of a class [good] of platform states:
    [tasklist] answers with the outcome [p] for the liveness check
    (its output contains python.exe or not, or it raised an
    [Exception]), [mt5.initialize()] fails, and no sleep is
    interrupted, each answer leaving the platform in [good].  For
    every such platform and every number of cycles, [steady_main] gives
    the outcome of [main], its counter and the alerts it logged; the
    two scenarios of the spec are its instances for [p = true] and
    [p = false].  [const_platform] is a platform that gives one
    [tasklist] answer forever, on which the witnesses run. *)

From Stdlib Require Import ZArith QArith List String Bool Lia.
From S2P Require Import Prelude Logging Platform Agent Evaluator Health Process Counter Loop.
Import ListNotations.
Import Logging.

(** What the liveness check of lines 83-94 makes of an answer of
    [subprocess.run]: its result, or [None] when the answer raises
    through the [except Exception] clause. *)
Definition tasklist_outcome (r : RunResult) : option bool :=
  match r with
  | Completed out => Some (py_str_in bot_image out)
  | RunRaised ex => if is_Exception ex then Some false else None
  end.

Definition alert_of (c : Z) : LogRecord := mkRecord CRITICAL (MsgConsecutiveErrors c).

Section Steady.
Context {E : Type} `{Platform E}.

(** The platform answers steadily on the states [good]. *)
Definition steady_env (good : E -> Prop) (p : bool) : Prop :=
  (forall e, good e -> exists r e', run_tasklist e = (r, e') /\ good e'
                                    /\ tasklist_outcome r = Some p)
  /\ (forall e, good e -> exists e', mt5_initialize e = (false, e') /\ good e')
  /\ (forall e, good e -> exists e', sleep_interrupted e = (false, e') /\ good e').

Variables (good : E -> Prop) (p : bool).
Hypothesis Hsteady : steady_env good p.

Definition steady (w : World E) : Prop :=
  good (env w) /\ mt5_loaded w = true /\ alert_threshold (agent w) = 5%Z.

Lemma steady_process (w : World E) :
  steady w -> exists w1, check_bot_process w = (Ret p, w1) /\ steady w1
                         /\ agent w1 = agent w /\ alerts_of w1 = alerts_of w.
Proof.
  intros [Hg [Hl Ht]]. destruct Hsteady as [Htl _].
  destruct (Htl _ Hg) as (r & e1 & Hr & Hg1 & Ho).
  destruct (check_bot_process w) as [res w1] eqn:Hc.
  pose proof Hc as Hc'. rewrite check_bot_process_run, Hr in Hc'.
  assert (Hw : res = Ret p /\ env w1 = e1 /\ mt5_loaded w1 = mt5_loaded w).
  { destruct r as [out|ex]; simpl in Ho.
    - injection Ho as <-. destruct (py_str_in bot_image out); injection Hc' as <- <-;
        repeat split.
    - destruct (is_Exception ex); [injection Ho as <- | discriminate].
      injection Hc' as <- <-. repeat split. }
  destruct Hw as (-> & He & Hl1).
  pose proof (keeps_run _ _ _ _ _ check_bot_process_keeps_agent Hc) as Ha.
  exists w1. split; [reflexivity|]. split; [|split; [exact Ha|]].
  - split; [rewrite He; exact Hg1 | split; [rewrite Hl1; exact Hl | rewrite Ha; exact Ht]].
  - exact (keeps_run _ _ _ _ _ check_bot_process_keeps_alerts Hc).
Qed.

Lemma steady_account (w : World E) :
  steady w -> exists w2, check_account_health w = (Ret false, w2) /\ steady w2
                         /\ agent w2 = agent w /\ alerts_of w2 = alerts_of w.
Proof.
  intros [Hg [Hl Ht]]. destruct Hsteady as [_ [Hi _]].
  destruct (Hi _ Hg) as (e1 & He & Hg1).
  rewrite (check_account_health_init_failed w e1 Hl He).
  eexists. split; [reflexivity|]. unfold steady, alerts_of. cbn [env mt5_loaded agent log].
  rewrite alerts_app, app_nil_r. repeat split; assumption.
Qed.

Lemma steady_sleep (w : World E) :
  steady w -> exists w', time_sleep 300 w = (Ret tt, w') /\ steady w'
                         /\ agent w' = agent w /\ log w' = log w.
Proof.
  intros [Hg [Hl Ht]]. destruct Hsteady as [_ [_ Hs]].
  destruct (Hs _ Hg) as (e1 & He & Hg1).
  unfold time_sleep. cbn [Z.ltb Z.compare]. rewrite He.
  eexists. split; [reflexivity|]. repeat split; assumption.
Qed.

Lemma alerts_alert_records (a : MonitoringAgent) : alerts (alert_records a) = alert_records a.
Proof. unfold alert_records. destruct (_ <=? _)%Z; reflexivity. Qed.

(** One cycle on a steady platform returns, counts the two results
    and logs the alert when the new count has reached 5. *)
Lemma steady_cycle (w : World E) :
  steady w ->
  exists w', loop_body 300 w = (Ret tt, w') /\ steady w'
             /\ error_count (agent w') = Counter.cycle_count p false (error_count (agent w))
             /\ alerts_of w' = alerts_of w ++ alert_records (agent w').
Proof.
  intro Hs. destruct (steady_process w Hs) as (w1 & E1 & Hs1 & Ha1 & Hl1).
  unfold loop_body. rewrite (pbind_run _ _ _ _ _ E1), (pbind_run _ _ _ _ _ (count_check_run p w1)).
  set (w1c := set_agent _ w1).
  assert (Hs1c : steady w1c) by (destruct Hs1 as (? & ? & ?); repeat split; assumption).
  destruct (steady_account w1c Hs1c) as (w2 & E2 & Hs2 & Ha2 & Hl2).
  rewrite (pbind_run _ _ _ _ _ E2), (pbind_run _ _ _ _ _ (count_check_run false w2)),
    (pbind_run _ _ _ _ _ (escalate_run _)).
  set (w3 := set_log _ _).
  assert (Hs3 : steady w3) by (destruct Hs2 as (? & ? & ?); repeat split; assumption).
  destruct (steady_sleep w3 Hs3) as (w' & E4 & Hs' & Ha' & Hl').
  exists w'. split; [exact E4|]. split; [exact Hs'|].
  assert (Hc : error_count (agent w') = Counter.cycle_count p false (error_count (agent w))).
  { rewrite Ha'. unfold w3. cbn [agent set_log set_agent with_error_count error_count].
    rewrite Ha2. unfold w1c. cbn [agent set_agent with_error_count error_count].
    rewrite Ha1. reflexivity. }
  split; [exact Hc|].
  unfold alerts_of in *. rewrite Hl'. unfold w3. cbn [log set_log set_agent].
  rewrite alerts_app, Hl2, alerts_alert_records. unfold w1c. cbn [log set_agent].
  rewrite Hl1, Ha'. reflexivity.
Qed.

(** [k] cycles on a steady platform: the counter follows
    [Counter.run_counts] and the alerts are those of the counts of
    [Counter.count_trace] that reached 5. *)
Lemma steady_loop (k : nat) (w : World E) :
  steady w ->
  exists w', while_true k (loop_body 300) w = (Ret tt, w') /\ steady w'
             /\ error_count (agent w') = Counter.run_counts (repeat (p, false) k) (error_count (agent w))
             /\ alerts_of w' = alerts_of w
                ++ map alert_of (filter (fun c => (5 <=? c)%Z)
                                        (Counter.count_trace (repeat (p, false) k)
                                                             (error_count (agent w)))).
Proof.
  revert w. induction k as [|k IH]; intros w Hs; cbn [while_true].
  - exists w. split; [reflexivity|]. split; [exact Hs|].
    split; [reflexivity | symmetry; apply app_nil_r].
  - destruct (steady_cycle w Hs) as (w1 & E1 & Hs1 & Hc1 & Hl1).
    rewrite (pbind_run _ _ _ _ _ E1).
    destruct (IH w1 Hs1) as (w' & E' & Hs' & Hc' & Hl').
    exists w'. split; [exact E'|]. split; [exact Hs'|].
    cbn [repeat Counter.run_counts Counter.count_trace]. rewrite <- Hc1.
    split; [exact Hc'|]. rewrite Hl', Hl1, <- app_assoc. f_equal.
    unfold alert_records. destruct Hs1 as (_ & _ & ->). cbn [filter].
    destruct (5 <=? error_count (agent w1))%Z; reflexivity.
Qed.

(** [main] run for [k] cycles on a steady platform. *)
Lemma steady_main (k : nat) (e : E) :
  good e ->
  fst (main k true e) = Ret StillRunning
  /\ error_count (agent (snd (main k true e))) = Counter.run_counts (repeat (p, false) k) 0
  /\ alerts (log (snd (main k true e)))
     = map alert_of (filter (fun c => (5 <=? c)%Z) (Counter.count_trace (repeat (p, false) k) 0)).
Proof.
  intro Hg. unfold main. rewrite monitor_loop_run. unfold loop_try_body.
  set (w0 := set_log _ _).
  assert (Hs0 : steady w0) by (repeat split; assumption).
  destruct (steady_loop k w0 Hs0) as (w' & E' & Hs' & Hc & Hl).
  rewrite (pbind_run _ _ _ _ _ E'). cbn [pret fst snd]. split; [reflexivity|].
  split; [exact Hc|]. unfold alerts_of in Hl. rewrite Hl. reflexivity.
Qed.

End Steady.


(** ** The counts of the two scenarios *)

Lemma trace_account_down (k : nat) (c : Z) :
  (0 <= c <= 1)%Z -> Counter.count_trace (repeat (true, false) k) c = repeat 1%Z k.
Proof.
  revert c. induction k as [|k IH]; intros c Hc; [reflexivity|]. cbn [repeat Counter.count_trace].
  assert (H1 : Counter.cycle_count true false c = 1%Z)
    by (unfold Counter.cycle_count, Counter.update_error_count; lia).
  rewrite H1, IH by lia. reflexivity.
Qed.

Lemma run_counts_account_down (k : nat) (c : Z) :
  (0 <= c <= 1)%Z ->
  Counter.run_counts (repeat (true, false) k) c = match k with O => c | S _ => 1%Z end.
Proof.
  revert c. induction k as [|k IH]; intros c Hc; [reflexivity|]. cbn [repeat Counter.run_counts].
  assert (H1 : Counter.cycle_count true false c = 1%Z)
    by (unfold Counter.cycle_count, Counter.update_error_count; lia).
  rewrite H1, IH by lia. destruct k; reflexivity.
Qed.

Lemma trace_all_down (k s : nat) :
  Counter.count_trace (repeat (false, false) k) (2 * Z.of_nat s)
  = map (fun j => 2 * Z.of_nat j)%Z (seq (S s) k).
Proof.
  revert s. induction k as [|k IH]; intro s; [reflexivity|]. cbn [repeat Counter.count_trace seq map].
  assert (H2 : (Counter.cycle_count false false (2 * Z.of_nat s) = 2 * Z.of_nat (S s))%Z)
    by (unfold Counter.cycle_count, Counter.update_error_count; lia).
  rewrite H2, IH. reflexivity.
Qed.

Lemma run_counts_all_down (k : nat) (c : Z) :
  Counter.run_counts (repeat (false, false) k) c = (c + 2 * Z.of_nat k)%Z.
Proof.
  revert c. induction k as [|k IH]; intro c; cbn [repeat Counter.run_counts]; [lia|].
  rewrite IH. unfold Counter.cycle_count, Counter.update_error_count. lia.
Qed.

Lemma filter_all {A} (f : A -> bool) (l : list A) :
  (forall x, In x l -> f x = true) -> filter f l = l.
Proof.
  induction l as [|a l IH]; intro Hl; simpl; [reflexivity|].
  rewrite (Hl a (or_introl eq_refl)), IH; [reflexivity|]. intros x Hx. apply Hl. right. exact Hx.
Qed.

(** The counts 2, 4, 6, ...: the first two stay below 5. *)
Lemma alerts_all_down (k : nat) :
  filter (fun c => (5 <=? c)%Z) (map (fun j => 2 * Z.of_nat j)%Z (seq 1 k))
  = map (fun j => 2 * Z.of_nat j)%Z (seq 3 (k - 2)).
Proof.
  destruct k as [|[|k]]; [reflexivity | reflexivity|].
  replace (S (S k) - 2)%nat with k by lia.
  change (seq 1 (S (S k))) with (1 :: 2 :: seq 3 k)%nat. cbn [map filter].
  change (5 <=? 2 * Z.of_nat 1)%Z with false. change (5 <=? 2 * Z.of_nat 2)%Z with false.
  cbn iota. apply filter_all. intros x Hx. apply in_map_iff in Hx as (j & <- & Hj).
  apply in_seq in Hj. apply Z.leb_le. lia.
Qed.

(** ** The spec's scenarios on every steady platform *)

(** (C5) The spec's scenario "account capture fails every time,
    liveness succeeds every time": on every platform whose [tasklist]
    output always shows a [python.exe] and whose terminal never comes
    up, the counter is 1 after every cycle (each passed process check
    cancels the previous failure, lines 105-114), so the
    sustained-failure alert is never logged, however long the agent
    runs; the spec states 1, 2, 3, ... and an alert. *)
Theorem account_down_never_alerts {E : Type} `{Platform E} (good : E -> Prop) (e : E) (k : nat) :
  steady_env good true -> good e ->
  fst (main k true e) = Ret StillRunning
  /\ error_count (agent (snd (main k true e))) = match k with O => 0%Z | S _ => 1%Z end
  /\ alerts (log (snd (main k true e))) = [].
Proof.
  intros Hs Hg. destruct (steady_main good true Hs k e Hg) as (Hr & Hc & Ha).
  rewrite Hc, Ha, run_counts_account_down, trace_account_down by lia.
  split; [exact Hr | split; [reflexivity|]].
  clear. induction k as [|k IH]; [reflexivity | exact IH].
Qed.

(** (C7) Escalation when both checks fail: on every platform where
    [tasklist] never shows a [python.exe] (or cannot run) and the
    terminal never comes up, the counter after [k] cycles is [2k], the
    first alert is logged in the third cycle with the count 6 (the
    threshold 5 is crossed, never hit), and every later cycle logs one
    more, with the counts 8, 10, ... *)
Theorem all_down_escalates {E : Type} `{Platform E} (good : E -> Prop) (e : E) (k : nat) :
  steady_env good false -> good e ->
  fst (main k true e) = Ret StillRunning
  /\ error_count (agent (snd (main k true e))) = (2 * Z.of_nat k)%Z
  /\ alerts (log (snd (main k true e)))
     = map (fun j => alert_of (2 * Z.of_nat j)) (seq 3 (k - 2)).
Proof.
  intros Hs Hg. destruct (steady_main good false Hs k e Hg) as (Hr & Hc & Ha).
  split; [exact Hr|]. rewrite Hc, run_counts_all_down. split; [reflexivity|].
  rewrite Ha. rewrite <- (Z.mul_0_r 2), <- (Nat2Z.inj_0).
  rewrite trace_all_down, alerts_all_down, map_map. reflexivity.
Qed.

(** ** A platform that answers the same forever *)

(** The state is the one [tasklist] answer it keeps giving; the
    terminal never comes up and no sleep is interrupted. *)
#[local] Instance const_platform : Platform RunResult := {
  mt5_initialize r := (false, r);
  mt5_account_info r := (None, r);
  run_tasklist r := (r, r);
  sleep_interrupted r := (false, r)
}.

Definition tasklist_one_python : string :=
  ("Image Name                     PID Session Name        Session#    Mem Usage" ++
   " python.exe                    4242 Console                    1     25,000 K")%string.

Lemma const_steady (r : RunResult) (p : bool) :
  tasklist_outcome r = Some p -> steady_env (fun r' => r' = r) p.
Proof.
  intro Ho. split; [|split]; intros e ->; [exists r, r | exists r | exists r];
    repeat split; exact Ho.
Qed.

Lemma account_down_never_alerts_witness :
  steady_env (fun r => r = Completed tasklist_one_python) true
  /\ Completed tasklist_one_python = Completed tasklist_one_python
  /\ fst (main 4 true (Completed tasklist_one_python)) = Ret StillRunning
  /\ error_count (agent (snd (main 4 true (Completed tasklist_one_python)))) = 1%Z
  /\ alerts (log (snd (main 4 true (Completed tasklist_one_python)))) = [].
Proof.
  assert (Hs : steady_env (fun r => r = Completed tasklist_one_python) true)
    by (apply const_steady; vm_compute; reflexivity).
  split; [exact Hs | split; [reflexivity|]].
  apply (account_down_never_alerts _ (Completed tasklist_one_python) 4 Hs). reflexivity.
Defined.

Lemma all_down_escalates_witness :
  steady_env (fun r => r = RunRaised OSError) false
  /\ RunRaised OSError = RunRaised OSError
  /\ fst (main 4 true (RunRaised OSError)) = Ret StillRunning
  /\ error_count (agent (snd (main 4 true (RunRaised OSError)))) = 8%Z
  /\ alerts (log (snd (main 4 true (RunRaised OSError))))
     = [alert_of 6; alert_of 8].
Proof.
  assert (Hs : steady_env (fun r => r = RunRaised OSError) false)
    by (apply const_steady; reflexivity).
  split; [exact Hs | split; [reflexivity|]].
  apply (all_down_escalates _ (RunRaised OSError) 4 Hs). reflexivity.
Defined.
