(* ===== verification/FillingMode.v ===== *)
(** * FillingMode: the filling-mode choice of test_filling_mode.py

    For each symbol of a fixed list (line 14) the script reads the
    symbol's [filling_mode] bitmask from the terminal and chooses the
    order filling policy to use (lines 22-41): FOK when bit 0 is set,
    else IOC when bit 1 is set, else RETURN when bit 2 is set, else FOK
    by default.  Python's [fm & k] on ints is [Z.land] (it has the same
    two's-complement meaning on negative ints).  [Spec.choose] states
    the intended choice, "the first advertised mode in the order FOK,
    IOC, RETURN", with [Z.testbit], and [choose_filling_spec] proves the
    code equal to it.  The printed text and the order test of lines
    45-80 are rendered in Probe. *)

From Stdlib Require Import ZArith List Ascii String Bool Lia.
From S2P Require Import Prelude.
Import ListNotations.
Local Open Scope Z_scope.

Module FillingMode.

(** The MT5 filling policies the script uses, with the values its
    comment at line 65 gives ([ORDER_FILLING_FOK] is 0). *)
Inductive OrderFilling : Type :=
  | ORDER_FILLING_FOK
  | ORDER_FILLING_IOC
  | ORDER_FILLING_RETURN.

Definition type_filling (m : OrderFilling) : Z :=
  match m with
  | ORDER_FILLING_FOK => 0
  | ORDER_FILLING_IOC => 1
  | ORDER_FILLING_RETURN => 2
  end.

(** Line 14. *)
Definition symbols : list string :=
  ["EURUSD"; "GBPUSD"; "USDJPY"; "EURJPY"; "GBPJPY"; "AUDUSD"]%string.

(** [bin(n)] (line 24): the binary digits of a positive number, most
    significant first, without leading zeros. *)
Fixpoint pos_bin (p : positive) : string :=
  match p with
  | xH => "1"
  | xO p' => pos_bin p' ++ "0"
  | xI p' => pos_bin p' ++ "1"
  end.

Definition py_bin (z : Z) : string :=
  match z with
  | Z0 => "0b0"
  | Zpos p => "0b" ++ pos_bin p
  | Zneg p => "-0b" ++ pos_bin p
  end.

(** Python's truth value of [fm & k]. *)
Definition py_bit (fm k : Z) : bool := negb (Z.land fm k =? 0).

(** Lines 30-41: the policy and the name printed for it. *)
Definition choose_filling (fm : Z) : OrderFilling * string :=
  if py_bit fm 1 then (ORDER_FILLING_FOK, "FOK"%string)
  else if py_bit fm 2 then (ORDER_FILLING_IOC, "IOC"%string)
  else if py_bit fm 4 then (ORDER_FILLING_RETURN, "RETURN"%string)
  else (ORDER_FILLING_FOK, "FOK (default)"%string).

(** What the loop of lines 16-43 reports for one symbol. *)
Inductive ReportLine : Type :=
  | NotAvailable (symbol : string)
  | Mode (symbol : string) (fm : Z) (binary : string) (fok ioc ret : bool)
         (mode : OrderFilling) (name : string).

(** Lines 16-43: [symbol_info] answers [None] or the symbol's
    [filling_mode]. *)
Definition filling_report (symbol_info : string -> option Z) : list ReportLine :=
  map (fun symbol =>
         match symbol_info symbol with
         | None => NotAvailable symbol
         | Some fm =>
             let (mode, name) := choose_filling fm in
             Mode symbol fm (py_bin fm) (py_bit fm 1) (py_bit fm 2) (py_bit fm 4) mode name
         end)
      symbols.

(** The flag of [filling_mode] that advertises each policy. *)
Definition flag_bit (m : OrderFilling) : Z :=
  match m with
  | ORDER_FILLING_FOK => 0
  | ORDER_FILLING_IOC => 1
  | ORDER_FILLING_RETURN => 2
  end.

Module Spec.
(** The first advertised policy in the order FOK, IOC, RETURN; FOK when
    none is advertised. *)
Definition choose (fm : Z) : OrderFilling :=
  match find (fun m => Z.testbit fm (flag_bit m))
             [ORDER_FILLING_FOK; ORDER_FILLING_IOC; ORDER_FILLING_RETURN] with
  | Some m => m
  | None => ORDER_FILLING_FOK
  end.
End Spec.

(** ** Bits *)

(** [fm & 2^k] is non-zero exactly when bit [k] of [fm] is set. *)
Lemma py_bit_testbit (fm k : Z) : 0 <= k -> py_bit fm (2 ^ k) = Z.testbit fm k.
Proof.
  intro Hk. unfold py_bit.
  destruct (Z.testbit fm k) eqn:Hb.
  - destruct (Z.eqb_spec (Z.land fm (2 ^ k)) 0) as [H0|H0]; [|reflexivity].
    exfalso. assert (Ht : Z.testbit (Z.land fm (2 ^ k)) k = true)
      by (rewrite Z.land_spec, Z.pow2_bits_true by exact Hk; rewrite Hb; reflexivity).
    rewrite H0, Z.testbit_0_l in Ht. discriminate.
  - assert (H0 : Z.land fm (2 ^ k) = 0).
    { apply Z.bits_inj_0. intro n. rewrite Z.land_spec.
      destruct (Z.eq_dec n k) as [->|Hne]; [rewrite Hb; reflexivity|].
      destruct (Z.ltb_spec n 0) as [Hn|Hn].
      - rewrite Z.testbit_neg_r by exact Hn. reflexivity.
      - rewrite Z.pow2_bits_false by (exact Hk || lia). apply andb_false_r. }
    rewrite H0. reflexivity.
Qed.

Lemma py_bit_1 (fm : Z) : py_bit fm 1 = Z.testbit fm 0.
Proof. exact (py_bit_testbit fm 0 ltac:(lia)). Qed.
Lemma py_bit_2 (fm : Z) : py_bit fm 2 = Z.testbit fm 1.
Proof. exact (py_bit_testbit fm 1 ltac:(lia)). Qed.
Lemma py_bit_4 (fm : Z) : py_bit fm 4 = Z.testbit fm 2.
Proof. exact (py_bit_testbit fm 2 ltac:(lia)). Qed.

(** The three flags read by the script are the bits of [fm & 7]. *)
Lemma testbit_low3 (fm k : Z) :
  0 <= k <= 2 -> Z.testbit (Z.land fm 7) k = Z.testbit fm k.
Proof.
  intro Hk. rewrite Z.land_spec.
  assert (H7 : Z.testbit 7 k = true)
    by (destruct (Z.eq_dec k 0) as [->|]; [reflexivity|];
        destruct (Z.eq_dec k 1) as [->|]; [reflexivity|];
        assert (k = 2) as -> by lia; reflexivity).
  rewrite H7. apply andb_true_r.
Qed.

Lemma land7_range (fm : Z) : 0 <= Z.land fm 7 < 8.
Proof.
  change 7 with (Z.ones 3). rewrite Z.land_ones by lia.
  apply Z.mod_pos_bound. lia.
Qed.

(** (C25) Equivalence with the intended choice: the policy the script
    picks is the first advertised one in the order FOK, IOC, RETURN,
    and FOK when none of the three flags is set. *)
Theorem choose_filling_spec (fm : Z) : fst (choose_filling fm) = Spec.choose fm.
Proof.
  unfold choose_filling, Spec.choose. rewrite py_bit_1, py_bit_2, py_bit_4.
  cbn [find flag_bit].
  destruct (Z.testbit fm 0), (Z.testbit fm 1), (Z.testbit fm 2); reflexivity.
Qed.

(** Only the three low bits of [filling_mode] matter: the choice
    (policy and printed name) for [fm] is the choice for [fm & 7]. *)
Theorem choose_filling_low_bits (fm : Z) : choose_filling fm = choose_filling (Z.land fm 7).
Proof.
  unfold choose_filling.
  rewrite !py_bit_1, !py_bit_2, !py_bit_4, !testbit_low3 by lia. reflexivity.
Qed.

(** (C31) The chosen policy is advertised by the symbol exactly when one of
    the three flags is set; when none is, the script still picks FOK,
    printed as "FOK (default)", a policy the symbol does not advertise. *)
Theorem choose_filling_advertised (fm : Z) :
  (Z.land fm 7 <> 0 -> Z.testbit fm (flag_bit (fst (choose_filling fm))) = true)
  /\ (Z.land fm 7 = 0 ->
      choose_filling fm = (ORDER_FILLING_FOK, "FOK (default)"%string)
      /\ Z.testbit fm (flag_bit ORDER_FILLING_FOK) = false).
Proof.
  rewrite choose_filling_low_bits.
  rewrite <- (testbit_low3 fm (flag_bit (fst (choose_filling (Z.land fm 7))))),
          <- (testbit_low3 fm (flag_bit ORDER_FILLING_FOK))
    by (try destruct (fst _); simpl; lia).
  pose proof (land7_range fm) as Hr. generalize dependent (Z.land fm 7). intros r Hr.
  assert (r = 0 \/ r = 1 \/ r = 2 \/ r = 3 \/ r = 4 \/ r = 5 \/ r = 6 \/ r = 7) by lia.
  repeat match goal with H : _ \/ _ |- _ => destruct H end; subst r;
    split; intro H; (discriminate || congruence || (vm_compute; auto)).
Qed.

(** The report has one line per symbol of line 14, in order: "NOT
    AVAILABLE" exactly for the symbols the terminal does not know, and
    otherwise the mask, its three flags and the chosen policy. *)
Theorem filling_report_spec (symbol_info : string -> option Z) :
  List.length (filling_report symbol_info) = List.length symbols
  /\ forall i s, nth_error symbols i = Some s ->
       nth_error (filling_report symbol_info) i
       = Some (match symbol_info s with
               | None => NotAvailable s
               | Some fm => Mode s fm (py_bin fm) (Z.testbit fm 0) (Z.testbit fm 1) (Z.testbit fm 2)
                                 (fst (choose_filling fm)) (snd (choose_filling fm))
               end).
Proof.
  unfold filling_report. split; [apply length_map|].
  intros i s Hi. rewrite nth_error_map, Hi. simpl. f_equal.
  destruct (symbol_info s) as [fm|]; [|reflexivity].
  rewrite py_bit_1, py_bit_2, py_bit_4. destruct (choose_filling fm); reflexivity.
Qed.

End FillingMode.
