(* ===== verification/TradeStats.v ===== *)
(** * TradeStats: the trade-history statistics of get_account_status.py

    After printing the account and the open positions, the report reads
    the deals of the day (lines 54-84) and of the last seven days
    (lines 88-126) from [mt5.history_deals_get] and folds over them:
    the deals with [entry == 1] (MT5's exit deals, DEAL_ENTRY_OUT) count
    as trades; their profits are summed, positive ones are wins and
    negative ones losses; the seven-day pass also groups the profits by
    symbol in a dictionary and prints the symbols sorted by profit,
    highest first.

    The deals are records with the fields the script reads; the
    dictionary [by_symbol] is an association list in insertion order
    (a Python dict preserves insertion order, and [sorted] is stable, so
    the order of ties in the output depends on it); [sorted(...,
    reverse=True)] is a stable insertion sort on the key, descending.
    Profits are rationals ([Q]); sums are compared with [==]. *)

From Stdlib Require Import ZArith QArith String List Bool Lia Lqa Permutation Sorted.
From S2P Require Import Prelude.
Import ListNotations.

Module TradeStats.

(** The fields of a deal the script reads (lines 66-76, 101-113). *)
Record Deal : Type := mkDeal {
  ticket : Z;
  symbol : string;
  deal_type : Z;
  volume : Q;
  price : Q;
  profit : Q;
  entry : Z
}.

(** [deal.entry == 1] (lines 66 and 102). *)
Definition is_exit (d : Deal) : bool := (entry d =? 1)%Z.

(** [profit > 0] and [profit < 0] (lines 69-72, 105-108). *)
Definition is_win (d : Deal) : bool := py_lt 0 (profit d).
Definition is_loss (d : Deal) : bool := py_lt (profit d) 0.

(** The running totals of both loops: [total_profit], [wins],
    [losses]. *)
Record Totals : Type := mkTotals {
  total_profit : Q;
  wins : nat;
  losses : nat
}.

Definition zero_totals : Totals := mkTotals 0 0 0.

(** One iteration of the loop at lines 65-72 (and 101-108) on an exit
    deal: add the profit, then count a win or a loss. *)
Definition add_deal (t : Totals) (d : Deal) : Totals :=
  let p := profit d in
  mkTotals (total_profit t + p)
           (if is_win d then S (wins t) else wins t)
           (if is_win d then losses t else if is_loss d then S (losses t) else losses t).

(** Lines 62-72: the fold over the deals, skipping the non-exit ones. *)
Definition fold_totals (deals : list Deal) : Totals :=
  fold_left (fun t d => if is_exit d then add_deal t d else t) deals zero_totals.

(** A symbol's entry of [by_symbol]: [{'profit': ..., 'count': ...}]. *)
Record SymStats : Type := mkSym {
  sym_profit : Q;
  sym_count : nat
}.

Definition Dict := list (string * SymStats).

(** [symbol in by_symbol]. *)
Definition dict_contains (k : string) (d : Dict) : bool :=
  existsb (fun kv => String.eqb (fst kv) k) d.

(** [by_symbol[k]['profit'] += p; by_symbol[k]['count'] += 1]. *)
Fixpoint dict_bump (k : string) (p : Q) (d : Dict) : Dict :=
  match d with
  | [] => []
  | (k', st) :: rest =>
      if String.eqb k' k then (k', mkSym (sym_profit st + p) (S (sym_count st))) :: rest
      else (k', st) :: dict_bump k p rest
  end.

(** Lines 110-113: create the entry with zeros when absent (it goes
    last, as in a Python dict), then update it. *)
Definition record_symbol (d : Dict) (k : string) (p : Q) : Dict :=
  let d' := if dict_contains k d then d else d ++ [(k, mkSym 0 0)] in
  dict_bump k p d'.

(** Lines 97-113: the seven-day fold, totals and dictionary together. *)
Definition fold_week (deals : list Deal) : Totals * Dict :=
  fold_left (fun acc d =>
               if is_exit d
               then (add_deal (fst acc) d, record_symbol (snd acc) (symbol d) (profit d))
               else acc)
            deals (zero_totals, []).

(** [sorted(by_symbol.items(), key=lambda x: x[1]['profit'],
    reverse=True)] (line 123): stable, highest profit first.  An item
    goes after every item already placed whose profit is at least its
    own, so ties keep their order in the dictionary. *)
Fixpoint insert_desc (x : string * SymStats) (l : Dict) : Dict :=
  match l with
  | [] => [x]
  | y :: rest =>
      if Qle_bool (sym_profit (snd x)) (sym_profit (snd y))
      then y :: insert_desc x rest
      else x :: y :: rest
  end.

Definition sort_by_profit_desc (d : Dict) : Dict :=
  fold_left (fun acc x => insert_desc x acc) d [].

(** What the seven-day section prints (lines 115-124). *)
Record WeekReport : Type := mkWeekReport {
  total_trades : nat;
  week_wins : nat;
  week_losses : nat;
  win_rate : option Q;          (* printed only when there are trades *)
  total_pnl : Q;
  avg_per_trade : Q;
  by_symbol_sorted : Dict
}.

(** [wins / (wins + losses) * 100] (lines 81-82, 117-118). *)
Definition win_rate_of (t : Totals) : option Q :=
  match (wins t + losses t)%nat with
  | O => None
  | n => Some (inject_Z (Z.of_nat (wins t)) / inject_Z (Z.of_nat n) * 100)
  end.

(** Lines 95-126; [None] is the "No trade history available" branch
    ([if history_deals:] is false for [None] and for no deals). *)
Definition week_report (history_deals : option (list Deal)) : option WeekReport :=
  match history_deals with
  | None | Some [] => None
  | Some deals =>
      let (t, by_symbol) := fold_week deals in
      let n := (wins t + losses t)%nat in
      Some (mkWeekReport n (wins t) (losses t) (win_rate_of t) (total_profit t)
                         (if (0 <? n)%nat
                          then total_profit t / inject_Z (Z.of_nat n) else 0)
                         (sort_by_profit_desc by_symbol))
  end.

(** The line printed for an exit deal (lines 73-76). *)
Inductive Side : Type := BUY | SELL.

Definition side_of (d : Deal) : Side := if (deal_type d =? 0)%Z then BUY else SELL.

Record DealLine : Type := mkDealLine {
  line_ticket : Z;
  line_symbol : string;
  line_side : Side;
  line_volume : Q;
  line_price : Q;
  line_profit : Q
}.

Definition deal_line (d : Deal) : DealLine :=
  mkDealLine (ticket d) (symbol d) (side_of d) (volume d) (price d) (profit d).

(** Lines 61-84: the day's section prints a line per exit deal, the
    total, the wins and losses and, when there are trades, the win
    rate; [None] is "No trades today". *)
Definition today_report (deals : option (list Deal))
  : option (list DealLine * Totals * option Q) :=
  match deals with
  | None | Some [] => None
  | Some ds =>
      let t := fold_totals ds in
      Some (map deal_line (filter is_exit ds), t, win_rate_of t)
  end.

(** ** Reference definitions *)

Definition sumQ (l : list Q) : Q := fold_right Qplus 0 l.

Definition exits (ds : list Deal) : list Deal := filter is_exit ds.

(** [by_symbol.get(k)]: the first entry with key [k]. *)
Definition dict_get (k : string) (d : Dict) : option SymStats :=
  option_map snd (find (fun kv => String.eqb (fst kv) k) d).

(** The exit deals of symbol [k]. *)
Definition exits_of (k : string) (ds : list Deal) : list Deal :=
  filter (fun x => String.eqb (symbol x) k) (exits ds).

(** An entry of [by_symbol] describes the deals [l]: absent when there
    are none, else their summed profit and their number. *)
Definition sym_describes (o : option SymStats) (l : list Deal) : Prop :=
  match o with
  | None => l = []
  | Some st => l <> [] /\ sym_profit st == sumQ (map profit l) /\ sym_count st = length l
  end.

(** The order [sorted(..., reverse=True)] produces: profits
    non-increasing. *)
Definition profit_desc (x y : string * SymStats) : Prop :=
  sym_profit (snd y) <= sym_profit (snd x).

(** The entries whose profit equals [v]: the ties a stable sort keeps
    in order. *)
Definition ties (v : Q) (d : Dict) : Dict :=
  filter (fun kv => Qeq_bool (sym_profit (snd kv)) v) d.

Definition dict_profit (d : Dict) : Q := sumQ (map (fun kv => sym_profit (snd kv)) d).

Definition dict_count (d : Dict) : nat := list_sum (map (fun kv => sym_count (snd kv)) d).


(** ** The totals *)

Lemma fold_totals_gen (ds : list Deal) (t : Totals) :
  let t' := fold_left (fun t d => if is_exit d then add_deal t d else t) ds t in
  total_profit t' == total_profit t + sumQ (map profit (exits ds))
  /\ wins t' = (wins t + length (filter is_win (exits ds)))%nat
  /\ losses t' = (losses t + length (filter (fun d => negb (is_win d) && is_loss d) (exits ds)))%nat.
Proof.
  revert t. induction ds as [|d ds IH]; intro t; simpl.
  - repeat split; [lra | lia | lia].
  - unfold exits. simpl. destruct (is_exit d); simpl.
    + destruct (IH (add_deal t d)) as [Hp [Hw Hl]]. unfold exits in *.
      repeat split.
      * rewrite Hp. simpl. lra.
      * rewrite Hw. simpl. destruct (is_win d); simpl; lia.
      * rewrite Hl. simpl. destruct (is_win d), (is_loss d); simpl; lia.
    + exact (IH t).
Qed.

(** A deal is not both a win and a loss. *)
Lemma win_not_loss (d : Deal) : is_win d = true -> is_loss d = false.
Proof.
  unfold is_win, is_loss. intro Hw. apply py_lt_spec in Hw. apply py_lt_false. lra.
Qed.

Lemma filter_loss_eq (ds : list Deal) :
  filter (fun d => negb (is_win d) && is_loss d) ds = filter is_loss ds.
Proof.
  induction ds as [|d ds IH]; simpl; [reflexivity|].
  destruct (is_win d) eqn:Hw; simpl.
  - rewrite (win_not_loss d Hw). exact IH.
  - destruct (is_loss d); rewrite IH; reflexivity.
Qed.

(** (C28) Equivalence with the reference sums: the loop's total profit is
    the sum of the exit deals' profits, its wins the number of exit
    deals with a positive profit, its losses the number with a negative
    one. *)
Theorem fold_totals_spec (ds : list Deal) :
  total_profit (fold_totals ds) == sumQ (map profit (exits ds))
  /\ wins (fold_totals ds) = length (filter is_win (exits ds))
  /\ losses (fold_totals ds) = length (filter is_loss (exits ds)).
Proof.
  destruct (fold_totals_gen ds zero_totals) as [Hp [Hw Hl]].
  unfold fold_totals. rewrite Hp, Hw, Hl, filter_loss_eq. simpl. split; [lra | split; reflexivity].
Qed.

(** A deal is exactly one of a win, a loss, or break-even. *)
Lemma deal_trichotomy (d : Deal) :
  (is_win d, is_loss d, Qeq_bool (profit d) 0) = (true, false, false)
  \/ (is_win d, is_loss d, Qeq_bool (profit d) 0) = (false, true, false)
  \/ (is_win d, is_loss d, Qeq_bool (profit d) 0) = (false, false, true).
Proof.
  unfold is_win, is_loss.
  destruct (Q_dec (profit d) 0) as [[Hlt|Hgt]|Heq].
  - right; left. rewrite (proj2 (py_lt_false 0 (profit d)) (Qlt_le_weak _ _ Hlt)),
      (proj2 (py_lt_spec (profit d) 0) Hlt).
    destruct (Qeq_bool (profit d) 0) eqn:Hz; [apply Qeq_bool_eq in Hz; lra | reflexivity].
  - left. rewrite (proj2 (py_lt_spec 0 (profit d)) Hgt),
      (proj2 (py_lt_false (profit d) 0) (Qlt_le_weak _ _ Hgt)).
    destruct (Qeq_bool (profit d) 0) eqn:Hz; [apply Qeq_bool_eq in Hz; lra | reflexivity].
  - right; right.
    rewrite (proj2 (py_lt_false 0 (profit d)) ltac:(lra)),
      (proj2 (py_lt_false (profit d) 0) ltac:(lra)), (Qeq_eq_bool _ _ Heq).
    reflexivity.
Qed.

(** Exit deals are wins, losses or break-even. *)
Lemma exits_partition (ds : list Deal) :
  (length (filter is_win ds) + length (filter is_loss ds)
   + length (filter (fun d => Qeq_bool (profit d) 0) ds) = length ds)%nat.
Proof.
  induction ds as [|d ds IH]; simpl; [reflexivity|].
  destruct (deal_trichotomy d) as [H|[H|H]]; injection H as -> -> ->; simpl; lia.
Qed.

(** The two passes of the script compute the same totals. *)
Lemma fold_week_totals (ds : list Deal) : fst (fold_week ds) = fold_totals ds.
Proof.
  unfold fold_week, fold_totals.
  assert (forall acc, fst (fold_left (fun acc d =>
                          if is_exit d
                          then (add_deal (fst acc) d, record_symbol (snd acc) (symbol d) (profit d))
                          else acc) ds acc)
                      = fold_left (fun t d => if is_exit d then add_deal t d else t) ds (fst acc))
    as Hg.
  { induction ds as [|d ds IH]; intro acc; simpl; [reflexivity|].
    rewrite IH. destruct (is_exit d); reflexivity. }
  apply Hg.
Qed.

Lemma week_report_some (deals : list Deal) (r : WeekReport) :
  week_report (Some deals) = Some r ->
  total_trades r = (wins (fold_totals deals) + losses (fold_totals deals))%nat
  /\ week_wins r = wins (fold_totals deals)
  /\ week_losses r = losses (fold_totals deals)
  /\ total_pnl r = total_profit (fold_totals deals)
  /\ win_rate r = win_rate_of (fold_totals deals)
  /\ by_symbol_sorted r = sort_by_profit_desc (snd (fold_week deals)).
Proof.
  unfold week_report. rewrite <- fold_week_totals.
  destruct deals as [|d ds]; [discriminate|].
  destruct (fold_week (d :: ds)) as [t by_symbol]. intros [= <-]. simpl.
  repeat split; reflexivity.
Qed.

(** (C29) "Total Trades" (line 115) counts wins and losses only: the exit
    deals with a zero profit are left out of it (and of the divisor of
    the average per trade), though their profit is in the total P&L. *)
Theorem total_trades_excludes_breakeven (deals : list Deal) (r : WeekReport) :
  week_report (Some deals) = Some r ->
  (total_trades r
   + length (filter (fun d => Qeq_bool (profit d) 0) (exits deals))
   = length (exits deals))%nat.
Proof.
  intro Hr. destruct (week_report_some deals r Hr) as [Ht _].
  destruct (fold_totals_gen deals zero_totals) as [_ [Hw Hl]].
  unfold fold_totals in Ht. rewrite Ht, Hw, Hl, filter_loss_eq. simpl.
  apply exits_partition.
Qed.

(** The win rate, when printed, is a percentage: between 0 and 100. *)
Lemma win_rate_bounds (t : Totals) (r : Q) :
  win_rate_of t = Some r -> 0 <= r <= 100.
Proof.
  unfold win_rate_of. destruct (wins t + losses t)%nat as [|n] eqn:Hn; [discriminate|].
  intros [= <-]. change (Z.pos (Pos.of_succ_nat n)) with (Z.of_nat (S n)).
  assert (Hw : (wins t <= S n)%nat) by lia.
  assert (Hpos : 0 < inject_Z (Z.of_nat (S n))) by (unfold Qlt; simpl; lia).
  assert (Hle : inject_Z (Z.of_nat (wins t)) <= inject_Z (Z.of_nat (S n)))
    by (rewrite <- Zle_Qle; lia).
  assert (H0 : 0 <= inject_Z (Z.of_nat (wins t)))
    by (change 0 with (inject_Z 0); rewrite <- Zle_Qle; lia).
  split.
  - apply Qmult_le_0_compat; [|lra]. unfold Qdiv.
    apply Qmult_le_0_compat; [exact H0 | apply Qinv_le_0_compat, Qlt_le_weak, Hpos].
  - assert (inject_Z (Z.of_nat (wins t)) / inject_Z (Z.of_nat (S n)) <= 1)
      by (apply Qle_shift_div_r; [exact Hpos | lra]).
    lra.
Qed.

(** ** The dictionary [by_symbol] *)

Lemma sumQ_app (l1 l2 : list Q) : sumQ (l1 ++ l2) == sumQ l1 + sumQ l2.
Proof. induction l1 as [|x l1 IH]; simpl; [lra|]. rewrite IH. lra. Qed.

Lemma dict_get_app (k : string) (d e : Dict) :
  dict_get k (d ++ e) = match dict_get k d with Some st => Some st | None => dict_get k e end.
Proof.
  unfold dict_get. induction d as [|[k1 st] d IH]; simpl; [reflexivity|].
  destruct (String.eqb k1 k); [reflexivity | exact IH].
Qed.

Lemma dict_contains_get (k : string) (d : Dict) :
  dict_contains k d = match dict_get k d with Some _ => true | None => false end.
Proof.
  unfold dict_get. induction d as [|[k1 st] d IH]; simpl; [reflexivity|].
  destruct (String.eqb k1 k); [reflexivity | exact IH].
Qed.

(** [dict_bump] updates the entry [dict_get] finds and no other. *)
Lemma dict_get_bump (k k' : string) (p : Q) (d : Dict) :
  dict_get k (dict_bump k' p d)
  = if String.eqb k' k
    then option_map (fun st => mkSym (sym_profit st + p) (S (sym_count st))) (dict_get k d)
    else dict_get k d.
Proof.
  unfold dict_get. induction d as [|[k1 st] d IH]; simpl.
  - destruct (String.eqb k' k); reflexivity.
  - destruct (String.eqb_spec k1 k') as [->|Hne]; simpl.
    + destruct (String.eqb k' k); reflexivity.
    + destruct (String.eqb_spec k1 k) as [->|Hk]; [|exact IH].
      destruct (String.eqb_spec k' k); [congruence | reflexivity].
Qed.

Lemma dict_bump_keys (k : string) (p : Q) (d : Dict) : map fst (dict_bump k p d) = map fst d.
Proof.
  induction d as [|[k1 st] d IH]; simpl; [reflexivity|].
  destruct (String.eqb k1 k); simpl; [reflexivity | now rewrite IH].
Qed.

Lemma dict_contains_in (k : string) (d : Dict) : dict_contains k d = false -> ~ In k (map fst d).
Proof.
  unfold dict_contains. intros H Hin. apply in_map_iff in Hin as [[k1 st] [<- Hin]].
  assert (existsb (fun kv => String.eqb (fst kv) k1) d = true)
    by (apply existsb_exists; exists (k1, st); split; [exact Hin | apply String.eqb_refl]).
  simpl in H. congruence.
Qed.

(** One step of lines 110-113 on the entry of [k]. *)
Lemma record_symbol_get (k k' : string) (p : Q) (d : Dict) :
  dict_get k (record_symbol d k' p)
  = if String.eqb k' k
    then Some (let st := match dict_get k d with Some st => st | None => mkSym 0 0 end in
               mkSym (sym_profit st + p) (S (sym_count st)))
    else dict_get k d.
Proof.
  unfold record_symbol. rewrite dict_get_bump, dict_contains_get.
  destruct (String.eqb_spec k' k) as [<-|Hne].
  - destruct (dict_get k' d) as [st|] eqn:G; [rewrite G; reflexivity|].
    rewrite dict_get_app, G. unfold dict_get. simpl. rewrite String.eqb_refl. reflexivity.
  - destruct (dict_get k' d); [reflexivity|].
    rewrite dict_get_app. destruct (dict_get k d); [reflexivity|].
    unfold dict_get. simpl. destruct (String.eqb_spec k' k); [congruence | reflexivity].
Qed.

Lemma record_symbol_keys (d : Dict) (k : string) (p : Q) :
  NoDup (map fst d) -> NoDup (map fst (record_symbol d k p)).
Proof.
  unfold record_symbol. rewrite dict_bump_keys. intro Hd.
  destruct (dict_contains k d) eqn:Hc; [exact Hd|].
  rewrite map_app. simpl. apply NoDup_app; [exact Hd | constructor; [easy | constructor] |].
  intros x Hx [<-|[]]. exact (dict_contains_in k d Hc Hx).
Qed.

Lemma record_symbol_describes (k : string) (d : Dict) (pre : list Deal) (x : Deal) :
  sym_describes (dict_get k d) pre ->
  sym_describes (dict_get k (record_symbol d (symbol x) (profit x)))
                (pre ++ if String.eqb (symbol x) k then [x] else []).
Proof.
  rewrite record_symbol_get. destruct (String.eqb (symbol x) k); [|now rewrite app_nil_r].
  destruct (dict_get k d) as [st|]; simpl.
  - intros [Hne [Hp Hc]]. split; [now destruct pre|].
    rewrite map_app, sumQ_app, length_app, Hc. simpl. split; [rewrite Hp; lra | lia].
  - intros ->. simpl. split; [discriminate | split; [lra | reflexivity]].
Qed.

Lemma dict_profit_bump (k : string) (p : Q) (d : Dict) :
  dict_profit (dict_bump k p d) == dict_profit d + if dict_contains k d then p else 0.
Proof.
  unfold dict_profit, dict_contains.
  induction d as [|[k1 st] d IH]; simpl; [lra|].
  destruct (String.eqb k1 k); simpl; [lra|]. rewrite IH. lra.
Qed.

Lemma dict_count_bump (k : string) (p : Q) (d : Dict) :
  dict_count (dict_bump k p d) = (dict_count d + if dict_contains k d then 1 else 0)%nat.
Proof.
  unfold dict_count, dict_contains.
  induction d as [|[k1 st] d IH]; simpl; [reflexivity|].
  destruct (String.eqb k1 k); simpl; [lia|]. rewrite IH. lia.
Qed.

Lemma dict_contains_app_new (k : string) (d : Dict) (st : SymStats) :
  dict_contains k (d ++ [(k, st)]) = true.
Proof. unfold dict_contains. rewrite existsb_app. simpl. rewrite String.eqb_refl, orb_true_r. reflexivity. Qed.

Lemma record_symbol_sums (d : Dict) (k : string) (p : Q) :
  dict_profit (record_symbol d k p) == dict_profit d + p
  /\ dict_count (record_symbol d k p) = S (dict_count d).
Proof.
  unfold record_symbol. rewrite dict_profit_bump, dict_count_bump.
  destruct (dict_contains k d) eqn:Hc; cbv iota; [rewrite Hc; split; [lra | lia]|].
  rewrite dict_contains_app_new. unfold dict_profit, dict_count.
  rewrite !map_app, sumQ_app, list_sum_app. simpl. split; [lra | lia].
Qed.

(** The invariant of the loop at lines 101-113 on the dictionary. *)
Lemma fold_week_dict (ds : list Deal) (acc : Totals * Dict) :
  let d' := snd (fold_left (fun acc d =>
                 if is_exit d
                 then (add_deal (fst acc) d, record_symbol (snd acc) (symbol d) (profit d))
                 else acc) ds acc) in
  (NoDup (map fst (snd acc)) -> NoDup (map fst d'))
  /\ (forall k pre, sym_describes (dict_get k (snd acc)) pre ->
        sym_describes (dict_get k d') (pre ++ exits_of k ds))
  /\ dict_profit d' == dict_profit (snd acc) + sumQ (map profit (exits ds))
  /\ dict_count d' = (dict_count (snd acc) + length (exits ds))%nat.
Proof.
  revert acc. induction ds as [|x ds IH]; intro acc; simpl.
  - repeat split; [tauto | intros k pre; now rewrite app_nil_r | lra | lia].
  - unfold exits_of, exits in *. simpl.
    destruct (is_exit x); simpl; [|apply IH].
    destruct (IH (add_deal (fst acc) x, record_symbol (snd acc) (symbol x) (profit x)))
      as [Hn [Hk [Hp Hc]]]; simpl in *.
    destruct (record_symbol_sums (snd acc) (symbol x) (profit x)) as [Sp Sc].
    repeat split.
    + intro H. apply Hn, record_symbol_keys, H.
    + intros k pre H. apply (record_symbol_describes k _ pre x) in H. apply Hk in H.
      destruct (String.eqb (symbol x) k); [now rewrite <- app_assoc in H | now rewrite app_nil_r in H].
    + rewrite Hp, Sp. lra.
    + rewrite Hc, Sc. lia.
Qed.

(** Every key of [by_symbol] is the symbol of a deal of the loop. *)
Lemma record_symbol_keys_incl (d : Dict) (k : string) (p : Q) :
  incl (map fst (record_symbol d k p)) (k :: map fst d).
Proof.
  unfold record_symbol. rewrite dict_bump_keys.
  destruct (dict_contains k d); [apply incl_tl, incl_refl|].
  rewrite map_app. intros a Ha. apply in_app_or in Ha as [Ha|[<-|[]]]; simpl; auto.
Qed.

Lemma fold_week_keys (ds : list Deal) (acc : Totals * Dict) :
  incl (map fst (snd (fold_left (fun acc d =>
                   if is_exit d
                   then (add_deal (fst acc) d, record_symbol (snd acc) (symbol d) (profit d))
                   else acc) ds acc)))
       (map fst (snd acc) ++ map symbol ds).
Proof.
  revert acc. induction ds as [|x ds IH]; intro acc; simpl; [rewrite app_nil_r; apply incl_refl|].
  eapply incl_tran; [apply IH|]. destruct (is_exit x); simpl.
  - intros a Ha. apply in_app_or in Ha as [Ha|Ha];
      [apply record_symbol_keys_incl in Ha as [<-|Ha]|]; apply in_or_app; simpl; auto.
  - apply incl_app; [apply incl_appl, incl_refl | apply incl_appr, incl_tl, incl_refl].
Qed.

(** (C26) The dictionary [by_symbol] of lines 98-113 has one entry per
    symbol, and the entry of a symbol is present exactly when the
    symbol has an exit deal; it holds the sum of the profits of the
    symbol's exit deals and their number. *)
Theorem by_symbol_spec (ds : list Deal) :
  NoDup (map fst (snd (fold_week ds)))
  /\ forall k, sym_describes (dict_get k (snd (fold_week ds))) (exits_of k ds).
Proof.
  destruct (fold_week_dict ds (zero_totals, [])) as [Hn [Hk _]].
  split; [apply Hn; constructor|]. intro k. apply (Hk k []). reflexivity.
Qed.

(** The per-symbol breakdown adds up to the total P&L, and its
    counts add up to the number of exit deals, which exceeds "Total
    Trades" by the number of break-even deals. *)
Lemma by_symbol_totals (ds : list Deal) :
  dict_profit (snd (fold_week ds)) == total_profit (fold_totals ds)
  /\ dict_count (snd (fold_week ds)) = length (exits ds).
Proof.
  destruct (fold_week_dict ds (zero_totals, [])) as [_ [_ [Hp Hc]]].
  destruct (fold_totals_gen ds zero_totals) as [Ht _].
  unfold fold_week, fold_totals. split; [rewrite Hp, Ht; unfold dict_profit; simpl; lra | exact Hc].
Qed.

(** ** The sort of line 123 *)

Lemma insert_desc_perm (x : string * SymStats) (l : Dict) : Permutation (insert_desc x l) (x :: l).
Proof.
  induction l as [|y l IH]; simpl; [reflexivity|].
  destruct (Qle_bool _ _); first [reflexivity | rewrite IH; apply perm_swap].
Qed.

Lemma Qle_bool_false_lt (a b : Q) : Qle_bool a b = false -> b < a.
Proof. intro H. apply Qnot_le_lt. intro Hle. apply Qle_bool_iff in Hle. congruence. Qed.

Lemma insert_desc_hd (x y : string * SymStats) (l : Dict) :
  HdRel profit_desc y l -> profit_desc y x -> HdRel profit_desc y (insert_desc x l).
Proof.
  intros Hh Hyx. destruct l as [|z l]; simpl; [constructor; exact Hyx|].
  destruct (Qle_bool _ _); constructor; first [exact Hyx | inversion Hh; assumption].
Qed.

Lemma insert_desc_sorted (x : string * SymStats) (l : Dict) :
  Sorted profit_desc l -> Sorted profit_desc (insert_desc x l).
Proof.
  induction l as [|y l IH]; intro Hs; simpl; [repeat constructor|].
  apply Sorted_inv in Hs as [Hs' Hh].
  destruct (Qle_bool _ _) eqn:Hc; [apply Qle_bool_iff in Hc | apply Qle_bool_false_lt in Hc];
    first [ constructor; [exact (IH Hs') | apply insert_desc_hd; [exact Hh | unfold profit_desc; lra]]
          | constructor; [constructor; [exact Hs' | exact Hh] | constructor; unfold profit_desc; lra] ].
Qed.

(** In a list sorted by [profit_desc], the head's profit bounds every
    profit. *)
Lemma sorted_desc_head (y : string * SymStats) (l : Dict) :
  Sorted profit_desc (y :: l) -> forall z, In z (y :: l) -> sym_profit (snd z) <= sym_profit (snd y).
Proof.
  intros Hs z Hz. apply Sorted_StronglySorted in Hs;
    [|intros a b c Hab Hbc; unfold profit_desc in *; lra].
  apply StronglySorted_inv in Hs as [_ Hall]. destruct Hz as [<-|Hz]; [lra|].
  rewrite Forall_forall in Hall. exact (Hall z Hz).
Qed.

(** Inserting into a sorted list puts the new item after the ties it
    has there. *)
Lemma insert_desc_ties (v : Q) (x : string * SymStats) (l : Dict) :
  Sorted profit_desc l ->
  ties v (insert_desc x l) = if Qeq_bool (sym_profit (snd x)) v then ties v l ++ [x] else ties v l.
Proof.
  unfold ties. induction l as [|y l IH]; intro Hs; simpl.
  - destruct (Qeq_bool _ v); reflexivity.
  - destruct (Qle_bool _ _) eqn:Hxy; simpl.
    + rewrite (IH (proj1 (Sorted_inv Hs))).
      destruct (Qeq_bool (sym_profit (snd y)) v), (Qeq_bool (sym_profit (snd x)) v); reflexivity.
    + destruct (Qeq_bool (sym_profit (snd x)) v) eqn:Hx; [|reflexivity].
      apply Qeq_bool_iff in Hx.
      assert (Hlt : sym_profit (snd y) < sym_profit (snd x))
        by (apply Qle_bool_false_lt; exact Hxy).
      assert (Hnone : filter (fun kv => Qeq_bool (sym_profit (snd kv)) v) (y :: l) = []).
      { apply filter_none. intros z Hz. apply not_true_is_false. intro Hq.
        apply Qeq_bool_iff in Hq. pose proof (sorted_desc_head y l Hs z Hz). lra. }
      simpl in Hnone. rewrite Hnone. reflexivity.
Qed.

Lemma sort_by_profit_desc_snoc (d : Dict) (x : string * SymStats) :
  sort_by_profit_desc (d ++ [x]) = insert_desc x (sort_by_profit_desc d).
Proof. unfold sort_by_profit_desc. rewrite fold_left_app. reflexivity. Qed.

Lemma sort_by_profit_desc_perm (d : Dict) : Permutation (sort_by_profit_desc d) d.
Proof.
  induction d as [|x d IH] using rev_ind; [reflexivity|].
  rewrite sort_by_profit_desc_snoc, insert_desc_perm, IH. apply Permutation_cons_append.
Qed.

Lemma sort_by_profit_desc_sorted (d : Dict) : Sorted profit_desc (sort_by_profit_desc d).
Proof.
  induction d as [|x d IH] using rev_ind; [constructor|].
  rewrite sort_by_profit_desc_snoc. apply insert_desc_sorted, IH.
Qed.

(** (C27) Line 123 is a stable sort, highest profit first: the printed
    list is a permutation of the dictionary's entries, its profits are
    non-increasing, and entries with equal profits keep the order they
    have in the dictionary (the order their symbols first traded). *)
Theorem sort_by_profit_desc_spec (d : Dict) :
  Permutation (sort_by_profit_desc d) d
  /\ Sorted profit_desc (sort_by_profit_desc d)
  /\ forall v, ties v (sort_by_profit_desc d) = ties v d.
Proof.
  split; [apply sort_by_profit_desc_perm | split; [apply sort_by_profit_desc_sorted|]].
  intro v. induction d as [|x d IH] using rev_ind; [reflexivity|].
  rewrite sort_by_profit_desc_snoc, insert_desc_ties by apply sort_by_profit_desc_sorted.
  unfold ties in *. rewrite filter_app, IH. simpl.
  destruct (Qeq_bool _ v); [reflexivity | now rewrite app_nil_r].
Qed.

(** ** Witnesses *)

(** A week of deals: an entry deal (skipped), a win on EURUSD, a loss
    on GBPUSD, a break-even exit on EURUSD and a second win on USDJPY
    tying with EURUSD. *)
Definition sample_week : list Deal :=
  [mkDeal 1 "EURUSD" 0 (1 # 100) 1 0 0;
   mkDeal 2 "EURUSD" 1 (1 # 100) 1 25 1;
   mkDeal 3 "GBPUSD" 1 (1 # 100) 1 (-10) 1;
   mkDeal 4 "EURUSD" 1 (1 # 100) 1 0 1;
   mkDeal 5 "USDJPY" 0 (1 # 100) 1 25 1]%string.

Lemma total_trades_excludes_breakeven_witness :
  exists r, week_report (Some sample_week) = Some r
            /\ (total_trades r
                + List.length (filter (fun d => Qeq_bool (profit d) 0) (exits sample_week))
                = List.length (exits sample_week))%nat.
Proof.
  eexists. split; [reflexivity|].
  apply (total_trades_excludes_breakeven sample_week). reflexivity.
Defined.

End TradeStats.
