(* ===== verification/AccountStatus.v ===== *)
(** * AccountStatus: the [main] of get_account_status.py

    The script connects to the terminal, exits with status 1 when the
    connection or the account read fails (lines 10-19), and otherwise
    prints four sections: the account (lines 21-31), the open positions
    (lines 33-52), the deals of the day and of the last seven days
    (TradeStats), before closing the connection (line 128).  The answers
    of the terminal are the fields of [Terminal]; [status_main] returns
    what is printed, as structured values, with the exit status and
    whether [mt5.shutdown()] was called.  The text of the report is
    rendered from these values in Report. *)

From Stdlib Require Import ZArith QArith List String Lia.
From S2P Require Import Prelude Platform TradeStats.
Import ListNotations.
Import TradeStats.

Module AccountStatus.

(** The fields of a position the script reads (lines 40-48). *)
Record Position : Type := mkPosition {
  pos_ticket : Z;
  pos_symbol : string;
  pos_type : Z;
  pos_volume : Q;
  price_open : Q;
  price_current : Q;
  pos_sl : Q;
  pos_tp : Q;
  pos_profit : Q;
  pos_time : Z
}.

Record PositionLine : Type := mkPositionLine {
  pl_ticket : Z;
  pl_symbol : string;
  pl_side : Side;
  pl_volume : Q;
  pl_open : Q;
  pl_current : Q;
  pl_sl : Q;
  pl_tp : Q;
  pl_profit : Q;
  pl_time : Z
}.

(** Lines 40-48: ['BUY' if pos.type == 0 else 'SELL']. *)
Definition position_line (p : Position) : PositionLine :=
  mkPositionLine (pos_ticket p) (pos_symbol p)
                 (if (pos_type p =? 0)%Z then BUY else SELL)
                 (pos_volume p) (price_open p) (price_current p)
                 (pos_sl p) (pos_tp p) (pos_profit p) (pos_time p).

(** Lines 34-52: the count [len(positions) if positions else 0] and
    either a block per position or "No open positions" ([None]). *)
Definition positions_section (positions : option (list Position))
  : nat * option (list PositionLine) :=
  match positions with
  | None | Some [] => (0%nat, None)
  | Some ps => (List.length ps, Some (map position_line ps))
  end.

(** [len(deals) if deals else 0] (lines 59 and 36). *)
Definition count_or_zero {A} (xs : option (list A)) : nat :=
  match xs with
  | Some l => List.length l
  | None => 0%nat
  end.

(** The answers of the terminal to the calls of [main]:
    [mt5.initialize()], [mt5.account_info()], [mt5.positions_get()]
    and the two [mt5.history_deals_get(...)] (today, last seven days). *)
Record Terminal : Type := mkTerminal {
  t_initialize : bool;
  t_account_info : option AccountInfo;
  t_positions : option (list Position);
  t_today_deals : option (list Deal);
  t_week_deals : option (list Deal)
}.

Record StatusReport : Type := mkStatusReport {
  account : AccountInfo;
  positions : nat * option (list PositionLine);
  today_count : nat;
  today : option (list DealLine * Totals * option Q);
  week : option WeekReport
}.

Inductive Outcome : Type :=
  | ExitInitFailed              (* lines 10-12 *)
  | ExitNoAccount               (* lines 16-19 *)
  | Printed (r : StatusReport). (* lines 21-128 *)

(** Lines 9-128: the outcome, the exit status and whether
    [mt5.shutdown()] ran. *)
Definition status_main (t : Terminal) : Outcome * Z * bool :=
  if negb (t_initialize t) then (ExitInitFailed, 1%Z, false)
  else
    match t_account_info t with
    | None => (ExitNoAccount, 1%Z, true)
    | Some ai =>
        (Printed (mkStatusReport ai (positions_section (t_positions t))
                                 (count_or_zero (t_today_deals t))
                                 (today_report (t_today_deals t))
                                 (week_report (t_week_deals t))),
         0%Z, true)
    end.

(** The script closes the terminal connection exactly when it opened
    one, and exits with status 0 exactly when it prints the report. *)
Lemma status_main_shutdown (t : Terminal) :
  snd (status_main t) = t_initialize t
  /\ (snd (fst (status_main t)) = 0%Z <-> exists r, fst (fst (status_main t)) = Printed r).
Proof.
  unfold status_main. destruct (t_initialize t); simpl.
  - destruct (t_account_info t); simpl; split; [reflexivity | split; eauto | reflexivity |].
    split; [discriminate | intros [r Hr]; discriminate].
  - split; [reflexivity | split; [discriminate | intros [r Hr]; discriminate]].
Qed.

End AccountStatus.
