(* ===== verification/Report.v ===== *)
(** * Report: the text get_account_status.py prints

    The [print] calls of get_account_status.py (lines 11-126), rendered
    line by line from the structured outcome of [AccountStatus.status_main]:
    the two failure messages, the account block (lines 21-31), the open
    positions (33-52), the deals of the day (54-86) and the seven-day
    performance (88-126).  Amounts use [Format.fmt_fixed] ([:.2f], and
    [:.1f] for the win rate), counts [Format.py_str_int].  Three texts
    come from outside the code and are inputs ([ReportText]): Python's
    [repr] of a float (for [{pos.volume}], [{deal.price}], ...), the
    local time of a timestamp ([datetime.fromtimestamp]) and
    [mt5.last_error()].  A report is the list of printed lines. *)

From Stdlib Require Import ZArith QArith Qabs Ascii String List Bool Lia Lqa.
From S2P Require Import Prelude Format Platform TradeStats AccountStatus.
Import ListNotations.
Import TradeStats AccountStatus.

Module Report.

Record ReportText : Type := mkReportText {
  float_repr : Q -> string;
  time_text : Z -> string;
  last_error : string
}.

Section Render.
Variable x : ReportText.

Definition f2 (q : Q) : string := Format.fmt_fixed 2 q.
Definition str_nat (n : nat) : string := Format.py_str_int (Z.of_nat n).

(** ["=" * 60]. *)
Definition rule : string := string_of_list_ascii (List.repeat "="%char 60).

Definition side_text (s : Side) : string :=
  match s with BUY => "BUY" | SELL => "SELL" end.

(** Lines 21-31. *)
Definition account_lines (ai : AccountInfo) : list string :=
  [rule; "ACCOUNT STATUS"; rule;
   "Account: " ++ Format.py_str_int (login ai);
   "Balance: $" ++ f2 (balance ai);
   "Equity: $" ++ f2 (equity ai);
   "Profit: $" ++ f2 (Platform.profit ai);
   "Margin: $" ++ f2 (margin ai);
   "Free Margin: $" ++ f2 (margin_free ai);
   "Margin Level: " ++ f2 (margin_level ai) ++ "%";
   ""]%string.

(** Lines 40-49, one block per position. *)
Definition position_block (p : PositionLine) : list string :=
  ["Ticket: " ++ Format.py_str_int (pl_ticket p);
   "  Symbol: " ++ pl_symbol p;
   "  Type: " ++ side_text (pl_side p);
   "  Volume: " ++ float_repr x (pl_volume p);
   "  Open Price: " ++ float_repr x (pl_open p);
   "  Current Price: " ++ float_repr x (pl_current p);
   "  SL: " ++ float_repr x (pl_sl p) ++ " | TP: " ++ float_repr x (pl_tp p);
   "  Profit: $" ++ f2 (pl_profit p);
   "  Open Time: " ++ time_text x (pl_time p);
   ""]%string.

(** Lines 34-52. *)
Definition positions_lines (sec : nat * option (list PositionLine)) : list string :=
  [rule; "OPEN POSITIONS: " ++ str_nat (fst sec); rule]%string
  ++ match snd sec with
     | Some ps => concat (map position_block ps)
     | None => ["No open positions"; ""]%string
     end.

(** Lines 73-76. *)
Definition deal_text (d : DealLine) : string :=
  ("Ticket: " ++ Format.py_str_int (line_ticket d) ++ " | " ++ line_symbol d ++ " | "
   ++ side_text (line_side d) ++ " | "
   ++ "Vol: " ++ float_repr x (line_volume d) ++ " | Price: " ++ float_repr x (line_price d)
   ++ " | Profit: $" ++ f2 (line_profit d))%string.

(** [Win Rate: {...:.1f}%], printed when [wins + losses > 0] (lines
    81-82, 117-118). *)
Definition win_rate_lines (wr : option Q) : list string :=
  match wr with
  | Some r => ["Win Rate: " ++ Format.fmt_fixed 1 r ++ "%"]%string
  | None => []
  end.

(** Lines 58-86. *)
Definition today_lines (count : nat) (today : option (list DealLine * Totals * option Q))
  : list string :=
  [rule; "TODAY'S TRADE HISTORY: " ++ str_nat count ++ " deals"; rule]%string
  ++ match today with
     | Some (lines, t, wr) =>
         map deal_text lines
         ++ [""; "Total Profit: $" ++ f2 (total_profit t);
             "Wins: " ++ str_nat (wins t) ++ " | Losses: " ++ str_nat (losses t)]%string
         ++ win_rate_lines wr
     | None => ["No trades today"]%string
     end
  ++ [""%string].

(** Line 124. *)
Definition symbol_text (kv : string * SymStats) : string :=
  ("  " ++ fst kv ++ ": $" ++ f2 (sym_profit (snd kv))
   ++ " (" ++ str_nat (sym_count (snd kv)) ++ " trades)")%string.

(** Lines 92-126. *)
Definition week_lines (week : option WeekReport) : list string :=
  [rule; "LAST 7 DAYS PERFORMANCE"; rule]%string
  ++ match week with
     | Some r =>
         ["Total Trades: " ++ str_nat (total_trades r);
          "Wins: " ++ str_nat (week_wins r) ++ " | Losses: " ++ str_nat (week_losses r)]%string
         ++ win_rate_lines (win_rate r)
         ++ ["Total P&L: $" ++ f2 (total_pnl r);
             "Avg per trade: $" ++ f2 (avg_per_trade r); "";
             "Performance by Symbol:"]%string
         ++ map symbol_text (by_symbol_sorted r)
     | None => ["No trade history available"]%string
     end.

(** The lines printed on each outcome of [main] (lines 9-128): the
    failure message with the terminal's last error, or the four
    sections. *)
Definition outcome_lines (o : Outcome) : list string :=
  match o with
  | ExitInitFailed => ["[-] MT5 initialize failed: " ++ last_error x]%string
  | ExitNoAccount => ["[-] Failed to get account info: " ++ last_error x]%string
  | Printed r =>
      account_lines (account r) ++ positions_lines (positions r)
      ++ today_lines (today_count r) (today r) ++ week_lines (week r)
  end.

(** What a run prints, with the exit status. *)
Definition status_text (t : Terminal) : list string * Z :=
  let '(o, code, _) := status_main t in (outcome_lines o, code).

End Render.

(** ** Reading the printed lines back *)

(** The lines of a report that start with a given label. *)
Definition labelled (p : string) (ls : list string) : list string :=
  filter (String.prefix p) ls.

Lemma labelled_app (p : string) (l1 l2 : list string) :
  labelled p (l1 ++ l2) = labelled p l1 ++ labelled p l2.
Proof. apply filter_app. Qed.

Lemma labelled_map_nil {A} (p : string) (g : A -> string) (xs : list A) :
  (forall a, String.prefix p (g a) = false) -> labelled p (map g xs) = [].
Proof. intro H. induction xs as [|a xs IH]; simpl; [reflexivity|]. rewrite H. exact IH. Qed.

Lemma labelled_concat_nil {A} (p : string) (g : A -> list string) (xs : list A) :
  (forall a, labelled p (g a) = []) -> labelled p (concat (map g xs)) = [].
Proof.
  intro H. induction xs as [|a xs IH]; simpl; [reflexivity|].
  rewrite labelled_app, H, IH. reflexivity.
Qed.

Lemma prefix_empty (s : string) : String.prefix "" s = true.
Proof. destruct s; reflexivity. Qed.

Ltac label_cbn :=
  cbn -[f2 str_nat Format.py_str_int Format.fmt_fixed float_repr time_text last_error];
  rewrite ?prefix_empty;
  cbn -[f2 str_nat Format.py_str_int Format.fmt_fixed float_repr time_text last_error].

Ltac labels_cbn :=
  rewrite ?labelled_app, ?labelled_concat_nil, ?labelled_map_nil
    by (intro; first [reflexivity | label_cbn; reflexivity]);
  label_cbn.

(** Only the week's section prints a line labelled "Total P&L: $". *)
Lemma week_pnl_line (r : WeekReport) :
  labelled "Total P&L: $" (week_lines (Some r)) = ["Total P&L: $" ++ f2 (total_pnl r)]%string.
Proof. unfold week_lines. destruct (win_rate r); labels_cbn; reflexivity. Qed.

Lemma outcome_pnl_line (x : ReportText) (r : StatusReport) :
  labelled "Total P&L: $" (outcome_lines x (Printed r))
  = labelled "Total P&L: $" (week_lines (week r)).
Proof.
  unfold outcome_lines, positions_lines, today_lines. rewrite !labelled_app.
  destruct (positions r) as [n [ps|]], (today r) as [[[ls t] [wr|]]|]; cbn [snd];
    labels_cbn; reflexivity.
Qed.

(** [{x:.2f}] reads back within half a cent of [x]. *)
Lemma f2_reads (q : Q) : exists v, Format.parse_decimal (f2 q) = Some v /\ Qabs (v - q) <= 1 # 200.
Proof.
  destruct (Format.fmt_fixed_reads 1 q) as [v [Hv Hr]]. exists v. split; [exact Hv|].
  rewrite Hr. apply (Format.round_fixed_bound q (Format.pow10 2)). reflexivity.
Qed.

(** A seven-day report exists exactly when the terminal returned deals. *)
Lemma week_report_nonempty (ds : list Deal) :
  ds <> [] -> exists r, week_report (Some ds) = Some r.
Proof.
  intro Hne. unfold week_report. destruct ds as [|d ds]; [contradiction|].
  destruct (fold_week (d :: ds)). eauto.
Qed.

(** (C30) The printed seven-day P&L (line 119): when the terminal
    answers and returns deals for the last seven days, exactly one
    printed line is labelled "Total P&L: $", and its amount reads back
    within half a cent of the sum of the profits of the week's exit
    deals. *)
Theorem printed_week_pnl (x : ReportText) (t : Terminal) (ds : list Deal) :
  t_initialize t = true -> t_account_info t <> None ->
  t_week_deals t = Some ds -> ds <> [] ->
  exists s v, labelled "Total P&L: $" (fst (status_text x t)) = ["Total P&L: $" ++ s]%string
              /\ Format.parse_decimal s = Some v
              /\ Qabs (v - sumQ (map profit (exits ds))) <= 1 # 200.
Proof.
  intros Hi Ha Hw Hne. unfold status_text, status_main. rewrite Hi.
  destruct (t_account_info t) as [ai|]; [|contradiction]. cbn [negb fst].
  rewrite outcome_pnl_line. cbn [week]. rewrite Hw.
  destruct (week_report_nonempty ds Hne) as [r Hr]. rewrite Hr, week_pnl_line.
  destruct (week_report_some ds r Hr) as (_ & _ & _ & Hp & _).
  destruct (fold_totals_gen ds zero_totals) as [Hs _]. unfold fold_totals in Hp.
  destruct (f2_reads (total_pnl r)) as [v [Hv Hb]].
  exists (f2 (total_pnl r)), v. split; [reflexivity | split; [exact Hv|]].
  rewrite Hp, Hs in Hb. cbn [total_profit zero_totals] in Hb.
  setoid_replace (0 + sumQ (map profit (exits ds))) with (sumQ (map profit (exits ds))) in Hb
    by ring. exact Hb.
Qed.

(** A line "Win Rate: d%" whose number [d] reads back as a percentage. *)
Definition rate_readable (l : string) : Prop :=
  exists d v, l = ("Win Rate: " ++ d ++ "%")%string
              /\ Format.parse_decimal d = Some v /\ 0 <= v <= 100.

(** [{r:.1f}] of a percentage reads back as a percentage: rounding to a
    tenth does not leave [0, 100]. *)
Lemma rate_text_bounds (r : Q) :
  0 <= r <= 100 -> exists v, Format.parse_decimal (Format.fmt_fixed 1 r) = Some v /\ 0 <= v <= 100.
Proof.
  intros [H0 H1]. destruct (Format.fmt_fixed_reads 0 r) as [v [Hv Hr]]. exists v. split; [exact Hv|].
  pose proof (Format.round_half_even_bound (r * inject_Z (Format.pow10 1))) as Hb.
  change (Format.pow10 1) with 10%Z in *. set (n := Format.round_half_even _) in *.
  apply Qabs_Qle_condition in Hb as [Hb1 Hb2]. change (inject_Z 10) with 10 in *.
  assert (Hn : (0 <= n <= 1000)%Z).
  { split; apply Z.nlt_ge; intro Hlt; [apply Zlt_le_succ in Hlt | apply Zlt_le_succ in Hlt];
      [ assert (inject_Z n <= inject_Z (-1)) by (rewrite <- Zle_Qle; lia)
      | assert (inject_Z 1001 <= inject_Z n) by (rewrite <- Zle_Qle; lia) ];
      change (inject_Z (-1)) with (-1) in *; change (inject_Z 1001) with 1001 in *; lra. }
  assert (Hq : 0 <= inject_Z n <= 1000)
    by (split; [change 0 with (inject_Z 0) | change 1000 with (inject_Z 1000)];
        rewrite <- Zle_Qle; lia).
  rewrite Hr. setoid_replace (inject_Z n / 10) with (inject_Z n * (1 # 10)) by field. lra.
Qed.

Lemma win_rate_readable (t : Totals) :
  Forall rate_readable (labelled "Win Rate: " (win_rate_lines (win_rate_of t))).
Proof.
  destruct (win_rate_of t) as [r|] eqn:E; label_cbn; [|constructor].
  destruct (rate_text_bounds r (win_rate_bounds t r E)) as [v [Hv Hb]].
  repeat constructor. exists (Format.fmt_fixed 1 r), v. split; [reflexivity | split; assumption].
Qed.

Lemma today_rate_lines (x : ReportText) (c : nat) (d : option (list Deal)) :
  Forall rate_readable (labelled "Win Rate: " (today_lines x c (today_report d))).
Proof.
  unfold today_lines, today_report.
  destruct d as [[|d ds]|]; rewrite !labelled_app, ?Forall_app; repeat split;
    first [apply win_rate_readable | labels_cbn; constructor].
Qed.

Lemma week_rate_lines (d : option (list Deal)) :
  Forall rate_readable (labelled "Win Rate: " (week_lines (week_report d))).
Proof.
  unfold week_lines. destruct (week_report d) as [r|] eqn:E; [|labels_cbn; constructor].
  destruct d as [ds|]; [|discriminate].
  destruct (week_report_some ds r E) as (_ & _ & _ & _ & Hw & _).
  rewrite !labelled_app, !Forall_app, Hw. repeat split;
    first [apply win_rate_readable | labels_cbn; constructor].
Qed.

(** (C32) Every printed win rate (lines 82 and 118) is a percentage:
    each line labelled "Win Rate: " on any run, whatever the terminal
    answers, is "Win Rate: d%" with a number [d] that reads back
    between 0 and 100. *)
Theorem printed_win_rates (x : ReportText) (t : Terminal) :
  Forall rate_readable (labelled "Win Rate: " (fst (status_text x t))).
Proof.
  unfold status_text, status_main.
  destruct (t_initialize t); cbn [negb]; [destruct (t_account_info t) as [ai|]|];
    cbn [fst outcome_lines]; [|label_cbn; constructor ..].
  rewrite !labelled_app, !Forall_app. cbn [account positions today_count today week].
  split; [labels_cbn; constructor|]. split; [|split; [apply today_rate_lines | apply week_rate_lines]].
  unfold positions_lines. destruct (positions_section (t_positions t)) as [n [ps|]];
    cbn [snd]; labels_cbn; constructor.
Qed.

(** ** Witnesses *)

Definition sample_text : ReportText :=
  mkReportText (fun _ => "0.01"%string) (fun _ => "2024-03-01 09:30:00"%string) "(1, 'Success')"%string.

(** A terminal with one open position, the deals of [sample_week] today
    and over the week. *)
Definition sample_terminal : Terminal :=
  mkTerminal true
    (Some (mkAccountInfo 42 (100055 # 100) 1000 (-55 # 100) 0 1000 0))
    (Some [mkPosition 7 "EURUSD"%string 0 (1 # 100) (10852 # 10000) (10871 # 10000) 0 0 (3 # 2) 1709285400])
    (Some sample_week) (Some sample_week).

(** The seven-day section printed for [sample_week]. *)
Example sample_week_lines :
  week_lines (week_report (Some sample_week))
  = [rule; "LAST 7 DAYS PERFORMANCE"; rule;
     "Total Trades: 3"; "Wins: 2 | Losses: 1"; "Win Rate: 66.7%";
     "Total P&L: $40.00"; "Avg per trade: $13.33"; "";
     "Performance by Symbol:";
     "  EURUSD: $25.00 (2 trades)"; "  USDJPY: $25.00 (1 trades)";
     "  GBPUSD: $-10.00 (1 trades)"]%string.
Proof. vm_compute. reflexivity. Qed.

Lemma printed_week_pnl_witness :
  exists s v, labelled "Total P&L: $" (fst (status_text sample_text sample_terminal))
              = ["Total P&L: $" ++ s]%string
              /\ Format.parse_decimal s = Some v
              /\ Qabs (v - sumQ (map profit (exits sample_week))) <= 1 # 200.
Proof.
  apply (printed_week_pnl sample_text sample_terminal sample_week);
    first [reflexivity | discriminate].
Defined.

End Report.
