(* ===== verification/Probe.v ===== *)
(** * Probe: the run of test_filling_mode.py

    The whole script as a function of the terminal's answers: the
    banner (lines 9-11), one block of lines per symbol of line 14
    rendered from [FillingMode.filling_report] (lines 16-43), the MT5
    constants (lines 45-50), the order request built on the EURUSD ask
    price (lines 53-70), the [order_check] answer (lines 73-77),
    [mt5.shutdown()] and "Done!" (lines 79-80).  A print call is one
    string of the list; those that start with ["\n"] (lines 23, 45, 53,
    80) carry the newline as their first character.  The return values
    of [mt5.initialize()] and [mt5.login(...)] (lines 6-7) are not read
    by the script and are not modelled. *)

From Stdlib Require Import ZArith QArith List Ascii String Bool Lia.
From S2P Require Import Prelude Format FillingMode.
Import ListNotations.
Import FillingMode.

Module Probe.

(** The fields of the request dictionary of lines 58-68 that the
    script computes; the others are MT5 constants. *)
Record Request : Type := mkRequest {
  req_symbol : string;
  req_volume : Q;
  req_price : Q;
  req_sl : Q;
  req_type_filling : Z;
  req_comment : string
}.

(** The answers of the terminal: [mt5.symbol_info(s).filling_mode],
    [mt5.symbol_info_tick(s).ask] ([None] when the call returns
    [None]), [mt5.order_check(request)] as [(retcode, comment)] and
    [mt5.last_error()]. *)
Record ProbeTerminal : Type := mkProbeTerminal {
  symbol_info : string -> option Z;
  tick_ask : string -> option Q;
  order_check : Request -> option (Z * string);
  last_error : string
}.

(** How the script ends: after "Done!", or with the AttributeError of
    [None.ask] at line 56. *)
Inductive ProbeExit : Type :=
  | Done
  | AttributeErrorAtTick.

Definition nl : string := String "010"%char EmptyString.

(** ["=" * 60] (lines 9, 11, 45, 50). *)
Definition rule : string := string_of_list_ascii (List.repeat "="%char 60).

(** [{'YES' if fm & k else 'NO'}] (lines 25-27). *)
Definition yes_no (b : bool) : string := if b then "YES" else "NO".

(** Lines 19 and 23-43: the prints of one symbol. *)
Definition report_line_text (r : ReportLine) : list string :=
  match r with
  | NotAvailable s => [s ++ ": NOT AVAILABLE"]%string
  | Mode s fm bin fok ioc ret mode name =>
      [nl ++ s ++ ":";
       "  filling_mode = " ++ Format.py_str_int fm ++ " (binary: " ++ bin ++ ")";
       "  Bit 0 (FOK): " ++ yes_no fok;
       "  Bit 1 (IOC): " ++ yes_no ioc;
       "  Bit 2 (RETURN): " ++ yes_no ret;
       "  -> Should use: " ++ name ++ " (type_filling="
         ++ Format.py_str_int (type_filling mode) ++ ")"]%string
  end.

(** Lines 45-50. *)
Definition constants_lines : list string :=
  [nl ++ rule; "MT5 CONSTANTS:";
   "  ORDER_FILLING_FOK = " ++ Format.py_str_int (type_filling ORDER_FILLING_FOK);
   "  ORDER_FILLING_IOC = " ++ Format.py_str_int (type_filling ORDER_FILLING_IOC);
   "  ORDER_FILLING_RETURN = " ++ Format.py_str_int (type_filling ORDER_FILLING_RETURN);
   rule]%string.

(** Lines 58-68 on the ask price. *)
Definition request (price : Q) : Request :=
  mkRequest "EURUSD" (1 # 100) price (price - (10 # 10000))
            (type_filling ORDER_FILLING_FOK) "filling_test".

(** Lines 74-77. *)
Definition check_line (t : ProbeTerminal) (r : Request) : string :=
  match order_check t r with
  | Some (retcode, comment) =>
      "Order check result: retcode=" ++ Format.py_str_int retcode ++ ", comment=" ++ comment
  | None => "Order check failed: " ++ last_error t
  end.

(** Lines 6-80: the printed lines, how the script ends and whether
    [mt5.shutdown()] ran. *)
Definition probe_main (t : ProbeTerminal) : list string * ProbeExit * bool :=
  let pre := [rule; "FILLING MODE TEST"; rule]%string
             ++ List.concat (map report_line_text (filling_report (symbol_info t)))
             ++ constants_lines
             ++ [nl ++ "Testing order placement with FOK (type_filling=0)..."]%string in
  match tick_ask t "EURUSD" with
  | None => (pre, AttributeErrorAtTick, false)
  | Some price =>
      let r := request price in
      (pre ++ ["Request: type_filling=" ++ Format.py_str_int (req_type_filling r);
               check_line t r; nl ++ "Done!"]%string,
       Done, true)
  end.

(** ** Reference: the block of a symbol, from its mask *)

(** What the block of lines 19-43 says of a symbol, with the three
    flags read as bits 0, 1, 2 of [fm]. *)
Definition symbol_block (si : string -> option Z) (s : string) : list string :=
  match si s with
  | None => [s ++ ": NOT AVAILABLE"]%string
  | Some fm =>
      [nl ++ s ++ ":";
       "  filling_mode = " ++ Format.py_str_int fm ++ " (binary: " ++ py_bin fm ++ ")";
       "  Bit 0 (FOK): " ++ yes_no (Z.testbit fm 0);
       "  Bit 1 (IOC): " ++ yes_no (Z.testbit fm 1);
       "  Bit 2 (RETURN): " ++ yes_no (Z.testbit fm 2);
       "  -> Should use: " ++ snd (choose_filling fm) ++ " (type_filling="
         ++ Format.py_str_int (type_filling (fst (choose_filling fm))) ++ ")"]%string
  end.

Lemma report_line_text_block (si : string -> option Z) :
  map report_line_text (filling_report si) = map (symbol_block si) symbols.
Proof.
  unfold filling_report. rewrite map_map. apply map_ext. intro s. unfold symbol_block.
  destruct (si s) as [fm|]; [|reflexivity].
  rewrite <- py_bit_1, <- py_bit_2, <- py_bit_4. destruct (choose_filling fm); reflexivity.
Qed.

(** The script prints the banner, then for each symbol of line 14, in
    order, "NOT AVAILABLE" or the block of its mask: the mask, its
    binary form, its bits 0, 1 and 2 as YES or NO, and the chosen
    policy with its [type_filling]; then the constants and the order
    test. *)
Theorem probe_symbol_blocks (t : ProbeTerminal) :
  exists rest, fst (fst (probe_main t))
               = [rule; "FILLING MODE TEST"; rule]%string
                 ++ List.concat (map (symbol_block (symbol_info t)) symbols)
                 ++ constants_lines ++ rest.
Proof.
  unfold probe_main. rewrite report_line_text_block.
  destruct (tick_ask t "EURUSD"); cbn [fst];
    eexists; rewrite <- ?app_assoc; reflexivity.
Qed.

(** (C33) The order test needs the EURUSD tick: when [symbol_info_tick]
    returns [None] the script stops with an AttributeError right after
    announcing the test, before [mt5.shutdown()]; otherwise it prints the
    request, the check's answer and "Done!" after closing the
    connection. *)
Theorem probe_main_tick (t : ProbeTerminal) :
  (tick_ask t "EURUSD" = None ->
   snd (fst (probe_main t)) = AttributeErrorAtTick /\ snd (probe_main t) = false
   /\ last (fst (fst (probe_main t))) EmptyString
      = (nl ++ "Testing order placement with FOK (type_filling=0)...")%string)
  /\ (forall price, tick_ask t "EURUSD" = Some price ->
      snd (fst (probe_main t)) = Done /\ snd (probe_main t) = true
      /\ exists pre, fst (fst (probe_main t))
                     = pre ++ ["Request: type_filling=0"; check_line t (request price);
                               nl ++ "Done!"]%string).
Proof.
  unfold probe_main. split; [intro H | intros price H]; rewrite H; cbn [fst snd].
  - split; [reflexivity | split; [reflexivity|]]. rewrite !app_assoc, last_last. reflexivity.
  - split; [reflexivity | split; [reflexivity|]]. eexists. reflexivity.
Qed.

(** ** A run *)

(** A terminal where EURUSD advertises IOC and RETURN, AUDUSD is
    unknown, the others advertise FOK, and no tick is available. *)
Definition sample_probe : ProbeTerminal :=
  mkProbeTerminal
    (fun s => if String.eqb s "EURUSD" then Some 6%Z
              else if String.eqb s "AUDUSD" then None else Some 1%Z)
    (fun _ => None) (fun _ => None) "(-1, 'Terminal: Call failed')"%string.

Example sample_probe_blocks :
  List.concat (map (symbol_block (symbol_info sample_probe)) ["EURUSD"; "AUDUSD"]%string)
  = [nl ++ "EURUSD:"; "  filling_mode = 6 (binary: 0b110)";
     "  Bit 0 (FOK): NO"; "  Bit 1 (IOC): YES"; "  Bit 2 (RETURN): YES";
     "  -> Should use: IOC (type_filling=1)"; "AUDUSD: NOT AVAILABLE"]%string
  /\ snd (probe_main sample_probe) = false.
Proof. vm_compute. split; reflexivity. Qed.

Lemma probe_main_tick_witness :
  snd (fst (probe_main sample_probe)) = AttributeErrorAtTick
  /\ snd (probe_main sample_probe) = false
  /\ last (fst (fst (probe_main sample_probe))) EmptyString
     = (nl ++ "Testing order placement with FOK (type_filling=0)...")%string.
Proof. apply (proj1 (probe_main_tick sample_probe)). reflexivity. Defined.

End Probe.
